(** * Catalog consistency core of the song scraping tool set

    A shallow embedding of the catalog code of the repository: the
    [SmartSongManager] and [save_databases] of [batch_artist_scraper.py],
    the [PlaylistRemover] of [remove_playlist.py], and the save paths of
    [song_cleanup_tool.py] and [playlist_song_downloader.py].

    Python strings are [string] (the ASCII fragment of [str]); Python
    dicts are insertion-ordered association lists; JSON documents are
    records whose optional keys are [option] fields; mutation of the
    in-memory working set is explicit state passing; file writes go to
    a small file-system record, with an oracle for the writes that
    raise. *)

From Stdlib Require Import List String Ascii Bool Arith NArith ZArith Lia.
Import ListNotations.

Set Implicit Arguments.

(* ================================================================= *)
(** ** Python string operations *)

Module PyStr.
Local Open Scope string_scope.
Local Open Scope nat_scope.

Definition code (c : ascii) : nat := nat_of_ascii c.

Definition is_upper (c : ascii) : bool :=
  (65 <=? code c) && (code c <=? 90).

Definition is_lower (c : ascii) : bool :=
  (97 <=? code c) && (code c <=? 122).

Definition is_digit (c : ascii) : bool :=
  (48 <=? code c) && (code c <=? 57).

(** [str.isspace] on the ASCII range: TAB, LF, VT, FF, CR, the four
    separators 0x1c..0x1f and the blank. *)
Definition is_space (c : ascii) : bool :=
  ((9 <=? code c) && (code c <=? 13))
  || ((28 <=? code c) && (code c <=? 31))
  || (code c =? 32).

Definition lower_char (c : ascii) : ascii :=
  if is_upper c then ascii_of_nat (code c + 32) else c.

(** [s.lower()] *)
Fixpoint lower (s : string) : string :=
  match s with
  | EmptyString => EmptyString
  | String c r => String (lower_char c) (lower r)
  end.

(** [s.lstrip()] *)
Fixpoint lstrip (s : string) : string :=
  match s with
  | EmptyString => EmptyString
  | String c r => if is_space c then lstrip r else s
  end.

(** [s.rstrip()]: a character is dropped when it is white space and
    everything after it has been dropped. *)
Fixpoint rstrip (s : string) : string :=
  match s with
  | EmptyString => EmptyString
  | String c r =>
      match rstrip r with
      | EmptyString => if is_space c then EmptyString else String c EmptyString
      | r' => String c r'
      end
  end.

(** [s.strip()] *)
Definition strip (s : string) : string := rstrip (lstrip s).

(** [sub in s] *)
Fixpoint contains (sub s : string) : bool :=
  prefix sub s ||
  match s with
  | EmptyString => false
  | String _ r => contains sub r
  end.

(** [re.sub(r'[^a-z0-9_]', '', s)] *)
Definition id_char (c : ascii) : bool :=
  is_lower c || is_digit c || (code c =? 95).

Fixpoint keep (p : ascii -> bool) (s : string) : string :=
  match s with
  | EmptyString => EmptyString
  | String c r => if p c then String c (keep p r) else keep p r
  end.

(** [s[:n]] *)
Fixpoint take (n : nat) (s : string) : string :=
  match n, s with
  | O, _ => EmptyString
  | _, EmptyString => EmptyString
  | S k, String c r => String c (take k r)
  end.

(** [bool(s)]: a string is true when it is not empty. *)
Definition truthy (s : string) : bool :=
  match s with EmptyString => false | _ => true end.

(** [x in l] for a list of strings. *)
Fixpoint mem (x : string) (l : list string) : bool :=
  match l with
  | [] => false
  | y :: r => String.eqb x y || mem x r
  end.

(** [l.remove(x)]: the first occurrence goes; the caller tests
    membership first, so the [ValueError] case is not reached. *)
Fixpoint remove_first (x : string) (l : list string) : list string :=
  match l with
  | [] => []
  | y :: r => if String.eqb x y then r else y :: remove_first x r
  end.

(** [s.startswith(p)] *)
Definition startswith (p s : string) : bool := prefix p s.

(** [s.endswith(suffix)] *)
Fixpoint endswith (suffix s : string) : bool :=
  String.eqb suffix s ||
  match s with
  | EmptyString => false
  | String _ r => endswith suffix r
  end.

(** [s[:-n]] for [n > 0] *)
Definition drop_last (n : nat) (s : string) : string :=
  take (String.length s - n) s.

Definition is_alnum (c : ascii) : bool :=
  is_lower c || is_upper c || is_digit c.


Fixpoint all_chars (p : ascii -> bool) (s : string) : bool :=
  match s with
  | EmptyString => true
  | String c r => p c && all_chars p r
  end.

(** [s.isalnum()] *)
Definition isalnum (s : string) : bool := truthy s && all_chars is_alnum s.

(** [sorted(l)] for a list of strings: insertion in code-point order. *)
Fixpoint insert_sorted (x : string) (l : list string) : list string :=
  match l with
  | [] => [x]
  | y :: r => if String.leb x y then x :: l else y :: insert_sorted x r
  end.

Fixpoint sorted (l : list string) : list string :=
  match l with
  | [] => []
  | x :: r => insert_sorted x (sorted r)
  end.

(** [s.replace(c, '')] for a one-character [c]. *)
Definition without (c : ascii) (s : string) : string :=
  keep (fun x => negb (Ascii.eqb x c)) s.





End PyStr.

(* ================================================================= *)
(** ** MD5 ([hashlib.md5(...).hexdigest()]), RFC 1321 *)

Module MD5.
Local Open Scope N_scope.

Definition w32 (x : N) : N := x mod 2 ^ 32.
Definition add32 (x y : N) : N := w32 (x + y).
Definition not32 (x : N) : N := N.lxor x 0xFFFFFFFF.
Definition rotl32 (x n : N) : N :=
  N.lor (w32 (N.shiftl x n)) (N.shiftr x (32 - n)).

Definition shifts : list N :=
  [ 7; 12; 17; 22; 7; 12; 17; 22; 7; 12; 17; 22; 7; 12; 17; 22;
    5;  9; 14; 20; 5;  9; 14; 20; 5;  9; 14; 20; 5;  9; 14; 20;
    4; 11; 16; 23; 4; 11; 16; 23; 4; 11; 16; 23; 4; 11; 16; 23;
    6; 10; 15; 21; 6; 10; 15; 21; 6; 10; 15; 21; 6; 10; 15; 21 ].

Definition sines : list N :=
  [ 0xd76aa478; 0xe8c7b756; 0x242070db; 0xc1bdceee;
    0xf57c0faf; 0x4787c62a; 0xa8304613; 0xfd469501;
    0x698098d8; 0x8b44f7af; 0xffff5bb1; 0x895cd7be;
    0x6b901122; 0xfd987193; 0xa679438e; 0x49b40821;
    0xf61e2562; 0xc040b340; 0x265e5a51; 0xe9b6c7aa;
    0xd62f105d; 0x02441453; 0xd8a1e681; 0xe7d3fbc8;
    0x21e1cde6; 0xc33707d6; 0xf4d50d87; 0x455a14ed;
    0xa9e3e905; 0xfcefa3f8; 0x676f02d9; 0x8d2a4c8a;
    0xfffa3942; 0x8771f681; 0x6d9d6122; 0xfde5380c;
    0xa4beea44; 0x4bdecfa9; 0xf6bb4b60; 0xbebfbc70;
    0x289b7ec6; 0xeaa127fa; 0xd4ef3085; 0x04881d05;
    0xd9d4d039; 0xe6db99e5; 0x1fa27cf8; 0xc4ac5665;
    0xf4292244; 0x432aff97; 0xab9423a7; 0xfc93a039;
    0x655b59c3; 0x8f0ccc92; 0xffeff47d; 0x85845dd1;
    0x6fa87e4f; 0xfe2ce6e0; 0xa3014314; 0x4e0811a1;
    0xf7537e82; 0xbd3af235; 0x2ad7d2bb; 0xeb86d391 ].

Definition nthN (l : list N) (i : N) : N := nth (N.to_nat i) l 0.

(** The four chaining words. *)
Record state := St { sa : N; sb : N; sc : N; sd : N }.

Definition init : state :=
  St 0x67452301 0xefcdab89 0x98badcfe 0x10325476.

(** One of the 64 operations of a block, on message words [m]. *)
Definition op (m : list N) (s : state) (i : N) : state :=
  let '(St a b c d) := s in
  let '(f, g) :=
    if i <? 16 then (N.lor (N.land b c) (N.land (not32 b) d), i)
    else if i <? 32 then
      (N.lor (N.land d b) (N.land (not32 d) c), (5 * i + 1) mod 16)
    else if i <? 48 then (N.lxor b (N.lxor c d), (3 * i + 5) mod 16)
    else (N.lxor c (N.lor b (not32 d)), (7 * i) mod 16) in
  let f' := add32 (add32 (add32 f a) (nthN sines i)) (nthN m g) in
  St d (add32 b (rotl32 f' (nthN shifts i))) b c.

Definition rounds : list N := map N.of_nat (seq 0 64).

Definition block (s : state) (m : list N) : state :=
  let '(St a b c d) := fold_left (op m) rounds s in
  St (add32 (sa s) a) (add32 (sb s) b) (add32 (sc s) c) (add32 (sd s) d).

(** Little-endian packing of bytes into 32-bit words and back. *)
Fixpoint words (bs : list N) : list N :=
  match bs with
  | b0 :: b1 :: b2 :: b3 :: r =>
      (b0 + 2 ^ 8 * b1 + 2 ^ 16 * b2 + 2 ^ 24 * b3) :: words r
  | _ => []
  end.

Definition le_bytes (n : nat) (x : N) : list N :=
  map (fun k => N.shiftr x (8 * N.of_nat k) mod 256) (seq 0 n).

(** Padding: 0x80, zeros up to 56 modulo 64, the bit length on 8 bytes. *)
Definition pad (msg : list N) : list N :=
  let len := N.of_nat (List.length msg) in
  let zeros := N.to_nat ((119 - len mod 64) mod 64) in
  msg ++ [0x80] ++ repeat 0 zeros ++ le_bytes 8 ((8 * len) mod 2 ^ 64).

Fixpoint chunks (fuel : nat) (ws : list N) : list (list N) :=
  match fuel, ws with
  | O, _ => []
  | _, [] => []
  | S k, _ => firstn 16 ws :: chunks k (skipn 16 ws)
  end.

Definition digest (msg : list N) : list N :=
  let ws := words (pad msg) in
  let s := fold_left block (chunks (List.length ws) ws) init in
  le_bytes 4 (sa s) ++ le_bytes 4 (sb s) ++ le_bytes 4 (sc s)
  ++ le_bytes 4 (sd s).

Definition hex_digit (n : N) : ascii :=
  if n <? 10 then ascii_of_N (48 + n) else ascii_of_N (87 + n).

Fixpoint hex (bs : list N) : string :=
  match bs with
  | [] => EmptyString
  | b :: r => String (hex_digit (b / 16)) (String (hex_digit (b mod 16)) (hex r))
  end.

(** [str.encode()] on the ASCII fragment. *)
Fixpoint encode (s : string) : list N :=
  match s with
  | EmptyString => []
  | String c r => N_of_ascii c :: encode r
  end.

Definition hexdigest (s : string) : string := hex (digest (encode s)).

End MD5.

(* ================================================================= *)
(** ** Python dicts with string keys

    A dict is the list of its bindings in insertion order (the order of
    [items()]); keys are unique in a dict that Python built. *)

Module Dict.
Section Defs.
Variable V : Type.

Definition t := list (string * V).

Definition empty : t := [].

(** [d.get(k)] *)
Fixpoint get (k : string) (d : t) : option V :=
  match d with
  | [] => None
  | (k', v) :: r => if String.eqb k k' then Some v else get k r
  end.

(** [k in d] *)
Definition has (k : string) (d : t) : bool :=
  match get k d with Some _ => true | None => false end.

(** [d[k] = v]: an existing key keeps its place, a new one goes last. *)
Fixpoint set (k : string) (v : V) (d : t) : t :=
  match d with
  | [] => [(k, v)]
  | (k', v') :: r =>
      if String.eqb k k' then (k, v) :: r else (k', v') :: set k v r
  end.

(** [del d[k]], for a key that is present. *)
Fixpoint del (k : string) (d : t) : t :=
  match d with
  | [] => []
  | (k', v') :: r =>
      if String.eqb k k' then del k r else (k', v') :: del k r
  end.

Definition keys (d : t) : list string := map fst d.

(** [len(d)] *)
Definition len (d : t) : nat := List.length d.

(** The keys of a dict are pairwise distinct. *)
Definition wf (d : t) : Prop := NoDup (keys d).
End Defs.
End Dict.

(** [o.get(key, default)] on an optional key. *)
Definition get_or {A : Type} (o : option A) (default : A) : A :=
  match o with Some a => a | None => default end.

(* ================================================================= *)
(** ** The four documents *)

(** [metadata] of a song. A string key that is absent reads as [""],
    which is what every [get(key, '')] of the catalog code makes of it. *)
Record Metadata := mkMetadata {
  track_name : string;
  artists_string : string;
  artists_info : list (string * string);
  track_uri : string;
  duration_ms : nat;
  album_name : string;
  track_number : nat
}.

Record DownloadInfo := mkDownloadInfo {
  status : string;
  file_path : option string;
  file_size : option nat;
  quality : string;
  downloaded_at : option string
}.

(** A song record; [playlists] is [None] when the key is absent. *)
Record Song := mkSong {
  metadata : Metadata;
  playlists : option (list string);
  download_info : DownloadInfo;
  added_at : string
}.

(** A playlist record. The writers of the catalog store the member
    songs under ['songs']; ['song_ids'] is the key the remover reads. *)
Record Playlist := mkPlaylist {
  name : string;
  total_tracks : nat;
  successful_downloads : nat;
  source_url : string;
  timestamp : string;
  songs : list string;
  song_ids : option (list string);
  unique_song_count : nat;
  p_created_at : string;
  p_last_updated : string
}.

(** An artist record; [playlist_ids] is [None] when the key is absent. *)
Record Artist := mkArtist {
  a_name : string;
  a_uri : string;
  playlist_ids : option (list string);
  a_created_at : string;
  a_last_updated : string
}.

(** The top-level documents. The empty dict [{}], which the loaders
    return for a missing file, has every key absent. *)
Record SongsDoc := mkSongsDoc {
  d_songs : option (Dict.t Song);
  total_songs : option nat;
  s_last_updated : option string
}.

Record PlaylistsDoc := mkPlaylistsDoc {
  d_playlists : option (Dict.t Playlist);
  total_playlists : option nat;
  pl_last_updated : option string
}.

Record ArtistsDoc := mkArtistsDoc {
  d_artists : option (Dict.t Artist);
  total_artists : option nat;
  ar_last_updated : option string
}.

Record MappingDoc := mkMappingDoc {
  d_mapping : option (Dict.t (list string));
  m_last_updated : option string
}.

Definition empty_songs_doc : SongsDoc := mkSongsDoc None None None.
Definition empty_playlists_doc : PlaylistsDoc := mkPlaylistsDoc None None None.
Definition empty_artists_doc : ArtistsDoc := mkArtistsDoc None None None.
Definition empty_mapping_doc : MappingDoc := mkMappingDoc None None.

(** [bool(doc)]: a dict is true when it has a key. *)
Definition artists_doc_truthy (d : ArtistsDoc) : bool :=
  match d with
  | mkArtistsDoc None None None => false
  | _ => true
  end.

Definition mapping_doc_truthy (d : MappingDoc) : bool :=
  match d with
  | mkMappingDoc None None => false
  | _ => true
  end.

(* ================================================================= *)
(** ** Files and the environment *)

Inductive store := SongsStore | PlaylistsStore | ArtistsStore | MappingStore.

Inductive document :=
| DSongs (d : SongsDoc)
| DPlaylists (d : PlaylistsDoc)
| DArtists (d : ArtistsDoc)
| DMapping (d : MappingDoc).

(** The metadata folder (one file per store, [None] when the file does
    not exist), the side files of the cleanup tool, the names of the
    files of the songs folder, and the log of the store writes that
    were attempted, each with its outcome. *)
Record FS := mkFS {
  f_songs : option SongsDoc;
  f_playlists : option PlaylistsDoc;
  f_artists : option ArtistsDoc;
  f_mapping : option MappingDoc;
  f_backups : list (store * string * document);
  f_audio : list string;
  f_writes : list (store * bool)
}.

(** What the run cannot decide: which store writes raise, which
    [unlink] calls raise, which downloads succeed, and the clock. *)
Record Env := mkEnv {
  write_fails : store -> bool;
  unlink_fails : string -> bool;
  download_ok : string -> bool;
  now : string;
  now_stamp : string
}.

Definition write_songs (fs : FS) (d : SongsDoc) : FS :=
  mkFS (Some d) (f_playlists fs) (f_artists fs) (f_mapping fs)
       (f_backups fs) (f_audio fs) (f_writes fs).

Definition write_playlists (fs : FS) (d : PlaylistsDoc) : FS :=
  mkFS (f_songs fs) (Some d) (f_artists fs) (f_mapping fs)
       (f_backups fs) (f_audio fs) (f_writes fs).

Definition write_artists (fs : FS) (d : ArtistsDoc) : FS :=
  mkFS (f_songs fs) (f_playlists fs) (Some d) (f_mapping fs)
       (f_backups fs) (f_audio fs) (f_writes fs).

Definition write_mapping (fs : FS) (d : MappingDoc) : FS :=
  mkFS (f_songs fs) (f_playlists fs) (f_artists fs) (Some d)
       (f_backups fs) (f_audio fs) (f_writes fs).

Definition write_doc (fs : FS) (d : document) : FS :=
  match d with
  | DSongs x => write_songs fs x
  | DPlaylists x => write_playlists fs x
  | DArtists x => write_artists fs x
  | DMapping x => write_mapping fs x
  end.

Definition store_of (d : document) : store :=
  match d with
  | DSongs _ => SongsStore
  | DPlaylists _ => PlaylistsStore
  | DArtists _ => ArtistsStore
  | DMapping _ => MappingStore
  end.

Definition read_doc (fs : FS) (s : store) : option document :=
  match s with
  | SongsStore => option_map DSongs (f_songs fs)
  | PlaylistsStore => option_map DPlaylists (f_playlists fs)
  | ArtistsStore => option_map DArtists (f_artists fs)
  | MappingStore => option_map DMapping (f_mapping fs)
  end.

Definition log_write (fs : FS) (s : store) (ok : bool) : FS :=
  mkFS (f_songs fs) (f_playlists fs) (f_artists fs) (f_mapping fs)
       (f_backups fs) (f_audio fs) (f_writes fs ++ [(s, ok)]).

(** [with open(path, 'w') as f: json.dump(doc, f)]: [false] stands for
    the exception of a write that fails; the file is then left as it
    was. *)
Definition dump (env : Env) (fs : FS) (d : document) : FS * bool :=
  if write_fails env (store_of d)
  then (log_write fs (store_of d) false, false)
  else (write_doc (log_write fs (store_of d) true) d, true).

Definition set_audio (fs : FS) (l : list string) : FS :=
  mkFS (f_songs fs) (f_playlists fs) (f_artists fs) (f_mapping fs)
       (f_backups fs) l (f_writes fs).

Definition add_backup (fs : FS) (b : store * string * document) : FS :=
  mkFS (f_songs fs) (f_playlists fs) (f_artists fs) (f_mapping fs)
       (f_backups fs ++ [b]) (f_audio fs) (f_writes fs).

(** Exceptions that leave a function. *)
Inductive exn := KeyError (k : string) | EOFError.

Inductive result (A : Type) :=
| Ok (a : A)
| Raise (e : exn).
Arguments Ok {A} a.
Arguments Raise {A} e.

(* ================================================================= *)
(** ** [batch_artist_scraper.py]: the song manager and ingestion *)

Module Scraper.
Import PyStr.
Local Open Scope string_scope.

Record SmartSongManager := mkManager {
  existing_songs : Dict.t Song;
  existing_playlists : Dict.t Playlist;
  existing_artists : Dict.t Artist;
  uri_to_song_id : Dict.t string;
  name_artist_to_song_id : Dict.t string
}.

(** The manager as [__init__] leaves it before loading. *)
Definition fresh_manager : SmartSongManager := mkManager [] [] [] [] [].

Definition with_songs (m : SmartSongManager) (s : Dict.t Song) :=
  mkManager s (existing_playlists m) (existing_artists m)
            (uri_to_song_id m) (name_artist_to_song_id m).

Definition with_playlists (m : SmartSongManager) (p : Dict.t Playlist) :=
  mkManager (existing_songs m) p (existing_artists m)
            (uri_to_song_id m) (name_artist_to_song_id m).

Definition with_artists (m : SmartSongManager) (a : Dict.t Artist) :=
  mkManager (existing_songs m) (existing_playlists m) a
            (uri_to_song_id m) (name_artist_to_song_id m).

(** The body of the loop of [load_existing_databases] over the stored
    songs: install the record, then index it by uri and by name+artist. *)
Definition load_song (m : SmartSongManager) (entry : string * Song)
  : SmartSongManager :=
  let '(song_id, song_info) := entry in
  let songs' := Dict.set song_id song_info (existing_songs m) in
  let md := metadata song_info in
  let uri := track_uri md in
  let uris' :=
    if truthy uri then Dict.set uri song_id (uri_to_song_id m)
    else uri_to_song_id m in
  let tn := strip (lower (track_name md)) in
  let ar := strip (lower (artists_string md)) in
  let names' :=
    if truthy tn && truthy ar
    then Dict.set (tn ++ "|" ++ ar) song_id (name_artist_to_song_id m)
    else name_artist_to_song_id m in
  mkManager songs' (existing_playlists m) (existing_artists m) uris' names'.

(** [SmartSongManager()]: a store whose file is absent stays empty. *)
Definition load_existing_databases (fs : FS) : SmartSongManager :=
  let m1 :=
    match f_songs fs with
    | Some data => fold_left load_song (get_or (d_songs data) []) fresh_manager
    | None => fresh_manager
    end in
  let m2 :=
    match f_playlists fs with
    | Some data => with_playlists m1 (get_or (d_playlists data) [])
    | None => m1
    end in
  match f_artists fs with
  | Some data => with_artists m2 (get_or (d_artists data) [])
  | None => m2
  end.

(** The normalized string that is hashed. *)
Definition clean_string (track_name artists : string) : string :=
  keep id_char (lower (track_name ++ "_" ++ artists)).

Definition generate_song_id (track_name artists : string) : string :=
  "song_" ++ take 12 (MD5.hexdigest (clean_string track_name artists)).

(** [self.existing_songs[song_id]] of a lookup hit. *)
Definition hit (m : SmartSongManager) (song_id : string)
  : result (option (string * Song)) :=
  match Dict.get song_id (existing_songs m) with
  | Some info => Ok (Some (song_id, info))
  | None => Raise (KeyError song_id)
  end.

Definition find_existing_song (m : SmartSongManager) (track_info : Metadata)
  : result (option (string * Song)) :=
  let uri := track_uri track_info in
  let tn := strip (lower (track_name track_info)) in
  let ar := strip (lower (artists_string track_info)) in
  match (if truthy uri then Dict.get uri (uri_to_song_id m) else None) with
  | Some song_id => hit m song_id
  | None =>
      if truthy tn && truthy ar then
        match Dict.get (tn ++ "|" ++ ar) (name_artist_to_song_id m) with
        | Some song_id => hit m song_id
        | None => Ok None
        end
      else Ok None
  end.

Definition set_playlists (s : Song) (l : list string) : Song :=
  mkSong (metadata s) (Some l) (download_info s) (added_at s).

Definition add_playlist_to_song (m : SmartSongManager)
    (song_id playlist_id : string) : SmartSongManager * bool :=
  match Dict.get song_id (existing_songs m) with
  | Some s =>
      let current_playlists := get_or (playlists s) [] in
      if negb (mem playlist_id current_playlists) then
        (with_songs m
           (Dict.set song_id
              (set_playlists s (current_playlists ++ [playlist_id]))
              (existing_songs m)),
         true)
      else (m, false)
  | None => (m, false)
  end.

Definition store_artist_info (m : SmartSongManager)
    (artist_uri artist_name playlist_key now : string)
  : result SmartSongManager :=
  match Dict.get artist_uri (existing_artists m) with
  | Some a =>
      if negb (mem playlist_key (get_or (playlist_ids a) [])) then
        match playlist_ids a with
        | Some l =>
            Ok (with_artists m
                  (Dict.set artist_uri
                     (mkArtist (a_name a) (a_uri a) (Some (l ++ [playlist_key])%list)
                               (a_created_at a) now)
                     (existing_artists m)))
        | None => Raise (KeyError "playlist_ids")
        end
      else Ok m
  | None =>
      Ok (with_artists m
            (Dict.set artist_uri
               (mkArtist artist_name artist_uri (Some [playlist_key]) now now)
               (existing_artists m)))
  end.

(** A captured track, as the ingestion collaborator hands it over; a
    key that is absent (or holds [None]) is [None]. *)
Record ArtistItem := mkArtistItem {
  profile_name : option string;
  item_uri : option string
}.

Record TrackData := mkTrackData {
  td_name : option string;
  td_uri : option string;
  td_duration : option nat;
  td_artists : list ArtistItem
}.

(** [safe_get(data, *keys, default=...)] for a string: the default
    replaces a missing and a blank value. *)
Definition safe_get (o : option string) (default : string) : string :=
  match o with
  | Some s => if truthy (strip s) then s else default
  | None => default
  end.

(** [', '.join(names)] *)
Fixpoint join (sep : string) (l : list string) : string :=
  match l with
  | [] => ""
  | [x] => x
  | x :: r => x ++ sep ++ join sep r
  end.

(** The loop over the artists of one track: collect name and uri, and
    store each artist under the playlist. A [KeyError] leaves the loop
    with the artists stored so far. *)
Fixpoint store_track_artists (now playlist_key : string)
    (m : SmartSongManager) (items : list ArtistItem)
    (artists_info : list (string * string))
  : SmartSongManager * result (list (string * string)) :=
  match items with
  | [] => (m, Ok artists_info)
  | artist :: rest =>
      let artist_name_individual :=
        safe_get (profile_name artist) "Unknown Artist" in
      let artist_uri := safe_get (item_uri artist) "" in
      match store_artist_info m artist_uri artist_name_individual
                              playlist_key now with
      | Ok m' =>
          store_track_artists now playlist_key m' rest
            (artists_info ++ [(artist_name_individual, artist_uri)])
      | Raise e => (m, Raise e)
      end
  end.

(** The locals of [process_artist_tracks] that the track loop updates. *)
Record Run := mkRun {
  song_manager : SmartSongManager;
  processed_tracks : list Metadata;
  run_song_ids : list string;
  new_songs_to_download : list (string * string * string);
  existing_songs_updated : nat
}.

Definition AUDIO_QUALITY : string := "192K".

Definition with_manager (r : Run) (m : SmartSongManager) : Run :=
  mkRun m (processed_tracks r) (run_song_ids r) (new_songs_to_download r)
        (existing_songs_updated r).

(** The body of the track loop. An exception ends the iteration
    ([except ... continue]) and keeps what was mutated before it. *)
Definition process_track (now playlist_key : string) (r : Run)
    (track_data : TrackData) : Run :=
  let track_name := safe_get (td_name track_data) "Unknown Track" in
  let track_uri := safe_get (td_uri track_data) "" in
  let duration_ms := get_or (td_duration track_data) 0 in
  match store_track_artists now playlist_key (song_manager r)
                            (td_artists track_data) [] with
  | (m1, Raise _) => with_manager r m1
  | (m1, Ok artists_info) =>
      let artists_string := join ", " (map fst artists_info) in
      let track_info :=
        mkMetadata track_name artists_string artists_info track_uri
                   duration_ms "Artist Discography"
                   (List.length (processed_tracks r) + 1) in
      let song_id := generate_song_id track_name artists_string in
      match find_existing_song m1 track_info with
      | Raise _ => with_manager r m1
      | Ok (Some (existing_song_id, _)) =>
          let '(m2, changed) :=
            add_playlist_to_song m1 existing_song_id playlist_key in
          mkRun m2 (processed_tracks r ++ [track_info])
                (run_song_ids r ++ [existing_song_id])
                (new_songs_to_download r)
                (if changed then existing_songs_updated r + 1
                 else existing_songs_updated r)
      | Ok None =>
          let song_entry :=
            mkSong track_info (Some [playlist_key])
                   (mkDownloadInfo "pending" None None AUDIO_QUALITY None)
                   now in
          mkRun (with_songs m1 (Dict.set song_id song_entry (existing_songs m1)))
                (processed_tracks r ++ [track_info])
                (run_song_ids r ++ [song_id])
                (new_songs_to_download r
                   ++ [(song_id, track_name, artists_string)])
                (existing_songs_updated r)
      end
  end.

(** The mapping view that [save_databases] derives from the songs. *)
Definition song_playlist_mapping (songs : Dict.t Song)
  : Dict.t (list string) :=
  fold_left
    (fun mp (entry : string * Song) =>
       Dict.set (fst entry) (get_or (playlists (snd entry)) []) mp)
    songs [].

(** [save_databases(song_manager)]: one [try] around the four writes,
    so the first write that raises ends the save. *)
Definition save_databases (env : Env) (fs : FS) (m : SmartSongManager) : FS :=
  let songs_db :=
    mkSongsDoc (Some (existing_songs m))
               (Some (Dict.len (existing_songs m))) (Some (now env)) in
  let '(fs1, ok1) := dump env fs (DSongs songs_db) in
  if negb ok1 then fs1 else
  let playlists_db :=
    mkPlaylistsDoc (Some (existing_playlists m))
                   (Some (Dict.len (existing_playlists m))) (Some (now env)) in
  let '(fs2, ok2) := dump env fs1 (DPlaylists playlists_db) in
  if negb ok2 then fs2 else
  let artists_db :=
    mkArtistsDoc (Some (existing_artists m))
                 (Some (Dict.len (existing_artists m))) (Some (now env)) in
  let '(fs3, ok3) := dump env fs2 (DArtists artists_db) in
  if negb ok3 then fs3 else
  let mapping_db :=
    mkMappingDoc (Some (song_playlist_mapping (existing_songs m)))
                 (Some (now env)) in
  fst (dump env fs3 (DMapping mapping_db)).

(** The uri of the artist of the first track whose name is the
    artist's ([break] at the first match). *)
Fixpoint find_main_artist (artist_name : string) (items : list ArtistItem)
  : string :=
  match items with
  | [] => ""
  | artist :: rest =>
      if String.eqb (safe_get (profile_name artist) "Unknown") artist_name
      then safe_get (item_uri artist) ""
      else find_main_artist artist_name rest
  end.

Definition is_completed (m : SmartSongManager) (song_id : string) : bool :=
  match Dict.get song_id (existing_songs m) with
  | Some s => String.eqb (status (download_info s)) "completed"
  | None => false
  end.

Definition set_download_info (s : Song) (d : DownloadInfo) : Song :=
  mkSong (metadata s) (playlists s) d (added_at s).

(** One download: the collaborator's answer goes into the status of
    the song, which the track loop has installed. *)
Definition download_step (env : Env)
    (acc : SmartSongManager * FS * nat) (item : string * string * string)
  : SmartSongManager * FS * nat :=
  let '(m, fs, successful_downloads) := acc in
  let '(song_id, _, _) := item in
  match Dict.get song_id (existing_songs m) with
  | None => acc
  | Some s =>
      let di := download_info s in
      if download_ok env song_id then
        let file := "consolidated_music/songs/" ++ song_id ++ ".mp3" in
        let di' := mkDownloadInfo "completed" (Some file) (file_size di)
                                  (quality di) (Some (now env)) in
        (with_songs m (Dict.set song_id (set_download_info s di')
                                (existing_songs m)),
         set_audio fs (f_audio fs ++ [(song_id ++ ".mp3")%string])%list,
         successful_downloads + 1)
      else
        let di' := mkDownloadInfo "failed" (file_path di) (file_size di)
                                  (quality di) (downloaded_at di) in
        (with_songs m (Dict.set song_id (set_download_info s di')
                                (existing_songs m)),
         fs, successful_downloads)
  end.

Definition set_successful (p : Playlist) (n : nat) (now : string) : Playlist :=
  mkPlaylist (name p) (total_tracks p) n (source_url p) (timestamp p)
             (songs p) (song_ids p) (unique_song_count p) (p_created_at p) now.

(** [process_artist_tracks(artist_name, artist_id)] over the captured
    tracks: load, resolve every track, install the playlist, save, then
    download the new songs and save again. *)
Definition process_artist_tracks (env : Env) (fs : FS)
    (all_artist_tracks : list TrackData) (artist_name artist_id : string)
  : FS * result unit :=
  match all_artist_tracks with
  | [] => (fs, Ok tt)
  | first_track :: _ =>
      let m0 := load_existing_databases fs in
      let playlist_key := "artist_" ++ artist_id in
      let playlist_name := artist_name ++ " - Discography" in
      let main_artist_uri :=
        find_main_artist artist_name (td_artists first_track) in
      let r := fold_left (process_track (now env) playlist_key)
                         all_artist_tracks (mkRun m0 [] [] [] 0) in
      let m1 := song_manager r in
      let song_ids := run_song_ids r in
      let successful_downloads :=
        List.length (filter (is_completed m1) song_ids) in
      let playlist_entry :=
        mkPlaylist playlist_name (List.length song_ids) successful_downloads
          ("https://open.spotify.com/artist/" ++ artist_id
             ++ "/discography/all")
          (now_stamp env) song_ids None (List.length song_ids)
          (now env) (now env) in
      let m2 := with_playlists m1
                  (Dict.set playlist_key playlist_entry
                            (existing_playlists m1)) in
      match (if truthy main_artist_uri
             then store_artist_info m2 main_artist_uri artist_name
                                    playlist_key (now env)
             else Ok m2) with
      | Raise e => (fs, Raise e)
      | Ok m3 =>
          let fs1 := save_databases env fs m3 in
          match new_songs_to_download r with
          | [] => (fs1, Ok tt)
          | news =>
              let '(m4, fs2, successful) :=
                fold_left (download_step env) news (m3, fs1, 0) in
              let m5 :=
                match Dict.get playlist_key (existing_playlists m4) with
                | Some p =>
                    with_playlists m4
                      (Dict.set playlist_key (set_successful p successful (now env))
                                (existing_playlists m4))
                | None => m4
                end in
              (save_databases env fs2 m5, Ok tt)
          end
      end
  end.

(** [get_artist_name_from_database(artist_id)]: the stored name of the
    artist, [""] when the file or the artist is absent or the name is
    blank or ['Unknown Artist']. *)
Definition get_artist_name_from_database (fs : FS) (artist_id : string)
  : string :=
  match f_artists fs with
  | Some artists_db =>
      let artist_uri := ("spotify:artist:" ++ artist_id)%string in
      match Dict.get artist_uri (get_or (d_artists artists_db) []) with
      | Some a =>
          let stored_name := a_name a in
          if PyStr.truthy stored_name
             && negb (String.eqb stored_name "Unknown Artist")
          then stored_name else ""%string
      | None => ""%string
      end
  | None => ""%string
  end.

End Scraper.

(* ================================================================= *)
(** ** [remove_playlist.py]: the playlist remover *)

Module Remover.
Import PyStr.
Local Open Scope string_scope.

Record PlaylistRemover := mkRemover {
  songs_db : SongsDoc;
  playlists_db : PlaylistsDoc;
  artists_db : ArtistsDoc;
  mapping_db : MappingDoc
}.

(** [load_databases]: the songs and the playlists files are required,
    and a missing one ends the load; the other two are optional. *)
Definition load_databases (fs : FS) : PlaylistRemover * bool :=
  match f_songs fs with
  | None =>
      (mkRemover empty_songs_doc empty_playlists_doc empty_artists_doc
                 empty_mapping_doc, false)
  | Some s =>
      match f_playlists fs with
      | None =>
          (mkRemover s empty_playlists_doc empty_artists_doc
                     empty_mapping_doc, false)
      | Some p =>
          (mkRemover s p (get_or (f_artists fs) empty_artists_doc)
                     (get_or (f_mapping fs) empty_mapping_doc), true)
      end
  end.

(** [save_databases]: one [try] around all writes; each document is
    stamped and counted in memory before its write. *)
Definition save_databases (env : Env) (fs : FS) (r : PlaylistRemover)
  : PlaylistRemover * FS * bool :=
  let current_time := now env in
  let sdb := mkSongsDoc (d_songs (songs_db r))
               (Some (Dict.len (get_or (d_songs (songs_db r)) [])))
               (Some current_time) in
  let r1 := mkRemover sdb (playlists_db r) (artists_db r) (mapping_db r) in
  let '(fs1, ok1) := dump env fs (DSongs sdb) in
  if negb ok1 then (r1, fs1, false) else
  let pdb := mkPlaylistsDoc (d_playlists (playlists_db r))
               (Some (Dict.len (get_or (d_playlists (playlists_db r)) [])))
               (Some current_time) in
  let r2 := mkRemover sdb pdb (artists_db r) (mapping_db r) in
  let '(fs2, ok2) := dump env fs1 (DPlaylists pdb) in
  if negb ok2 then (r2, fs2, false) else
  let adb := mkArtistsDoc (d_artists (artists_db r))
               (Some (Dict.len (get_or (d_artists (artists_db r)) [])))
               (Some current_time) in
  let '(r3, fs3, ok3) :=
    if artists_doc_truthy (artists_db r)
    then let '(fs', ok) := dump env fs2 (DArtists adb) in
         (mkRemover sdb pdb adb (mapping_db r), fs', ok)
    else (r2, fs2, true) in
  if negb ok3 then (r3, fs3, false) else
  let mdb := mkMappingDoc (d_mapping (mapping_db r)) (Some current_time) in
  if mapping_doc_truthy (mapping_db r)
  then let '(fs4, ok4) := dump env fs3 (DMapping mdb) in
       (mkRemover (songs_db r3) (playlists_db r3) (artists_db r3) mdb,
        fs4, ok4)
  else (r3, fs3, true).

(** [int(choice)] on a stripped line: an optional sign, then digits,
    with single underscores allowed between digits. *)
Fixpoint digits (s : string) (acc : Z) (after_digit : bool) : option Z :=
  match s with
  | EmptyString => if after_digit then Some acc else None
  | String c r =>
      if is_digit c then
        digits r (10 * acc + Z.of_nat (code c - 48))%Z true
      else if (code c =? 95)%nat && after_digit then digits r acc false
      else None
  end.

Definition parse_int (s : string) : option Z :=
  match s with
  | String "+" r => digits r 0%Z false
  | String "-" r => option_map Z.opp (digits r 0%Z false)
  | _ => digits s 0%Z false
  end.

(** The ids of the playlists whose name contains the searched name or
    is contained in it, case-insensitively, in the order of the store. *)
Definition name_matches (playlist_name : string) (entry : string * Playlist)
  : bool :=
  let stored_name := lower (name (snd entry)) in
  let search_name := lower playlist_name in
  contains search_name stored_name || contains stored_name search_name.

Definition matches (r : PlaylistRemover) (playlist_name : string)
  : list string :=
  map fst (filter (name_matches playlist_name)
                  (get_or (d_playlists (playlists_db r)) [])).

(** The selection prompt of [find_playlist_by_name], over the lines
    still to be read from the terminal; the unread lines are returned. *)
Fixpoint select (found : list string) (inputs : list string)
  : result (option string) * list string :=
  match inputs with
  | [] => (Raise EOFError, [])
  | line :: rest =>
      let choice := strip line in
      if String.eqb (lower choice) "q" then (Ok None, rest)
      else
        match parse_int choice with
        | Some choice_num =>
            if ((1 <=? choice_num)%Z
                && (choice_num <=? Z.of_nat (List.length found))%Z)
            then (Ok (nth_error found (Z.to_nat (choice_num - 1))), rest)
            else select found rest
        | None => select found rest
        end
  end.

Definition find_playlist_by_name (r : PlaylistRemover)
    (playlist_name : string) (inputs : list string)
  : result (option string) * list string :=
  match matches r playlist_name with
  | [] => (Ok None, inputs)
  | [playlist_id] => (Ok (Some playlist_id), inputs)
  | found => select found inputs
  end.

Definition get_songs_in_playlist (r : PlaylistRemover) (playlist_id : string)
  : list string :=
  match Dict.get playlist_id (get_or (d_playlists (playlists_db r)) []) with
  | Some playlist_info => get_or (song_ids playlist_info) []
  | None => []
  end.

Definition with_songs (r : PlaylistRemover) (songs : Dict.t Song)
  : PlaylistRemover :=
  mkRemover (mkSongsDoc (Some songs) (total_songs (songs_db r))
                        (s_last_updated (songs_db r)))
            (playlists_db r) (artists_db r) (mapping_db r).

(** The body of the loop of [remove_playlist_from_songs]: the playlist
    id is taken out of the song's own list, in place, and the song is
    classified by what is left. *)
Definition detach (playlist_id : string)
    (acc : Dict.t Song * Dict.t string) (song_id : string)
  : Dict.t Song * Dict.t string :=
  let '(songs, song_actions) := acc in
  match Dict.get song_id songs with
  | Some s =>
      let song_playlists := get_or (playlists s) [] in
      let '(songs', song_playlists') :=
        if mem playlist_id song_playlists then
          let l := remove_first playlist_id song_playlists in
          (Dict.set song_id
             (mkSong (metadata s) (Some l) (download_info s) (added_at s))
             songs, l)
        else (songs, song_playlists) in
      match song_playlists' with
      | [] => (songs', Dict.set song_id "remove" song_actions)
      | _ => (songs', Dict.set song_id "keep" song_actions)
      end
  | None => acc
  end.

Definition remove_playlist_from_songs (r : PlaylistRemover)
    (playlist_id : string) (song_ids : list string)
  : PlaylistRemover * Dict.t string :=
  match d_songs (songs_db r) with
  | Some songs =>
      let '(songs', song_actions) :=
        fold_left (detach playlist_id) song_ids (songs, []) in
      (with_songs r songs', song_actions)
  | None => (r, [])
  end.

Definition extensions : list string :=
  [".mp3"; ".m4a"; ".flac"; ".wav"; ".ogg"].

(** The first extension whose file exists and can be unlinked. *)
Fixpoint unlink_song (env : Env) (fs : FS) (song_id : string)
    (exts : list string) : FS * bool :=
  match exts with
  | [] => (fs, false)
  | ext :: rest =>
      let song_file := song_id ++ ext in
      if mem song_file (f_audio fs) then
        if unlink_fails env song_file then unlink_song env fs song_id rest
        else (set_audio fs (remove_first song_file (f_audio fs)), true)
      else unlink_song env fs song_id rest
  end.

Definition remove_songs_from_filesystem (env : Env) (fs : FS)
    (songs_to_remove : list string) : FS * nat :=
  fold_left
    (fun (acc : FS * nat) song_id =>
       let '(fs', ok) := unlink_song env (fst acc) song_id extensions in
       (fs', if ok then snd acc + 1 else snd acc))
    songs_to_remove (fs, 0).

(** What the artist loop of [clean_artists_database] does to one
    record, and whether the record is marked for removal. *)
Definition clean_artist (now playlist_id : string) (a : Artist)
  : Artist * bool :=
  let ids := get_or (playlist_ids a) [] in
  if mem playlist_id ids then
    let ids' := remove_first playlist_id ids in
    (mkArtist (a_name a) (a_uri a) (Some ids') (a_created_at a) now,
     match ids' with [] => true | _ => false end)
  else (a, false).

Definition clean_artists_database (env : Env) (r : PlaylistRemover)
    (playlist_id : string) : PlaylistRemover :=
  if negb (artists_doc_truthy (artists_db r)) then r else
  match d_artists (artists_db r) with
  | None => r
  | Some artists =>
      let cleaned :=
        map (fun (e : string * Artist) =>
               (fst e, clean_artist (now env) playlist_id (snd e))) artists in
      let artists_to_remove :=
        map fst (filter (fun e => snd (snd e)) cleaned) in
      let artists' :=
        fold_left (fun d artist_uri => Dict.del artist_uri d)
                  artists_to_remove
                  (map (fun e => (fst e, fst (snd e))) cleaned) in
      mkRemover (songs_db r) (playlists_db r)
                (mkArtistsDoc (Some artists') (total_artists (artists_db r))
                              (ar_last_updated (artists_db r)))
                (mapping_db r)
  end.

Definition del_if_present {V : Type} (d : Dict.t V) (k : string) : Dict.t V :=
  if Dict.has k d then Dict.del k d else d.

Definition update_mapping_database (r : PlaylistRemover)
    (songs_to_remove : list string) : PlaylistRemover :=
  if negb (mapping_doc_truthy (mapping_db r)) then r else
  let mapping := get_or (d_mapping (mapping_db r)) [] in
  let mapping' := fold_left del_if_present songs_to_remove mapping in
  mkRemover (songs_db r) (playlists_db r) (artists_db r)
            (mkMappingDoc (Some mapping') (m_last_updated (mapping_db r))).

(** The song ids of [song_actions] that carry the given action. *)
Definition with_action (action : string) (song_actions : Dict.t string)
  : list string :=
  map fst (filter (fun e => String.eqb (snd e) action) song_actions).

(** The removal proper: everything of [remove_playlist] after the
    confirmation. *)
Definition perform_removal (env : Env) (fs : FS) (r : PlaylistRemover)
    (playlist_id : string) (songs_to_remove : list string)
  : PlaylistRemover * FS * bool :=
  let r1 :=
    mkRemover (songs_db r)
      (mkPlaylistsDoc
         (option_map (fun d => del_if_present d playlist_id)
                     (d_playlists (playlists_db r)))
         (total_playlists (playlists_db r))
         (pl_last_updated (playlists_db r)))
      (artists_db r) (mapping_db r) in
  let r2 :=
    mkRemover
      (mkSongsDoc
         (option_map (fun d => fold_left del_if_present songs_to_remove d)
                     (d_songs (songs_db r1)))
         (total_songs (songs_db r1)) (s_last_updated (songs_db r1)))
      (playlists_db r1) (artists_db r1) (mapping_db r1) in
  let fs1 :=
    match songs_to_remove with
    | [] => fs
    | _ => fst (remove_songs_from_filesystem env fs songs_to_remove)
    end in
  let r3 := clean_artists_database env r2 playlist_id in
  let r4 := update_mapping_database r3 songs_to_remove in
  save_databases env fs1 r4.

(** [remove_playlist(playlist_name, confirm)], reading its answers
    from [inputs]. *)
Definition remove_playlist (env : Env) (fs : FS) (r : PlaylistRemover)
    (playlist_name : string) (confirm : bool) (inputs : list string)
  : PlaylistRemover * FS * list string * result bool :=
  match find_playlist_by_name r playlist_name inputs with
  | (Raise e, inputs1) => (r, fs, inputs1, Raise e)
  | (Ok None, inputs1) => (r, fs, inputs1, Ok false)
  | (Ok (Some playlist_id), inputs1) =>
      if negb (truthy playlist_id) then (r, fs, inputs1, Ok false) else
      let song_ids := get_songs_in_playlist r playlist_id in
      let '(r1, song_actions) :=
        remove_playlist_from_songs r playlist_id song_ids in
      let songs_to_remove := with_action "remove" song_actions in
      let proceed :=
        let '(r2, fs2, ok) :=
          perform_removal env fs r1 playlist_id songs_to_remove in
        (r2, fs2, Ok ok) in
      if confirm then
        match inputs1 with
        | [] => (r1, fs, [], Raise EOFError)
        | line :: inputs2 =>
            let response := lower (strip line) in
            if negb (mem response ["yes"; "y"])
            then (r1, fs, inputs2, Ok false)
            else let '(r2, fs2, res) := proceed in (r2, fs2, inputs2, res)
        end
      else let '(r2, fs2, res) := proceed in (r2, fs2, inputs1, res)
  end.

End Remover.

(* ================================================================= *)
(** ** The save paths of the cleanup tool and of the downloader *)

(** What a save prints. *)
Inductive message :=
| CreatedBackup (s : store)
| ErrorSaving (s : store)
| DatabaseSaved (s : store)
| AllSaved
| OnlySaved (success_count total : nat).

Module Cleanup.

Record SongCleanupTool := mkTool {
  songs_db : SongsDoc;
  playlists_db : PlaylistsDoc;
  mapping_db : MappingDoc;
  artists_db : ArtistsDoc
}.

(** [load_json_file] gives [{}] for a file that is absent. *)
Definition load_databases (fs : FS) : SongCleanupTool :=
  mkTool (get_or (f_songs fs) empty_songs_doc)
         (get_or (f_playlists fs) empty_playlists_doc)
         (get_or (f_mapping fs) empty_mapping_doc)
         (get_or (f_artists fs) empty_artists_doc).

(** [save_json_file(file_path, data)]: the present file is copied to a
    time-stamped side file, then overwritten; an exception is caught
    and answered with [False]. *)
Definition save_json_file (env : Env) (fs : FS) (data : document)
  : FS * bool * list message :=
  let '(fs1, out1) :=
    match read_doc fs (store_of data) with
    | Some old =>
        (add_backup fs (store_of data, now_stamp env, old),
         [CreatedBackup (store_of data)])
    | None => (fs, [])
    end in
  let '(fs2, ok) := dump env fs1 data in
  (fs2, ok, if ok then out1 else out1 ++ [ErrorSaving (store_of data)]).

(** One [if save_json_file(...): success_count += 1; print(...)]. *)
Definition save_one (env : Env)
    (acc : FS * nat * list message) (data : document)
  : FS * nat * list message :=
  let '(fs, success_count, out) := acc in
  let '(fs', ok, out') := save_json_file env fs data in
  if ok
  then (fs', success_count + 1, out ++ out' ++ [DatabaseSaved (store_of data)])
  else (fs', success_count, out ++ out').

(** [save_all_databases]: the four saves one after the other, then the
    tally. The function returns nothing: the tally is printed. *)
Definition save_all_databases (env : Env) (fs : FS) (t : SongCleanupTool)
  : FS * nat * list message :=
  let acc1 := save_one env (fs, 0, []) (DSongs (songs_db t)) in
  let acc2 := save_one env acc1 (DPlaylists (playlists_db t)) in
  let acc3 := save_one env acc2 (DMapping (mapping_db t)) in
  let '(fs4, success_count, out) :=
    save_one env acc3 (DArtists (artists_db t)) in
  (fs4, success_count,
   out ++ [if success_count =? 4 then AllSaved
           else OnlySaved success_count 4]).

(** [extract_song_id_from_filename(filename)] *)
Definition extract_song_id_from_filename (filename : string) : string :=
  if PyStr.endswith ".mp3" filename then PyStr.drop_last 4 filename
  else filename.

(** [scan_songs_folder()]: the names of the songs folder that end in
    [.mp3] and start with [song_], sorted. *)
Definition scan_songs_folder (fs : FS) : list string :=
  PyStr.sorted
    (filter (fun file => PyStr.endswith ".mp3" file
                         && PyStr.startswith "song_" file)
            (f_audio fs)).

(** What [get_song_metadata_from_id] returns for a stored song: the
    stored metadata, from which it reads its display strings, and the
    playlist ids of the song. A song record has keys, so that
    [if song_info:] holds for every song that is stored. *)
Record ScanMetadata := mkScanMetadata {
  sm_metadata : Metadata;
  sm_playlists : list string
}.

Definition get_song_metadata_from_id (song_id : string) (songs_db : SongsDoc)
  : option ScanMetadata :=
  match Dict.get song_id (get_or (d_songs songs_db) []) with
  | Some song_info =>
      Some (mkScanMetadata (metadata song_info)
                           (get_or (playlists song_info) []))
  | None => None
  end.

(** An entry of the scan. *)
Record SongInfo := mkSongInfo {
  filename : string;
  song_id : string;
  file_path : string;
  file_exists : bool;
  in_database : bool;
  si_metadata : option ScanMetadata
}.

Definition SONGS_FOLDER : string := "consolidated_music/songs".

Definition path_of (filename : string) : string :=
  (SONGS_FOLDER ++ "/" ++ filename)%string.

Definition is_some {A : Type} (o : option A) : bool :=
  match o with Some _ => true | None => false end.

(** [scan_and_identify_songs]: one entry per song file, then one per
    stored song whose [.mp3] file is missing. *)
Definition scan_and_identify_songs (fs : FS) (t : SongCleanupTool)
  : list SongInfo :=
  let identified :=
    map (fun filename =>
           let song_id := extract_song_id_from_filename filename in
           let metadata := get_song_metadata_from_id song_id (songs_db t) in
           mkSongInfo filename song_id (path_of filename) true
                      (is_some metadata) metadata)
        (scan_songs_folder fs) in
  let missing :=
    flat_map
      (fun entry : string * Song =>
         let song_id := fst entry in
         let expected_filename := (song_id ++ ".mp3")%string in
         if negb (PyStr.mem expected_filename (f_audio fs)) then
           [mkSongInfo expected_filename song_id (path_of expected_filename)
                       false true
                       (get_song_metadata_from_id song_id (songs_db t))]
         else [])
      (get_or (d_songs (songs_db t)) []) in
  identified ++ missing.

(** The playlist loop of [remove_songs_from_databases] for one song:
    the song leaves the list of each of its playlists that is stored
    and lists it, and the counts of that playlist follow its list. *)
Definition unlist_song (now song_id : string)
    (acc : Dict.t Playlist * list string) (playlist_key : string)
  : Dict.t Playlist * list string :=
  let '(playlist_store, updated_playlists) := acc in
  match Dict.get playlist_key playlist_store with
  | Some p =>
      if PyStr.mem song_id (songs p) then
        let playlist_songs := PyStr.remove_first song_id (songs p) in
        (Dict.set playlist_key
           (mkPlaylist (name p) (List.length playlist_songs)
                       (successful_downloads p) (source_url p) (timestamp p)
                       playlist_songs (song_ids p)
                       (List.length playlist_songs) (p_created_at p) now)
           playlist_store,
         if PyStr.mem playlist_key updated_playlists then updated_playlists
         else updated_playlists ++ [playlist_key])
      else acc
  | None => acc
  end.

(** The working state of the song loop of
    [remove_songs_from_databases]. *)
Record Removal := mkRemoval {
  rm_tool : SongCleanupTool;
  rm_fs : FS;
  removed_files : nat;
  removed_from_db : nat;
  updated_playlists : list string
}.

Definition remove_song (env : Env) (st : Removal) (song : SongInfo)
  : Removal :=
  let t := rm_tool st in
  let fs := rm_fs st in
  let '(fs1, files1) :=
    if file_exists song
       && PyStr.mem (filename song) (f_audio fs)
       && negb (unlink_fails env (filename song))
    then (set_audio fs (PyStr.remove_first (filename song) (f_audio fs)),
          removed_files st + 1)
    else (fs, removed_files st) in
  let '(sdb, from_db1) :=
    match d_songs (songs_db t) with
    | Some songs =>
        if Dict.has (song_id song) songs
        then (mkSongsDoc (Some (Dict.del (song_id song) songs))
                         (total_songs (songs_db t))
                         (s_last_updated (songs_db t)),
              removed_from_db st + 1)
        else (songs_db t, removed_from_db st)
    | None => (songs_db t, removed_from_db st)
    end in
  let mdb :=
    match d_mapping (mapping_db t) with
    | Some mapping =>
        if Dict.has (song_id song) mapping
        then mkMappingDoc (Some (Dict.del (song_id song) mapping))
                          (m_last_updated (mapping_db t))
        else mapping_db t
    | None => mapping_db t
    end in
  let '(pdb, updated1) :=
    match si_metadata song, d_playlists (playlists_db t) with
    | Some md, Some playlist_store =>
        let '(store', updated') :=
          fold_left (unlist_song (now env) (song_id song)) (sm_playlists md)
                    (playlist_store, updated_playlists st) in
        (mkPlaylistsDoc (Some store') (total_playlists (playlists_db t))
                        (pl_last_updated (playlists_db t)),
         updated')
    | _, _ => (playlists_db t, updated_playlists st)
    end in
  mkRemoval (mkTool sdb pdb mdb (artists_db t)) fs1 files1 from_db1 updated1.

(** [remove_songs_from_databases(songs_to_remove)]; the three counts
    are what it prints. *)
Definition remove_songs_from_databases (env : Env) (fs : FS)
    (t : SongCleanupTool) (songs_to_remove : list SongInfo) : Removal :=
  match songs_to_remove with
  | [] => mkRemoval t fs 0 0 []
  | _ =>
      let st := fold_left (remove_song env) songs_to_remove
                          (mkRemoval t fs 0 0 []) in
      let t1 := rm_tool st in
      let sdb := mkSongsDoc (d_songs (songs_db t1))
                   (Some (Dict.len (get_or (d_songs (songs_db t1)) [])))
                   (Some (now env)) in
      let mdb := mkMappingDoc (d_mapping (mapping_db t1)) (Some (now env)) in
      let pdb := mkPlaylistsDoc (d_playlists (playlists_db t1))
                   (total_playlists (playlists_db t1)) (Some (now env)) in
      mkRemoval (mkTool sdb pdb mdb (artists_db t1)) (rm_fs st)
                (removed_files st) (removed_from_db st)
                (updated_playlists st)
  end.

End Cleanup.

Module Downloader.

Record PlaylistSongDownloader := mkDownloader {
  songs_db : SongsDoc;
  playlists_db : PlaylistsDoc;
  mapping_db : MappingDoc
}.

Definition load_databases (fs : FS) : PlaylistSongDownloader :=
  mkDownloader (get_or (f_songs fs) empty_songs_doc)
               (get_or (f_playlists fs) empty_playlists_doc)
               (get_or (f_mapping fs) empty_mapping_doc).

(** [save_json_file(file_path, data)], without a side file. *)
Definition save_json_file (env : Env) (fs : FS) (data : document)
  : FS * bool * list message :=
  let '(fs1, ok) := dump env fs data in
  (fs1, ok, if ok then [] else [ErrorSaving (store_of data)]).

Definition save_one (env : Env)
    (acc : FS * nat * list message) (data : document)
  : FS * nat * list message :=
  let '(fs, success_count, out) := acc in
  let '(fs', ok, out') := save_json_file env fs data in
  if ok
  then (fs', success_count + 1, out ++ out' ++ [DatabaseSaved (store_of data)])
  else (fs', success_count, out ++ out').

(** [save_databases]: the three documents are written as they are held
    in memory. *)
Definition save_databases (env : Env) (fs : FS) (t : PlaylistSongDownloader)
  : FS * nat * list message :=
  let acc1 := save_one env (fs, 0, []) (DSongs (songs_db t)) in
  let acc2 := save_one env acc1 (DPlaylists (playlists_db t)) in
  let '(fs3, success_count, out) :=
    save_one env acc2 (DMapping (mapping_db t)) in
  (fs3, success_count,
   out ++ [if success_count =? 3 then AllSaved
           else OnlySaved success_count 3]).

Definition SONGS_FOLDER : string := "consolidated_music/songs".




(** [find_playlist_songs(playlist_name)]: the songs of the mapping, in
    its order, one of whose playlist ids is the name up to case. *)
Definition find_playlist_songs (t : PlaylistSongDownloader)
    (playlist_name : string) : list string :=
  map fst
    (filter (fun entry : string * list string =>
               PyStr.mem (PyStr.lower playlist_name)
                         (map PyStr.lower (snd entry)))
            (get_or (d_mapping (mapping_db t)) [])).

(** [os.path.exists] of the song file of [song_id]. *)
Definition song_file_exists (fs : FS) (song_id : string) : bool :=
  PyStr.mem (song_id ++ ".mp3")%string (f_audio fs).

(** [check_local_files(song_ids)] *)
Definition check_local_files (fs : FS) (song_ids : list string)
  : list string * list string :=
  fold_left
    (fun (acc : list string * list string) song_id =>
       let '(existing_songs, missing_songs) := acc in
       if song_file_exists fs song_id
       then (existing_songs ++ [song_id], missing_songs)
       else (existing_songs, missing_songs ++ [song_id]))
    song_ids ([], []).

(** [get_song_metadata(song_id)]: the metadata of the stored song, of
    which the download reads the title and the artists. A song record
    has keys, so that [if song_info:] holds for every stored song. *)
Definition get_song_metadata (t : PlaylistSongDownloader) (song_id : string)
  : option Metadata :=
  option_map metadata (Dict.get song_id (get_or (d_songs (songs_db t)) [])).

(** [update_song_download_status(song_id, success)] *)
Definition update_song_download_status (now : string)
    (t : PlaylistSongDownloader) (song_id : string) (success : bool)
  : PlaylistSongDownloader :=
  match d_songs (songs_db t) with
  | Some songs =>
      match Dict.get song_id songs with
      | Some s =>
          let di := download_info s in
          let di' :=
            if success
            then mkDownloadInfo "completed"
                   (Some (SONGS_FOLDER ++ "/" ++ song_id ++ ".mp3")%string)
                   (file_size di) (quality di) (Some now)
            else mkDownloadInfo "failed" None (file_size di) (quality di)
                                None in
          mkDownloader
            (mkSongsDoc
               (Some (Dict.set song_id
                        (mkSong (metadata s) (playlists s) di' (added_at s))
                        songs))
               (total_songs (songs_db t)) (s_last_updated (songs_db t)))
            (playlists_db t) (mapping_db t)
      | None => t
      end
  | None => t
  end.

(** One round of the loop of [download_missing_songs]: a song without
    a record is skipped; a download that succeeds leaves the song file
    in the songs folder. *)
Definition download_one (env : Env)
    (acc : PlaylistSongDownloader * FS * nat) (song_id : string)
  : PlaylistSongDownloader * FS * nat :=
  let '(t, fs, successful_downloads) := acc in
  match get_song_metadata t song_id with
  | None => acc
  | Some _ =>
      if download_ok env song_id then
        (update_song_download_status (now env) t song_id true,
         if song_file_exists fs song_id then fs
         else set_audio fs (f_audio fs ++ [(song_id ++ ".mp3")%string])%list,
         successful_downloads + 1)
      else
        (update_song_download_status (now env) t song_id false,
         fs, successful_downloads)
  end.

(** [download_missing_songs(missing_song_ids)] *)
Definition download_missing_songs (env : Env) (fs : FS)
    (t : PlaylistSongDownloader) (missing_song_ids : list string)
  : PlaylistSongDownloader * FS * nat :=
  match missing_song_ids with
  | [] => (t, fs, 0)
  | _ => fold_left (download_one env) missing_song_ids (t, fs, 0)
  end.

(** [playlist_name.lower().replace(' ', '').replace('-', '')] *)
Definition playlist_key_of (playlist_name : string) : string :=
  PyStr.without "-" (PyStr.without " " (PyStr.lower playlist_name)).

(** [update_playlist_database(playlist_name, song_ids,
    successful_downloads)]; a playlist record that is present has its
    ['created_at'] and ['source_url']. *)
Definition update_playlist_database (env : Env) (fs : FS)
    (t : PlaylistSongDownloader) (playlist_name : string)
    (song_ids : list string) (successful_downloads : nat)
  : PlaylistSongDownloader :=
  let playlists := get_or (d_playlists (playlists_db t)) [] in
  let playlist_key := playlist_key_of playlist_name in
  let existing_successful :=
    List.length (filter (song_file_exists fs) song_ids) in
  let manual_url := ("manual_playlist_" ++ playlist_name)%string in
  let playlist_entry :=
    match Dict.get playlist_key playlists with
    | Some existing =>
        mkPlaylist playlist_name (List.length song_ids) existing_successful
          (if negb (PyStr.startswith "manual_playlist_" (source_url existing))
           then source_url existing else manual_url)
          (now_stamp env) song_ids None (List.length song_ids)
          (p_created_at existing) (now env)
    | None =>
        mkPlaylist playlist_name (List.length song_ids) existing_successful
          manual_url (now_stamp env) song_ids None (List.length song_ids)
          (now env) (now env)
    end in
  let playlists := Dict.set playlist_key playlist_entry playlists in
  mkDownloader (songs_db t)
    (mkPlaylistsDoc (Some playlists) (Some (Dict.len playlists))
                    (Some (now env)))
    (mapping_db t).

(** What [process_playlist] prints at its end. *)
Record Summary := mkSummary {
  total : nat;
  already_existing : nat;
  downloaded : nat;
  failed : nat
}.

(** [process_playlist(playlist_name)] *)
Definition process_playlist (env : Env) (fs : FS)
    (t : PlaylistSongDownloader) (playlist_name : string)
  : PlaylistSongDownloader * FS * option Summary :=
  let song_ids := find_playlist_songs t playlist_name in
  match song_ids with
  | [] => (t, fs, None)
  | _ =>
      let '(existing_songs, missing_songs) := check_local_files fs song_ids in
      let '(t1, fs1, successful_downloads) :=
        match missing_songs with
        | [] => (t, fs, 0)
        | _ => download_missing_songs env fs t missing_songs
        end in
      let t2 := update_playlist_database env fs1 t1 playlist_name song_ids
                  successful_downloads in
      let '(fs2, _, _) := save_databases env fs1 t2 in
      (t2, fs2,
       Some (mkSummary (List.length song_ids) (List.length existing_songs)
               successful_downloads
               (List.length missing_songs - successful_downloads)))
  end.

End Downloader.

(* ================================================================= *)
(** * Predicates and scenarios of the properties *)

(** The playlist ids a song holds in the manager's working set. *)
Definition playlists_of (m : Scraper.SmartSongManager) (song_id : string)
  : list string :=
  match Dict.get song_id (Scraper.existing_songs m) with
  | Some s => get_or (playlists s) []
  | None => []
  end.

Fixpoint list_eqb (l1 l2 : list string) : bool :=
  match l1, l2 with
  | [], [] => true
  | x :: r1, y :: r2 => String.eqb x y && list_eqb r1 r2
  | _, _ => false
  end.

(** [mapping[S] == songs[S].playlists] for every stored song. *)
Definition mapping_consistent (songs : Dict.t Song)
    (mapping : Dict.t (list string)) : bool :=
  forallb
    (fun e : string * Song =>
       match Dict.get (fst e) mapping with
       | Some l => list_eqb l (get_or (playlists (snd e)) [])
       | None => false
       end)
    songs.

(** Every playlist id held by a song exists in the playlist store. *)
Definition references_closed (songs : Dict.t Song)
    (playlist_store : Dict.t Playlist) : bool :=
  forallb
    (fun e : string * Song =>
       forallb (fun p => Dict.has p playlist_store)
               (get_or (playlists (snd e)) []))
    songs.

(** Both, on the documents as they are persisted. *)
Definition files_consistent (fs : FS) : bool :=
  match f_songs fs, f_playlists fs, f_mapping fs with
  | Some s, Some p, Some m =>
      mapping_consistent (get_or (d_songs s) []) (get_or (d_mapping m) [])
      && references_closed (get_or (d_songs s) []) (get_or (d_playlists p) [])
  | _, _, _ => false
  end.

(** The playlist ids of the song [song_id] in the remover's songs. *)
Definition song_playlists (r : Remover.PlaylistRemover) (song_id : string)
  : option (list string) :=
  option_map (fun s => get_or (playlists s) [])
             (Dict.get song_id (get_or (d_songs (Remover.songs_db r)) [])).

(** The artists store as the claims see it: every record holds a
    non-empty, duplicate-free list of playlist ids, under a key of its
    own. *)
Definition artists_inv (artists : Dict.t Artist) : Prop :=
  Dict.wf artists
  /\ forall uri a, Dict.get uri artists = Some a ->
       exists l, playlist_ids a = Some l /\ l <> [] /\ NoDup l.

(** The playlist ids of the artist [uri], [None] without a record. *)
Definition artist_ids (artists : Dict.t Artist) (uri : string)
  : option (list string) :=
  option_map (fun a => get_or (playlist_ids a) []) (Dict.get uri artists).

(** Both resolver indexes point at stored songs. *)
Definition index_sound (m : Scraper.SmartSongManager) : Prop :=
  (forall k id, Dict.get k (Scraper.uri_to_song_id m) = Some id ->
     Dict.has id (Scraper.existing_songs m) = true)
  /\ (forall k id, Dict.get k (Scraper.name_artist_to_song_id m) = Some id ->
        Dict.has id (Scraper.existing_songs m) = true).



(** What a step of the run leaves alone: for [frame m m'], the songs,
    the playlists and both indexes of [m'] are those of [m]. *)
Definition frame (m m' : Scraper.SmartSongManager) : Prop :=
  Scraper.existing_songs m' = Scraper.existing_songs m
  /\ Scraper.existing_playlists m' = Scraper.existing_playlists m
  /\ Scraper.uri_to_song_id m' = Scraper.uri_to_song_id m
  /\ Scraper.name_artist_to_song_id m' = Scraper.name_artist_to_song_id m.





Definition all_stores : list store :=
  [SongsStore; PlaylistsStore; ArtistsStore; MappingStore].

Module Scenario.
Local Open Scope string_scope.

Definition t0 : string := "2024-01-01T00:00:00".

(** Every write and unlink succeeds, every download succeeds. *)
Definition env0 : Env :=
  mkEnv (fun _ => false) (fun _ => false) (fun _ => true)
        t0 "2024-01-01 00:00:00".


Definition fs_empty : FS := mkFS None None None None [] [] [].

Definition artist_X : Scraper.ArtistItem :=
  Scraper.mkArtistItem (Some "X") (Some "spotify:artist:x1").

(** [{title:"A", artist:"X", uri:"u1"}] *)
Definition track_A_u1 : Scraper.TrackData :=
  Scraper.mkTrackData (Some "A") (Some "u1") (Some 1000) [artist_X].

(** [{title:"A", artist:"X"}], without a uri. *)
Definition track_A : Scraper.TrackData :=
  Scraper.mkTrackData (Some "A") None (Some 1000) [artist_X].


(** The stores after the discography of X, one track, was ingested
    into an empty catalog. *)
Definition fs_ingested : FS :=
  fst (Scraper.process_artist_tracks env0 fs_empty [track_A_u1] "X" "x1").

(** The same with the track without uri, and with track B. *)
Definition fs_ingested_A : FS :=
  fst (Scraper.process_artist_tracks env0 fs_empty [track_A] "X" "x1").


Definition song (title uri : string) (pls : list string) : Song :=
  mkSong (mkMetadata title "X" [("X", "ax")] uri 1000 "Album" 1)
         (Some pls)
         (mkDownloadInfo "completed" None None "192K" (Some t0)) t0.

Definition playlist (nm : string) (members : list string) : Playlist :=
  mkPlaylist nm (List.length members) (List.length members) "src" t0
             members (Some members) (List.length members) t0 t0.

Definition artist (nm uri : string) (ids : list string) : Artist :=
  mkArtist nm uri (Some ids) t0 t0.

(** A catalog whose playlist records list their songs under
    ['song_ids'] as well: s1 is in Rock and Jazz, s2 in Rock only;
    artist a1 is referenced by both playlists, a2 by Rock only. *)
Definition songs_listed : Dict.t Song :=
  [("s1", song "One" "u:1" ["p1"; "p2"]); ("s2", song "Two" "u:2" ["p1"])].

Definition playlists_listed : Dict.t Playlist :=
  [("p1", playlist "Rock" ["s1"; "s2"]); ("p2", playlist "Jazz" ["s1"])].

Definition artists_listed : Dict.t Artist :=
  [("a1", artist "Ann" "a1" ["p1"; "p2"]); ("a2", artist "Bob" "a2" ["p1"])].

Definition mapping_listed : Dict.t (list string) :=
  [("s1", ["p1"; "p2"]); ("s2", ["p1"])].

Definition fs_listed : FS :=
  mkFS (Some (mkSongsDoc (Some songs_listed) (Some 2) (Some t0)))
       (Some (mkPlaylistsDoc (Some playlists_listed) (Some 2) (Some t0)))
       (Some (mkArtistsDoc (Some artists_listed) (Some 2) (Some t0)))
       (Some (mkMappingDoc (Some mapping_listed) (Some t0)))
       [] ["s1.mp3"; "s2.mp3"] [].

Definition remover_listed : Remover.PlaylistRemover :=
  fst (Remover.load_databases fs_listed).

(** Only the mapping file exists. *)
Definition fs_mapping_only : FS :=
  mkFS None None None (Some (mkMappingDoc (Some mapping_listed) (Some t0)))
       [] [] [].

(** A songs document whose counter is out of date. *)
Definition stale_songs_doc : SongsDoc :=
  mkSongsDoc (Some songs_listed) (Some 5) (Some "2023-01-01T00:00:00").

End Scenario.

(* ================================================================= *)
(** * Further notions used by the properties of the code *)

(** The collections that the files of a folder hold ([{}] for a file
    or a key that is absent). *)
Definition stored_songs (fs : FS) : Dict.t Song :=
  match f_songs fs with Some d => get_or (d_songs d) [] | None => [] end.

Definition stored_playlists (fs : FS) : Dict.t Playlist :=
  match f_playlists fs with Some d => get_or (d_playlists d) [] | None => [] end.

Definition stored_artists (fs : FS) : Dict.t Artist :=
  match f_artists fs with Some d => get_or (d_artists d) [] | None => [] end.

Definition stored_mapping (fs : FS) : Dict.t (list string) :=
  match f_mapping fs with Some d => get_or (d_mapping d) [] | None => [] end.

(** The key of the name+artist index for a title and an artist
    string, when both are non-blank. *)
Definition name_key (md : Metadata) : option string :=
  let tn := PyStr.strip (PyStr.lower (track_name md)) in
  let ar := PyStr.strip (PyStr.lower (artists_string md)) in
  if PyStr.truthy tn && PyStr.truthy ar then Some (tn ++ "|" ++ ar)%string
  else None.


(** The indexes are exact for the songs of the working set: an index
    entry leads to a stored song that carries the indexed uri (or
    name+artist key), and every stored song that has a uri (or a key)
    has an entry under it. *)
Definition index_exact (m : Scraper.SmartSongManager) : Prop :=
  (forall uri id, Dict.get uri (Scraper.uri_to_song_id m) = Some id ->
     exists s, Dict.get id (Scraper.existing_songs m) = Some s
               /\ track_uri (metadata s) = uri)
  /\ (forall k id, Dict.get k (Scraper.name_artist_to_song_id m) = Some id ->
        exists s, Dict.get id (Scraper.existing_songs m) = Some s
                  /\ name_key (metadata s) = Some k)
  /\ (forall id s, Dict.get id (Scraper.existing_songs m) = Some s ->
        PyStr.truthy (track_uri (metadata s)) = true ->
        Dict.has (track_uri (metadata s)) (Scraper.uri_to_song_id m) = true)
  /\ (forall id s k, Dict.get id (Scraper.existing_songs m) = Some s ->
        name_key (metadata s) = Some k ->
        Dict.has k (Scraper.name_artist_to_song_id m) = true).

(** The song [song_id] is in the working set and holds the playlist. *)
Definition holds (m : Scraper.SmartSongManager)
    (song_id playlist_key : string) : Prop :=
  exists s, Dict.get song_id (Scraper.existing_songs m) = Some s
            /\ In playlist_key (get_or (playlists s) []).

(** Every song recorded by the track loop so far holds the playlist. *)
Definition members_hold (playlist_key : string) (r : Scraper.Run) : Prop :=
  forall song_id, In song_id (Scraper.run_song_ids r) ->
    holds (Scraper.song_manager r) song_id playlist_key.


(** The playlist ids of a song in a songs collection. *)
Definition playlists_in (songs : Dict.t Song) (song_id : string)
  : option (list string) :=
  option_map (fun s => get_or (playlists s) []) (Dict.get song_id songs).

(** The action of the cascade for what is left of a song's list. *)
Definition classify (left : list string) : string :=
  match left with [] => "remove" | _ => "keep" end.

(** The attempts of a save that stops at the first write that fails:
    the planned writes up to and including the first failing one. *)
Fixpoint upto_first_failure (planned : list (store * bool))
  : list (store * bool) :=
  match planned with
  | [] => []
  | (s, ok) :: rest =>
      (s, ok) :: (if ok then upto_first_failure rest else [])
  end.

(** The stores that the remover's save writes: songs and playlists,
    then the artists and the mapping when their documents are not
    empty. *)
Definition remover_plan (r : Remover.PlaylistRemover) : list store :=
  [SongsStore; PlaylistsStore]
  ++ (if artists_doc_truthy (Remover.artists_db r) then [ArtistsStore] else [])
  ++ (if mapping_doc_truthy (Remover.mapping_db r) then [MappingStore] else []).

Definition outcomes (env : Env) (plan : list store) : list (store * bool) :=
  map (fun s => (s, negb (write_fails env s))) plan.


(** The collections that a cleanup tool holds in memory. *)
Definition tool_songs (t : Cleanup.SongCleanupTool) : Dict.t Song :=
  get_or (d_songs (Cleanup.songs_db t)) [].

Definition tool_mapping (t : Cleanup.SongCleanupTool) : Dict.t (list string) :=
  get_or (d_mapping (Cleanup.mapping_db t)) [].

Definition tool_playlists (t : Cleanup.SongCleanupTool) : Dict.t Playlist :=
  get_or (d_playlists (Cleanup.playlists_db t)) [].

(** Two folders have the same store files, side files and write log. *)
Definition same_stores (fs fs' : FS) : Prop :=
  f_songs fs' = f_songs fs /\ f_playlists fs' = f_playlists fs
  /\ f_artists fs' = f_artists fs /\ f_mapping fs' = f_mapping fs
  /\ f_backups fs' = f_backups fs /\ f_writes fs' = f_writes fs.

(** The playlist [p'] is [p] after songs have left its list at [now]:
    nothing but the list, the two counts that follow it and the time
    of the last update differs, and these differ only when the list
    got shorter. *)
Definition trimmed (now : string) (p p' : Playlist) : Prop :=
  name p' = name p
  /\ successful_downloads p' = successful_downloads p
  /\ source_url p' = source_url p
  /\ timestamp p' = timestamp p
  /\ song_ids p' = song_ids p
  /\ p_created_at p' = p_created_at p
  /\ incl (songs p') (songs p)
  /\ (NoDup (songs p) -> NoDup (songs p'))
  /\ (p' = p
      \/ (List.length (songs p') < List.length (songs p)
          /\ total_tracks p' = List.length (songs p')
          /\ unique_song_count p' = List.length (songs p')
          /\ p_last_updated p' = now)).

(** A playlist collection and the set of updated playlists after
    songs have been taken off playlists: the keys are the same, each
    playlist is trimmed, and the playlists that join the set are the
    ones whose lists got shorter. *)
Definition unlisted (now : string)
    (a a' : Dict.t Playlist * list string) : Prop :=
  Dict.keys (fst a') = Dict.keys (fst a)
  /\ incl (snd a) (snd a')
  /\ (NoDup (snd a) -> NoDup (snd a'))
  /\ forall k,
       match Dict.get k (fst a) with
       | None => Dict.get k (fst a') = None /\ (In k (snd a') -> In k (snd a))
       | Some p =>
           exists p', Dict.get k (fst a') = Some p'
             /\ trimmed now p p'
             /\ (In k (snd a') ->
                 In k (snd a)
                 \/ List.length (songs p') < List.length (songs p))
             /\ (p' = p \/ In k (snd a'))
       end.

(** The collections that a downloader holds in memory. *)
Definition dl_songs (t : Downloader.PlaylistSongDownloader) : Dict.t Song :=
  get_or (d_songs (Downloader.songs_db t)) [].

Definition dl_playlists (t : Downloader.PlaylistSongDownloader)
  : Dict.t Playlist :=
  get_or (d_playlists (Downloader.playlists_db t)) [].




(** The song record after a download of the song was tried. *)
Definition after_download (env : Env) (song_id : string) (s : Song) : Song :=
  mkSong (metadata s) (playlists s)
    (if download_ok env song_id
     then mkDownloadInfo "completed"
            (Some ("consolidated_music/songs/" ++ song_id ++ ".mp3")%string)
            (file_size (download_info s)) (quality (download_info s))
            (Some (now env))
     else mkDownloadInfo "failed" None (file_size (download_info s))
            (quality (download_info s)) None)
    (added_at s).

(** The songs whose download is tried and succeeds: the stored songs
    that the environment delivers. *)
Definition delivered (env : Env) (t : Downloader.PlaylistSongDownloader)
    (song_id : string) : bool :=
  Dict.has song_id (dl_songs t) && download_ok env song_id.
(* ================================================================= *)
(** * Properties *)

Unset Implicit Arguments.

(** ** Known digests *)

Example md5_empty : MD5.hexdigest "" = "d41d8cd98f00b204e9800998ecf8427e"%string.
Proof. vm_compute. reflexivity. Qed.

Example md5_abc : MD5.hexdigest "abc" = "900150983cd24fb0d6963f7d28e17f72"%string.
Proof. vm_compute. reflexivity. Qed.

Example md5_56 :
  MD5.hexdigest "xxxxxxxxxxxxxxxxxxxxxxxxxxxxxxxxxxxxxxxxxxxxxxxxxxxxxxxx"
  = "668a72d5ba17f08e62dabcafad6db14b"%string.
Proof. vm_compute. reflexivity. Qed.

Example md5_64 :
  MD5.hexdigest "xxxxxxxxxxxxxxxxxxxxxxxxxxxxxxxxxxxxxxxxxxxxxxxxxxxxxxxxxxxxxxxx"
  = "c1bb4f81d892b2d57947682aeb252456"%string.
Proof. vm_compute. reflexivity. Qed.

(** ** Dicts *)

Section DictFacts.
Variable V : Type.
Implicit Types (d : Dict.t V) (k : string) (v : V).

Lemma get_set_same d k v : Dict.get k (Dict.set k v d) = Some v.
Proof.
  induction d as [|[k' v'] d IH]; simpl.
  - now rewrite String.eqb_refl.
  - destruct (String.eqb k k') eqn:E; simpl; rewrite ?String.eqb_refl, ?E; auto.
Qed.

Lemma get_set_other d k k' v :
  k' <> k -> Dict.get k' (Dict.set k v d) = Dict.get k' d.
Proof.
  intros N. apply String.eqb_neq in N.
  induction d as [|[k0 v0] d IH]; simpl.
  - now rewrite N.
  - destruct (String.eqb k k0) eqn:E; simpl.
    + apply String.eqb_eq in E. subst k0. now rewrite N.
    + now rewrite IH.
Qed.

Lemma get_del_same d k : Dict.get k (Dict.del k d) = None.
Proof.
  induction d as [|[k' v'] d IH]; simpl; auto.
  destruct (String.eqb k k') eqn:E; simpl; rewrite ?E; auto.
Qed.

Lemma get_del_other d k k' :
  k' <> k -> Dict.get k' (Dict.del k d) = Dict.get k' d.
Proof.
  intros N. apply String.eqb_neq in N.
  induction d as [|[k0 v0] d IH]; simpl; auto.
  destruct (String.eqb k k0) eqn:E; simpl.
  - apply String.eqb_eq in E. subst k0. now rewrite N.
  - now rewrite IH.
Qed.

Lemma has_get d k : Dict.has k d = true <-> Dict.get k d <> None.
Proof.
  unfold Dict.has. destruct (Dict.get k d); split; congruence.
Qed.

Lemma get_in_keys d k v : Dict.get k d = Some v -> In k (Dict.keys d).
Proof.
  induction d as [|[k' v'] d IH]; simpl; [discriminate|].
  destruct (String.eqb k k') eqn:E.
  - apply String.eqb_eq in E. auto.
  - auto.
Qed.

Lemma keys_set_present d k v v0 :
  Dict.get k d = Some v0 -> Dict.keys (Dict.set k v d) = Dict.keys d.
Proof.
  induction d as [|[k' v'] d IH]; simpl; [discriminate|].
  destruct (String.eqb k k') eqn:E; simpl.
  - apply String.eqb_eq in E. now subst.
  - intros H. now rewrite IH.
Qed.
End DictFacts.

(** ** Lists of playlist ids *)

Lemma mem_In x l : PyStr.mem x l = true <-> In x l.
Proof.
  induction l as [|y l IH]; simpl; [split; [discriminate|tauto]|].
  rewrite orb_true_iff, IH, String.eqb_eq. intuition congruence.
Qed.

Lemma mem_app_last x l : PyStr.mem x (l ++ [x]) = true.
Proof. apply mem_In, in_or_app. right. now left. Qed.


(** ** Relationship tracker: [add_playlist_to_song] *)

Lemma playlists_of_added m song_id s l :
  Dict.get song_id (Scraper.existing_songs m) = Some s ->
  playlists_of
    (Scraper.with_songs m
       (Dict.set song_id (Scraper.set_playlists s l) (Scraper.existing_songs m)))
    song_id = l.
Proof.
  intros _. unfold playlists_of. simpl. now rewrite get_set_same.
Qed.

(** C7. [add_playlist_to_song] appends the playlist id to the song's
    list only when the song exists and does not hold it yet, answers
    [true] exactly when it changed the working set, and a second call
    with the same arguments changes nothing and answers [false]. *)
Theorem add_playlist_to_song_idempotent
    (m : Scraper.SmartSongManager) (song_id playlist_id : string) :
  let r1 := Scraper.add_playlist_to_song m song_id playlist_id in
  let r2 := Scraper.add_playlist_to_song (fst r1) song_id playlist_id in
  (snd r1 = true <-> fst r1 <> m)
  /\ (snd r1 = true <->
      Dict.has song_id (Scraper.existing_songs m) = true
      /\ PyStr.mem playlist_id (playlists_of m song_id) = false)
  /\ (snd r1 = true ->
      playlists_of (fst r1) song_id = playlists_of m song_id ++ [playlist_id])
  /\ (snd r1 = false -> fst r1 = m)
  /\ fst r2 = fst r1
  /\ snd r2 = false.
Proof.
  cbv zeta.
  destruct (Scraper.add_playlist_to_song m song_id playlist_id) as [m1 c1] eqn:R1.
  unfold Scraper.add_playlist_to_song in R1.
  unfold playlists_of at 1 2, Dict.has. simpl fst; simpl snd.
  destruct (Dict.get song_id (Scraper.existing_songs m)) as [s|] eqn:G.
  2:{ inversion R1; subst. unfold Scraper.add_playlist_to_song. rewrite G.
      simpl. repeat split; intros; try congruence; tauto. }
  destruct (PyStr.mem playlist_id (get_or (playlists s) [])) eqn:M;
    simpl in R1; inversion R1; subst; clear R1.
  - unfold Scraper.add_playlist_to_song. rewrite G, M. simpl.
    repeat split; intros; try congruence; try tauto. destruct H; congruence.
  - assert (P1 := playlists_of_added m song_id s
                    (get_or (playlists s) [] ++ [playlist_id]) G).
    repeat split; auto.
    + intros _ E. rewrite E in P1. unfold playlists_of in P1. rewrite G in P1.
      apply (f_equal (@List.length string)) in P1.
      rewrite length_app in P1. simpl in P1. lia.
    + intros _. simpl. rewrite get_set_same. unfold playlists_of.
      now rewrite G.
    + discriminate.
    + unfold Scraper.add_playlist_to_song. simpl. rewrite get_set_same. simpl.
      now rewrite mem_app_last.
    + unfold Scraper.add_playlist_to_song. simpl. rewrite get_set_same. simpl.
      now rewrite mem_app_last.
Qed.

(** ** Cascade delete on concrete catalogs *)

(** The catalog of [Scenario.fs_listed] is consistent, and removing
    "Rock" from it detaches s1, deletes s2 with its mapping entry and
    its file, and purges artist a2. *)
Example cascade_on_listed_catalog :
  let '(r, fs, _, res) :=
    Remover.remove_playlist Scenario.env0 Scenario.fs_listed
      Scenario.remover_listed "rock" false [] in
  res = Ok true
  /\ song_playlists r "s1" = Some ["p2"%string]
  /\ song_playlists r "s2" = None
  /\ Dict.get "s2" (get_or (d_mapping (Remover.mapping_db r)) []) = None
  /\ artist_ids (get_or (d_artists (Remover.artists_db r)) []) "a1"
     = Some ["p2"%string]
  /\ artist_ids (get_or (d_artists (Remover.artists_db r)) []) "a2" = None
  /\ f_audio fs = ["s1.mp3"%string].
Proof. vm_compute. repeat split; reflexivity. Qed.

(** C1. The cascade reads the member songs of a playlist under
    ['song_ids'], a key that no writer of the catalog stores: on the
    catalog that ingestion saved (one song, held by the one playlist
    only), removing the playlist completes and deletes the playlist,
    yet the song stays, still holds the removed id, keeps its mapping
    entry and its file. *)
Theorem cascade_skips_songs_stored_by_ingestion :
  let r0 := fst (Remover.load_databases Scenario.fs_ingested) in
  let '(r, fs, _, res) :=
    Remover.remove_playlist Scenario.env0 Scenario.fs_ingested r0
      "X - Discography" false [] in
  song_playlists r0 "song_d4bb73c2c32a" = Some ["artist_x1"%string]
  /\ option_map songs
       (Dict.get "artist_x1" (get_or (d_playlists (Remover.playlists_db r0)) []))
     = Some ["song_d4bb73c2c32a"%string]
  /\ Remover.get_songs_in_playlist r0 "artist_x1" = []
  /\ res = Ok true
  /\ Dict.get "artist_x1" (get_or (d_playlists (Remover.playlists_db r)) [])
     = None
  /\ song_playlists r "song_d4bb73c2c32a" = Some ["artist_x1"%string]
  /\ Dict.get "song_d4bb73c2c32a"
       (get_or (d_mapping (Remover.mapping_db r)) [])
     = Some ["artist_x1"%string]
  /\ f_audio fs = ["song_d4bb73c2c32a.mp3"%string].
Proof. vm_compute. repeat split; reflexivity. Qed.

(** C2. A completed cascade leaves the mapping of a kept song as it
    was: on the consistent catalog of [Scenario.fs_listed], after
    "Rock" (p1) is removed the files hold [playlists(s1) = [p2]] and
    [mapping[s1] = [p1; p2]]; and on the catalog that ingestion saved,
    the song holds a playlist id that the playlist store has lost. *)
Theorem cascade_breaks_consistency :
  let '(_, fs, _, res) :=
    Remover.remove_playlist Scenario.env0 Scenario.fs_listed
      Scenario.remover_listed "rock" false [] in
  let '(_, fs', _, res') :=
    Remover.remove_playlist Scenario.env0 Scenario.fs_ingested
      (fst (Remover.load_databases Scenario.fs_ingested))
      "X - Discography" false [] in
  files_consistent Scenario.fs_listed = true
  /\ res = Ok true
  /\ files_consistent fs = false
  /\ option_map (fun d => Dict.get "s1" (get_or (d_mapping d) []))
       (f_mapping fs) = Some (Some ["p1"; "p2"]%string)
  /\ option_map (fun d => option_map playlists
                            (Dict.get "s1" (get_or (d_songs d) [])))
       (f_songs fs) = Some (Some (Some ["p2"%string]))
  /\ files_consistent Scenario.fs_ingested = true
  /\ res' = Ok true
  /\ files_consistent fs' = false.
Proof. vm_compute. repeat split; reflexivity. Qed.

(** ** The mapping view of an ingestion save *)

Lemma get_not_in_keys (V : Type) (d : Dict.t V) k :
  ~ In k (Dict.keys d) -> Dict.get k d = None.
Proof.
  induction d as [|[k' v'] d IH]; simpl; auto.
  intros N. destruct (String.eqb k k') eqn:E.
  - apply String.eqb_eq in E. subst k'. exfalso. apply N. now left.
  - apply IH. intros I. apply N. now right.
Qed.

Lemma in_wf_get (V : Type) (d : Dict.t V) k v :
  Dict.wf d -> In (k, v) d -> Dict.get k d = Some v.
Proof.
  unfold Dict.wf. induction d as [|[k' v'] d IH]; simpl; [tauto|].
  intros W [E|I].
  - inversion E; subst. now rewrite String.eqb_refl.
  - inversion W as [|? ? N W']; subst.
    destruct (String.eqb k k') eqn:E; [|auto].
    apply String.eqb_eq in E. subst k'. exfalso. apply N.
    change (In (fst (k, v)) (map fst d)). now apply in_map.
Qed.

Lemma list_eqb_refl l : list_eqb l l = true.
Proof. induction l; simpl; auto. now rewrite String.eqb_refl. Qed.

Lemma list_eqb_eq l1 l2 : list_eqb l1 l2 = true <-> l1 = l2.
Proof.
  revert l2. induction l1 as [|x l1 IH]; intros [|y l2]; simpl;
    try (split; [discriminate|congruence]); [tauto|].
  rewrite andb_true_iff, String.eqb_eq, IH. split; [intros []|intros E; inversion E]; subst; auto.
Qed.

Lemma fold_mapping_get (songs : Dict.t Song) (acc : Dict.t (list string)) k :
  Dict.wf songs ->
  Dict.get k
    (fold_left
       (fun mp (entry : string * Song) =>
          Dict.set (fst entry) (get_or (playlists (snd entry)) []) mp)
       songs acc)
  = match Dict.get k songs with
    | Some s => Some (get_or (playlists s) [])
    | None => Dict.get k acc
    end.
Proof.
  unfold Dict.wf. revert acc.
  induction songs as [|[k' s'] songs IH]; intros acc W; simpl; auto.
  inversion W as [|? ? N W']; subst. rewrite IH by assumption.
  destruct (String.eqb k k') eqn:E.
  - apply String.eqb_eq in E. subst k'.
    rewrite (@get_not_in_keys _ songs k N). apply get_set_same.
  - apply String.eqb_neq in E.
    destruct (Dict.get k songs); auto. now apply get_set_other.
Qed.

Lemma song_playlist_mapping_consistent (songs : Dict.t Song) :
  Dict.wf songs ->
  mapping_consistent songs (Scraper.song_playlist_mapping songs) = true.
Proof.
  intros W. unfold mapping_consistent. apply forallb_forall.
  intros [k s] I. simpl. unfold Scraper.song_playlist_mapping.
  rewrite fold_mapping_get by assumption.
  rewrite (@in_wf_get _ songs k s W I). apply list_eqb_refl.
Qed.

(** An ingestion save whose writes all succeed leaves the four files
    with the manager's collections, the mapping file being the view of
    the songs. *)
Lemma ingestion_save_files env fs (m : Scraper.SmartSongManager) :
  (forall s, write_fails env s = false) ->
  let fs' := Scraper.save_databases env fs m in
  f_songs fs'
  = Some (mkSongsDoc (Some (Scraper.existing_songs m))
            (Some (Dict.len (Scraper.existing_songs m))) (Some (now env)))
  /\ f_playlists fs'
     = Some (mkPlaylistsDoc (Some (Scraper.existing_playlists m))
               (Some (Dict.len (Scraper.existing_playlists m)))
               (Some (now env)))
  /\ f_artists fs'
     = Some (mkArtistsDoc (Some (Scraper.existing_artists m))
               (Some (Dict.len (Scraper.existing_artists m)))
               (Some (now env)))
  /\ f_mapping fs'
     = Some (mkMappingDoc
               (Some (Scraper.song_playlist_mapping (Scraper.existing_songs m)))
               (Some (now env))).
Proof.
  intros F. unfold Scraper.save_databases, dump. cbn.
  rewrite !F. cbn. repeat split.
Qed.

Lemma ingestion_save_mapping_consistent env fs (m : Scraper.SmartSongManager) :
  (forall s, write_fails env s = false) ->
  Dict.wf (Scraper.existing_songs m) ->
  let fs' := Scraper.save_databases env fs m in
  exists sd md,
    f_songs fs' = Some sd /\ f_mapping fs' = Some md
    /\ mapping_consistent (get_or (d_songs sd) []) (get_or (d_mapping md) [])
       = true.
Proof.
  intros F W fs'.
  destruct (ingestion_save_files env fs m F) as (Hs & _ & _ & Hm).
  eexists _, _. repeat split; [exact Hs|exact Hm|].
  simpl. now apply song_playlist_mapping_consistent.
Qed.

(** ** Planning and confirmation *)

(** C3. The impact analysis of [remove_playlist] runs
    [remove_playlist_from_songs], which takes the playlist id out of
    the songs of the working set before the caller is asked: on the
    catalog of [Scenario.fs_listed], answering "no" makes the call
    return [False] with the files untouched, while s1 has lost p1 and
    s2 holds no playlist any more. The remover lives on in the menu
    loop: a confirmed removal of "Jazz" next deletes s1 and its file,
    although the playlist Rock, which was never removed, lists it. *)
Theorem declined_removal_has_detached_songs :
  let '(r, fs, rest, res) :=
    Remover.remove_playlist Scenario.env0 Scenario.fs_listed
      Scenario.remover_listed "rock" true ["no"%string] in
  let '(r', fs', _, res') :=
    Remover.remove_playlist Scenario.env0 fs r "jazz" false [] in
  res = Ok false
  /\ fs = Scenario.fs_listed
  /\ rest = []
  /\ song_playlists Scenario.remover_listed "s1" = Some ["p1"; "p2"]%string
  /\ song_playlists Scenario.remover_listed "s2" = Some ["p1"%string]
  /\ song_playlists r "s1" = Some ["p2"%string]
  /\ song_playlists r "s2" = Some []
  /\ Remover.songs_db r <> Remover.songs_db Scenario.remover_listed
  /\ Remover.playlists_db r = Remover.playlists_db Scenario.remover_listed
  /\ res' = Ok true
  /\ Dict.keys (get_or (d_playlists (Remover.playlists_db r')) [])
     = ["p1"%string]
  /\ song_playlists r' "s1" = None
  /\ option_map (fun d => Dict.keys (get_or (d_songs d) [])) (f_songs fs')
     = Some ["s2"%string]
  /\ f_audio fs' = ["s2.mp3"%string].
Proof. vm_compute. repeat split; try reflexivity. discriminate. Qed.

(** C10. When no stored playlist matches the name, [remove_playlist]
    returns [False], consumes no input, and leaves the four in-memory
    stores and the file system (store files, song files, write log) as
    they were. *)
Theorem remove_missing_playlist_is_noop
    env fs r (playlist_name : string) (confirm : bool) (inputs : list string) :
  Remover.matches r playlist_name = [] ->
  Remover.remove_playlist env fs r playlist_name confirm inputs
  = (r, fs, inputs, Ok false).
Proof.
  intros H. unfold Remover.remove_playlist, Remover.find_playlist_by_name.
  now rewrite H.
Qed.

Lemma remove_missing_playlist_is_noop_witness :
  Remover.matches Scenario.remover_listed "blues" = []
  /\ Remover.remove_playlist Scenario.env0 Scenario.fs_listed
       Scenario.remover_listed "blues" true ["yes"%string]
     = (Scenario.remover_listed, Scenario.fs_listed, ["yes"%string], Ok false).
Proof.
  split; [reflexivity|].
  apply (remove_missing_playlist_is_noop Scenario.env0 Scenario.fs_listed
           Scenario.remover_listed "blues" true ["yes"%string]).
  reflexivity.
Defined.

(** ** Saving *)


Lemma cleanup_save_one_spec env fs n out data :
  let '(fs', n', out') := Cleanup.save_one env (fs, n, out) data in
  let s := store_of data in
  let ok := negb (write_fails env s) in
  f_writes fs' = f_writes fs ++ [(s, ok)]
  /\ n' = n + (if ok then 1 else 0)
  /\ (forall s', s' <> s -> read_doc fs' s' = read_doc fs s')
  /\ (ok = true -> read_doc fs' s = Some data)
  /\ (forall s', In (DatabaseSaved s') out'
                 <-> In (DatabaseSaved s') out \/ (s' = s /\ ok = true))
  /\ (forall s', In (ErrorSaving s') out'
                 <-> In (ErrorSaving s') out \/ (s' = s /\ ok = false)).
Proof.
  unfold Cleanup.save_one, Cleanup.save_json_file, dump.
  destruct fs as [fsongs fplaylists fartists fmapping fbackups faudio fw].
  destruct data as [d|d|d|d]; cbn;
    [destruct fsongs|destruct fplaylists|destruct fartists|destruct fmapping];
    cbn;
    match goal with |- context [write_fails env ?s] =>
      destruct (write_fails env s) eqn:F end; cbn;
    (repeat split; intros; auto; try lia; try discriminate;
     try (destruct s'; cbn; congruence);
     rewrite ?in_app_iff in *; cbn in *;
     intuition (try discriminate; try congruence)).
Qed.

(** The four saves of [save_all_databases], one after the other, each
    with what [cleanup_save_one_spec] says of it. *)
Ltac cleanup_chain env fs t :=
  unfold Cleanup.save_all_databases;
  pose proof (cleanup_save_one_spec env fs 0 [] (DSongs (Cleanup.songs_db t)))
    as H1;
  destruct (Cleanup.save_one env (fs, 0, []) (DSongs (Cleanup.songs_db t)))
    as [[fs1 n1] out1];
  pose proof (cleanup_save_one_spec env fs1 n1 out1
                (DPlaylists (Cleanup.playlists_db t))) as H2;
  destruct (Cleanup.save_one env (fs1, n1, out1)
              (DPlaylists (Cleanup.playlists_db t))) as [[fs2 n2] out2];
  pose proof (cleanup_save_one_spec env fs2 n2 out2
                (DMapping (Cleanup.mapping_db t))) as H3;
  destruct (Cleanup.save_one env (fs2, n2, out2)
              (DMapping (Cleanup.mapping_db t))) as [[fs3 n3] out3];
  pose proof (cleanup_save_one_spec env fs3 n3 out3
                (DArtists (Cleanup.artists_db t))) as H4;
  destruct (Cleanup.save_one env (fs3, n3, out3)
              (DArtists (Cleanup.artists_db t))) as [[fs4 n4] out4];
  cbn [store_of] in *;
  destruct H1 as (W1 & N1 & R1 & D1 & S1 & E1);
  destruct H2 as (W2 & N2 & R2 & D2 & S2 & E2);
  destruct H3 as (W3 & N3 & R3 & D3 & S3 & E3);
  destruct H4 as (W4 & N4 & R4 & D4 & S4 & E4).

(** Every store whose write succeeds holds the tool's document. *)
Lemma cleanup_save_files env fs (t : Cleanup.SongCleanupTool) :
  let '(fs', _, _) := Cleanup.save_all_databases env fs t in
  (write_fails env SongsStore = false ->
   f_songs fs' = Some (Cleanup.songs_db t))
  /\ (write_fails env PlaylistsStore = false ->
      f_playlists fs' = Some (Cleanup.playlists_db t))
  /\ (write_fails env MappingStore = false ->
      f_mapping fs' = Some (Cleanup.mapping_db t))
  /\ (write_fails env ArtistsStore = false ->
      f_artists fs' = Some (Cleanup.artists_db t)).
Proof.
  cleanup_chain env fs t. repeat split.
  - intros F. assert (R : read_doc fs4 SongsStore
                          = Some (DSongs (Cleanup.songs_db t))).
    { rewrite R4, R3, R2 by discriminate. apply D1. now rewrite F. }
    cbn in R. destruct (f_songs fs4); inversion R; reflexivity.
  - intros F. assert (R : read_doc fs4 PlaylistsStore
                          = Some (DPlaylists (Cleanup.playlists_db t))).
    { rewrite R4, R3 by discriminate. apply D2. now rewrite F. }
    cbn in R. destruct (f_playlists fs4); inversion R; reflexivity.
  - intros F. assert (R : read_doc fs4 MappingStore
                          = Some (DMapping (Cleanup.mapping_db t))).
    { rewrite R4 by discriminate. apply D3. now rewrite F. }
    cbn in R. destruct (f_mapping fs4); inversion R; reflexivity.
  - intros F. assert (R : read_doc fs4 ArtistsStore
                          = Some (DArtists (Cleanup.artists_db t))).
    { apply D4. now rewrite F. }
    cbn in R. destruct (f_artists fs4); inversion R; reflexivity.
Qed.


(** C8, as stated, fails on the downloader: its [save_databases]
    writes the documents as they are held in memory. Loaded from a
    folder without a songs file, the songs document it saves has no
    counter and no stamp; and a document whose counter is out of date
    is saved with that counter and its old stamp. *)
Lemma downloader_save_keeps_counters :
  let '(fs1, _, _) :=
    Downloader.save_databases Scenario.env0 Scenario.fs_mapping_only
      (Downloader.load_databases Scenario.fs_mapping_only) in
  let '(fs2, _, _) :=
    Downloader.save_databases Scenario.env0 Scenario.fs_empty
      (Downloader.mkDownloader Scenario.stale_songs_doc empty_playlists_doc
         empty_mapping_doc) in
  f_songs fs1 = Some (mkSongsDoc None None None)
  /\ (exists d, f_songs fs2 = Some d
        /\ total_songs d = Some 5
        /\ Dict.len (get_or (d_songs d) []) = 2
        /\ s_last_updated d <> Some (now Scenario.env0)).
Proof.
  vm_compute. split; [reflexivity|].
  eexists. repeat split; discriminate.
Qed.

(** C8, amended. A save of the ingestion path and a save of the
    remover whose writes succeed leave, in the songs, playlists and
    artists files, counters that equal the lengths of the collections
    saved and the time of the save as [last_updated]; the remover does
    so for the artists only when its artists document is not empty. *)
Theorem save_recomputes_counters
    env fs (m : Scraper.SmartSongManager) (r : Remover.PlaylistRemover) :
  (forall s, write_fails env s = false) ->
  (let fs' := Scraper.save_databases env fs m in
   f_songs fs'
   = Some (mkSongsDoc (Some (Scraper.existing_songs m))
             (Some (Dict.len (Scraper.existing_songs m))) (Some (now env)))
   /\ f_playlists fs'
      = Some (mkPlaylistsDoc (Some (Scraper.existing_playlists m))
                (Some (Dict.len (Scraper.existing_playlists m)))
                (Some (now env)))
   /\ f_artists fs'
      = Some (mkArtistsDoc (Some (Scraper.existing_artists m))
                (Some (Dict.len (Scraper.existing_artists m)))
                (Some (now env))))
  /\ (let '(r', fs', ok) := Remover.save_databases env fs r in
      ok = true
      /\ f_songs fs'
         = Some (mkSongsDoc (d_songs (Remover.songs_db r))
                   (Some (Dict.len (get_or (d_songs (Remover.songs_db r)) [])))
                   (Some (now env)))
      /\ f_playlists fs'
         = Some (mkPlaylistsDoc (d_playlists (Remover.playlists_db r))
                   (Some (Dict.len
                            (get_or (d_playlists (Remover.playlists_db r)) [])))
                   (Some (now env)))
      /\ (artists_doc_truthy (Remover.artists_db r) = true ->
          f_artists fs'
          = Some (mkArtistsDoc (d_artists (Remover.artists_db r))
                    (Some (Dict.len
                             (get_or (d_artists (Remover.artists_db r)) [])))
                    (Some (now env))))
      /\ f_songs fs' = Some (Remover.songs_db r')
      /\ f_playlists fs' = Some (Remover.playlists_db r'))
  /\ (forall t : Downloader.PlaylistSongDownloader,
        let '(fs', _, _) := Downloader.save_databases env fs t in
        f_songs fs' = Some (Downloader.songs_db t)
        /\ f_playlists fs' = Some (Downloader.playlists_db t))
  /\ (forall t : Cleanup.SongCleanupTool,
        let '(fs', _, _) := Cleanup.save_all_databases env fs t in
        f_songs fs' = Some (Cleanup.songs_db t)
        /\ f_playlists fs' = Some (Cleanup.playlists_db t)
        /\ f_artists fs' = Some (Cleanup.artists_db t)).
Proof.
  intros F. split; [|split; [|split]].
  - destruct (ingestion_save_files env fs m F) as (Hs & Hp & Ha & _).
    cbv zeta. auto.
  - unfold Remover.save_databases, dump. cbn. rewrite !F. cbn.
    destruct (artists_doc_truthy (Remover.artists_db r)) eqn:TA;
      destruct (mapping_doc_truthy (Remover.mapping_db r)) eqn:TM;
      cbn; rewrite ?F; cbn; repeat split; intros; try reflexivity;
      discriminate.
  - intros t. unfold Downloader.save_databases, Downloader.save_one,
      Downloader.save_json_file, dump. cbn. rewrite !F. cbn. now split.
  - intros t.
    pose proof (cleanup_save_files env fs t) as H.
    destruct (Cleanup.save_all_databases env fs t) as [[fs' n] out].
    destruct H as (Hs & Hp & _ & Ha). auto.
Qed.

Lemma save_recomputes_counters_witness :
  (forall s, write_fails Scenario.env0 s = false)
  /\ f_songs
       (Scraper.save_databases Scenario.env0 Scenario.fs_empty
          (Scraper.load_existing_databases Scenario.fs_listed))
     = Some (mkSongsDoc (Some Scenario.songs_listed) (Some 2)
               (Some Scenario.t0)).
Proof.
  split; [reflexivity|].
  exact (proj1 (proj1
    (save_recomputes_counters Scenario.env0 Scenario.fs_empty
       (Scraper.load_existing_databases Scenario.fs_listed)
       Scenario.remover_listed (fun s => eq_refl)))).
Defined.

(** ** The resolver indexes during a run *)

Lemma frame_refl m : frame m m.
Proof. repeat split. Qed.

Lemma frame_trans m1 m2 m3 : frame m1 m2 -> frame m2 m3 -> frame m1 m3.
Proof.
  intros (A1 & B1 & C1 & D1) (A2 & B2 & C2 & D2).
  repeat split; congruence.
Qed.

Lemma store_artist_info_frame m artist_uri artist_name playlist_key now m' :
  Scraper.store_artist_info m artist_uri artist_name playlist_key now = Ok m' ->
  frame m m'.
Proof.
  unfold Scraper.store_artist_info.
  destruct (Dict.get artist_uri (Scraper.existing_artists m)) as [a|].
  - destruct (negb _).
    + destruct (playlist_ids a); [|discriminate].
      intros E. inversion E. repeat split.
    + intros E. inversion E. apply frame_refl.
  - intros E. inversion E. repeat split.
Qed.

Lemma store_track_artists_frame now playlist_key items :
  forall m artists_info,
    frame m (fst (Scraper.store_track_artists now playlist_key m items
                    artists_info)).
Proof.
  induction items as [|artist rest IH]; intros m infos; simpl.
  - apply frame_refl.
  - destruct (Scraper.store_artist_info m _ _ playlist_key now) as [m'|e] eqn:S.
    + eapply frame_trans; [eapply store_artist_info_frame; exact S|apply IH].
    + apply frame_refl.
Qed.

Lemma add_playlist_to_song_indexes m song_id playlist_id :
  let m' := fst (Scraper.add_playlist_to_song m song_id playlist_id) in
  Scraper.uri_to_song_id m' = Scraper.uri_to_song_id m
  /\ Scraper.name_artist_to_song_id m' = Scraper.name_artist_to_song_id m
  /\ Scraper.existing_artists m' = Scraper.existing_artists m.
Proof.
  unfold Scraper.add_playlist_to_song.
  destruct (Dict.get song_id (Scraper.existing_songs m)); [|repeat split].
  destruct (negb _); repeat split.
Qed.

Lemma process_track_keeps_indexes now playlist_key r track_data :
  let r' := Scraper.process_track now playlist_key r track_data in
  Scraper.uri_to_song_id (Scraper.song_manager r')
  = Scraper.uri_to_song_id (Scraper.song_manager r)
  /\ Scraper.name_artist_to_song_id (Scraper.song_manager r')
     = Scraper.name_artist_to_song_id (Scraper.song_manager r).
Proof.
  unfold Scraper.process_track.
  pose proof (store_track_artists_frame now playlist_key
                (Scraper.td_artists track_data) (Scraper.song_manager r) [])
    as (_ & _ & U & N).
  destruct (Scraper.store_track_artists now playlist_key
              (Scraper.song_manager r) (Scraper.td_artists track_data) [])
    as [m1 [artists_info|e]]; simpl in U, N; [|simpl; auto].
  destruct (Scraper.find_existing_song m1 _) as [[[existing_song_id info]|]|e];
    [| simpl; auto | simpl; auto].
  pose proof (add_playlist_to_song_indexes m1 existing_song_id playlist_key)
    as (U' & N' & _).
  destruct (Scraper.add_playlist_to_song m1 existing_song_id playlist_key)
    as [m2 changed].
  simpl in *. split; congruence.
Qed.

(** C9, as stated, fails: the song ingested without a uri is hit by
    title and artist when the descriptor [{A, X, u1}] arrives, and the
    uri u1 is not added to the uri index, so a later lookup by u1 alone
    finds nothing. *)
Lemma uri_not_indexed_after_name_hit :
  let m := Scraper.load_existing_databases Scenario.fs_ingested_A in
  let r := Scraper.process_track Scenario.t0 "artist_x2"
             (Scraper.mkRun m [] [] [] 0) Scenario.track_A_u1 in
  Scraper.name_artist_to_song_id m = [("a|x", "song_d4bb73c2c32a")]%string
  /\ Scraper.run_song_ids r = ["song_d4bb73c2c32a"%string]
  /\ Scraper.new_songs_to_download r = []
  /\ playlists_of (Scraper.song_manager r) "song_d4bb73c2c32a"
     = ["artist_x1"; "artist_x2"]%string
  /\ Dict.get "u1" (Scraper.uri_to_song_id (Scraper.song_manager r)) = None
  /\ Scraper.find_existing_song (Scraper.song_manager r)
       (mkMetadata "Other title" "Y" [] "u1" 0 "" 1) = Ok None.
Proof. vm_compute. repeat split; reflexivity. Qed.

(** C9, amended. Resolution never touches the resolver indexes: over
    the whole track loop of a run, whether a track hits an existing
    song or installs a new one, the uri index and the name+artist index
    stay exactly as loading built them; they lose no entry and gain
    none. *)
Theorem resolver_indexes_fixed_in_run
    (now playlist_key : string) (tracks : list Scraper.TrackData)
    (r : Scraper.Run) :
  let r' := fold_left (Scraper.process_track now playlist_key) tracks r in
  Scraper.uri_to_song_id (Scraper.song_manager r')
  = Scraper.uri_to_song_id (Scraper.song_manager r)
  /\ Scraper.name_artist_to_song_id (Scraper.song_manager r')
     = Scraper.name_artist_to_song_id (Scraper.song_manager r).
Proof.
  revert r. induction tracks as [|td tracks IH]; intros r; simpl; auto.
  destruct (IH (Scraper.process_track now playlist_key r td)) as [U N].
  destruct (process_track_keeps_indexes now playlist_key r td) as [U' N'].
  cbv zeta in *. split; congruence.
Qed.

(** ** Identity resolution *)

Lemma has_set_mono (V : Type) (d : Dict.t V) k k' v :
  Dict.has k d = true -> Dict.has k (Dict.set k' v d) = true.
Proof.
  unfold Dict.has. destruct (String.eqb k k') eqn:E.
  - apply String.eqb_eq in E. subst. now rewrite get_set_same.
  - apply String.eqb_neq in E. now rewrite get_set_other.
Qed.














(** The scenario of the specification, from an empty catalog: both
    descriptors are recorded under the id generated from A and X. *)
Example identity_convergence_from_empty :
  Scraper.run_song_ids
    (fold_left (Scraper.process_track Scenario.t0 "artist_x1")
       [Scenario.track_A_u1; Scenario.track_A]
       (Scraper.mkRun (Scraper.load_existing_databases Scenario.fs_empty)
          [] [] [] 0))
  = ["song_d4bb73c2c32a"; "song_d4bb73c2c32a"]%string.
Proof. vm_compute. reflexivity. Qed.

(** ** Artists *)

Lemma get_none_not_in_keys (V : Type) (d : Dict.t V) k :
  Dict.get k d = None -> ~ In k (Dict.keys d).
Proof.
  induction d as [|[k' v'] d IH]; simpl; [tauto|].
  destruct (String.eqb k k') eqn:E; [discriminate|].
  apply String.eqb_neq in E. intros G [X|X]; [congruence|now apply IH].
Qed.

Lemma keys_set_absent (V : Type) (d : Dict.t V) k v :
  Dict.get k d = None -> Dict.keys (Dict.set k v d) = Dict.keys d ++ [k].
Proof.
  induction d as [|[k' v'] d IH]; simpl; [reflexivity|].
  destruct (String.eqb k k') eqn:E; [discriminate|].
  intros G. simpl. now rewrite IH.
Qed.

Lemma wf_set (V : Type) (d : Dict.t V) k v :
  Dict.wf d -> Dict.wf (Dict.set k v d).
Proof.
  unfold Dict.wf. intros W.
  destruct (Dict.get k d) as [v0|] eqn:G.
  - now rewrite (keys_set_present V d k v v0 G).
  - rewrite (keys_set_absent V d k v G).
    apply NoDup_app; [exact W|repeat constructor; simpl; tauto|].
    intros x I [X|[]]. subst x. exact (get_none_not_in_keys V d k G I).
Qed.

Lemma artists_inv_set artists uri a l :
  artists_inv artists ->
  playlist_ids a = Some l -> l <> [] -> NoDup l ->
  artists_inv (Dict.set uri a artists).
Proof.
  intros [W I] P N D. split; [now apply wf_set|].
  intros uri' a'. destruct (String.eqb uri' uri) eqn:E.
  - apply String.eqb_eq in E. subst. rewrite get_set_same.
    intros X. inversion X. subst. eauto.
  - apply String.eqb_neq in E. rewrite get_set_other by assumption. apply I.
Qed.

Lemma NoDup_snoc (x : string) l : NoDup l -> ~ In x l -> NoDup (l ++ [x]).
Proof.
  intros D N. apply NoDup_app; [exact D|repeat constructor; simpl; tauto|].
  intros y I [X|[]]. subst. tauto.
Qed.

(** Ingestion: [store_artist_info] creates the record with the one
    playlist id, or appends the id when the artist does not hold it;
    it takes nothing away, and the store stays well formed. *)
Lemma store_artist_info_inv m artist_uri artist_name playlist_key now :
  artists_inv (Scraper.existing_artists m) ->
  exists m',
    Scraper.store_artist_info m artist_uri artist_name playlist_key now = Ok m'
    /\ artists_inv (Scraper.existing_artists m')
    /\ artist_ids (Scraper.existing_artists m') artist_uri
       = Some (match artist_ids (Scraper.existing_artists m) artist_uri with
               | Some l => if PyStr.mem playlist_key l then l
                           else l ++ [playlist_key]
               | None => [playlist_key]
               end)
    /\ (forall uri, uri <> artist_uri ->
          artist_ids (Scraper.existing_artists m') uri
          = artist_ids (Scraper.existing_artists m) uri).
Proof.
  intros Inv. unfold Scraper.store_artist_info, artist_ids.
  destruct (Dict.get artist_uri (Scraper.existing_artists m)) as [a|] eqn:G.
  - destruct Inv as [W I]. destruct (I _ _ G) as (l & P & N & D).
    rewrite P. simpl.
    destruct (PyStr.mem playlist_key l) eqn:M; simpl.
    + exists m. rewrite G. simpl. rewrite ?P. simpl. rewrite ?M.
      repeat split; auto.
    + eexists. split; [reflexivity|]. simpl. split; [|split].
      * apply artists_inv_set with (l := l ++ [playlist_key]).
        -- split; assumption.
        -- reflexivity.
        -- destruct l; discriminate.
        -- apply NoDup_snoc; [exact D|].
           intros X. apply mem_In in X. congruence.
      * rewrite get_set_same. simpl. rewrite P. simpl. now rewrite M.
      * intros uri Ne. now rewrite get_set_other.
  - eexists. split; [reflexivity|]. simpl. split; [|split].
    + apply artists_inv_set with (l := [playlist_key]);
        [exact Inv|reflexivity|discriminate|].
      repeat constructor. simpl. tauto.
    + now rewrite get_set_same.
    + intros uri Ne. now rewrite get_set_other.
Qed.

Lemma remove_first_incl x l y : In y (PyStr.remove_first x l) -> In y l.
Proof.
  induction l as [|z l IH]; simpl; [tauto|].
  destruct (String.eqb x z); simpl; tauto.
Qed.

Lemma remove_first_NoDup x l : NoDup l -> NoDup (PyStr.remove_first x l).
Proof.
  induction 1 as [|z l N D IH]; simpl; [constructor|].
  destruct (String.eqb x z); [exact D|].
  constructor; [|exact IH]. intros I. apply N. eapply remove_first_incl; eauto.
Qed.

Lemma remove_first_not_in x l : NoDup l -> ~ In x (PyStr.remove_first x l).
Proof.
  induction 1 as [|z l N D IH]; simpl; [tauto|].
  destruct (String.eqb x z) eqn:E.
  - apply String.eqb_eq in E. now subst.
  - apply String.eqb_neq in E. simpl. intros [X|X]; [congruence|tauto].
Qed.

Lemma remove_first_absent x l :
  PyStr.mem x l = false -> PyStr.remove_first x l = l.
Proof.
  induction l as [|z l IH]; simpl; [reflexivity|].
  destruct (String.eqb x z); simpl; [discriminate|].
  intros M. now rewrite IH.
Qed.

Lemma remove_first_nil_mem x l :
  l <> [] -> PyStr.remove_first x l = [] -> PyStr.mem x l = true.
Proof.
  destruct l as [|z l]; [tauto|]. simpl.
  destruct (String.eqb x z); [reflexivity|discriminate].
Qed.

Lemma get_map_values (V W : Type) (f : V -> W) (d : Dict.t V) k :
  Dict.get k (map (fun e => (fst e, f (snd e))) d)
  = option_map f (Dict.get k d).
Proof.
  induction d as [|[k' v'] d IH]; simpl; [reflexivity|].
  now destruct (String.eqb k k').
Qed.

Lemma keys_map_values (V W : Type) (f : V -> W) (d : Dict.t V) :
  Dict.keys (map (fun e => (fst e, f (snd e))) d) = Dict.keys d.
Proof. unfold Dict.keys. rewrite map_map. reflexivity. Qed.

Lemma keys_del_incl (V : Type) (d : Dict.t V) k k' :
  In k' (Dict.keys (Dict.del k d)) -> In k' (Dict.keys d).
Proof.
  induction d as [|[k0 v0] d IH]; simpl; [tauto|].
  destruct (String.eqb k k0); simpl; tauto.
Qed.

Lemma wf_del (V : Type) (d : Dict.t V) k : Dict.wf d -> Dict.wf (Dict.del k d).
Proof.
  unfold Dict.wf. induction d as [|[k0 v0] d IH]; simpl; [auto|].
  intros W. inversion W as [|? ? N W']; subst.
  destruct (String.eqb k k0); [auto|]. simpl. constructor; [|auto].
  intros I. apply N. eapply keys_del_incl; eauto.
Qed.

Lemma wf_fold_del (V : Type) ks : forall (d : Dict.t V),
  Dict.wf d -> Dict.wf (fold_left (fun d k => Dict.del k d) ks d).
Proof.
  induction ks as [|k ks IH]; simpl; intros d W; [exact W|].
  apply IH. now apply wf_del.
Qed.

Lemma get_fold_del (V : Type) ks : forall (d : Dict.t V) k,
  Dict.get k (fold_left (fun d k => Dict.del k d) ks d)
  = if PyStr.mem k ks then None else Dict.get k d.
Proof.
  induction ks as [|k0 ks IH]; simpl; intros d k; [reflexivity|].
  rewrite IH. destruct (String.eqb k k0) eqn:E; simpl.
  - apply String.eqb_eq in E. subst. rewrite get_del_same.
    now destruct (PyStr.mem k0 ks).
  - apply String.eqb_neq in E. now rewrite get_del_other.
Qed.

(** The marked keys of a well-formed dict are those whose value is
    marked. *)
Lemma mem_marked (V : Type) (p : V -> bool) (d : Dict.t V) k :
  Dict.wf d ->
  PyStr.mem k (map fst (filter (fun e => p (snd e)) d))
  = match Dict.get k d with Some v => p v | None => false end.
Proof.
  unfold Dict.wf. induction d as [|[k0 v0] d IH]; simpl; [reflexivity|].
  intros W. inversion W as [|? ? N W']; subst.
  destruct (String.eqb k k0) eqn:E.
  - apply String.eqb_eq in E. subst k0.
    destruct (p v0); simpl; [now rewrite String.eqb_refl|].
    rewrite IH by assumption.
    now rewrite (get_not_in_keys V d k N).
  - destruct (p v0); simpl; rewrite ?E; auto.
Qed.

(** [clean_artist] on the ids of a record. *)
Lemma clean_artist_ids now playlist_id a :
  get_or (playlist_ids (fst (Remover.clean_artist now playlist_id a))) []
  = PyStr.remove_first playlist_id (get_or (playlist_ids a) []).
Proof.
  unfold Remover.clean_artist.
  destruct (PyStr.mem playlist_id (get_or (playlist_ids a) [])) eqn:M;
    simpl; [reflexivity|]. now rewrite remove_first_absent.
Qed.

Lemma clean_artist_marked now playlist_id a :
  get_or (playlist_ids a) [] <> [] ->
  snd (Remover.clean_artist now playlist_id a)
  = match PyStr.remove_first playlist_id (get_or (playlist_ids a) []) with
    | [] => true
    | _ => false
    end.
Proof.
  intros N. unfold Remover.clean_artist.
  destruct (PyStr.mem playlist_id (get_or (playlist_ids a) [])) eqn:M;
    simpl; [reflexivity|].
  destruct (PyStr.remove_first playlist_id (get_or (playlist_ids a) []))
    eqn:R; [|reflexivity].
  apply remove_first_nil_mem in R; [congruence|exact N].
Qed.

(** The artists that the cascade leaves: each record cleaned, the
    marked ones gone. *)
Lemma get_cleaned_artists now playlist_id (artists : Dict.t Artist) uri :
  Dict.wf artists ->
  let cleaned :=
    map (fun e : string * Artist =>
           (fst e, Remover.clean_artist now playlist_id (snd e))) artists in
  Dict.get uri
    (fold_left (fun d artist_uri => Dict.del artist_uri d)
       (map fst (filter (fun e => snd (snd e)) cleaned))
       (map (fun e => (fst e, fst (snd e))) cleaned))
  = match Dict.get uri artists with
    | Some a =>
        if snd (Remover.clean_artist now playlist_id a) then None
        else Some (fst (Remover.clean_artist now playlist_id a))
    | None => None
    end.
Proof.
  intros W cleaned. rewrite get_fold_del.
  assert (Wc : Dict.wf cleaned).
  { unfold Dict.wf, cleaned.
    now rewrite (keys_map_values Artist (Artist * bool)
                   (Remover.clean_artist now playlist_id) artists). }
  rewrite (mem_marked (Artist * bool) snd cleaned uri Wc).
  rewrite (get_map_values (Artist * bool) Artist fst cleaned uri).
  unfold cleaned.
  rewrite (get_map_values Artist (Artist * bool)
             (Remover.clean_artist now playlist_id) artists uri).
  destruct (Dict.get uri artists) as [a|]; simpl; [|reflexivity].
  now destruct (snd (Remover.clean_artist now playlist_id a)).
Qed.

(** Cascade: [clean_artists_database] takes the playlist id out of
    every artist, purges exactly the artists left without a playlist,
    and the store stays well formed. *)
Lemma clean_artists_database_inv env r playlist_id artists :
  d_artists (Remover.artists_db r) = Some artists ->
  artists_inv artists ->
  exists artists',
    d_artists (Remover.artists_db
                 (Remover.clean_artists_database env r playlist_id))
    = Some artists'
    /\ artists_inv artists'
    /\ (forall uri,
          artist_ids artists' uri
          = match artist_ids artists uri with
            | Some l =>
                match PyStr.remove_first playlist_id l with
                | [] => None
                | l' => Some l'
                end
            | None => None
            end)
    /\ (forall uri l, artist_ids artists' uri = Some l -> ~ In playlist_id l).
Proof.
  intros DA [W I]. unfold Remover.clean_artists_database.
  assert (T : artists_doc_truthy (Remover.artists_db r) = true).
  { destruct (Remover.artists_db r) as [da ta la]. simpl in DA. subst da.
    reflexivity. }
  rewrite T, DA. simpl. eexists. split; [reflexivity|].
  assert (G : forall uri,
             artist_ids
               (fold_left (fun d artist_uri => Dict.del artist_uri d)
                  (map fst
                     (filter (fun e => snd (snd e))
                        (map (fun e : string * Artist =>
                                (fst e,
                                 Remover.clean_artist (now env) playlist_id
                                   (snd e))) artists)))
                  (map (fun e => (fst e, fst (snd e)))
                     (map (fun e : string * Artist =>
                             (fst e,
                              Remover.clean_artist (now env) playlist_id
                                (snd e))) artists))) uri
             = match artist_ids artists uri with
               | Some l =>
                   match PyStr.remove_first playlist_id l with
                   | [] => None
                   | l' => Some l'
                   end
               | None => None
               end).
  { intros uri. unfold artist_ids.
    rewrite (get_cleaned_artists (now env) playlist_id artists uri W).
    destruct (Dict.get uri artists) as [a|] eqn:Ga; [|reflexivity]. simpl.
    destruct (I _ _ Ga) as (l & P & N & D).
    rewrite clean_artist_marked by (rewrite P; exact N).
    rewrite P. simpl.
    destruct (PyStr.remove_first playlist_id l) eqn:R; [reflexivity|].
    simpl. rewrite clean_artist_ids, P. simpl. now rewrite R. }
  split; [|split].
  - split.
    + apply wf_fold_del. unfold Dict.wf.
      rewrite (keys_map_values (Artist * bool) Artist fst).
      now rewrite (keys_map_values Artist (Artist * bool)
                     (Remover.clean_artist (now env) playlist_id)).
    + intros uri a'.
      rewrite (get_cleaned_artists (now env) playlist_id artists uri W).
      destruct (Dict.get uri artists) as [a|] eqn:Ga; [|discriminate].
      destruct (I _ _ Ga) as (l & P & N & D).
      pose proof (clean_artist_marked (now env) playlist_id a) as Mk.
      pose proof (clean_artist_ids (now env) playlist_id a) as Ids.
      rewrite P in Mk, Ids. simpl in Mk, Ids. rewrite Mk by exact N.
      destruct (PyStr.remove_first playlist_id l) as [|x l'] eqn:R;
        [discriminate|].
      intros X. inversion X. subst a'. clear X.
      unfold Remover.clean_artist in *. rewrite P in *. simpl in *.
      destruct (PyStr.mem playlist_id l) eqn:M; simpl in *.
      * exists (PyStr.remove_first playlist_id l). rewrite R.
        repeat split; [discriminate|].
        rewrite <- R. now apply remove_first_NoDup.
      * exists l. repeat split; assumption.
  - exact G.
  - intros uri l. rewrite G. unfold artist_ids.
    destruct (Dict.get uri artists) as [a|] eqn:Ga; [|discriminate]. simpl.
    destruct (I _ _ Ga) as (l0 & P & N & D). rewrite P. simpl.
    destruct (PyStr.remove_first playlist_id l0) eqn:R; [discriminate|].
    intros X. inversion X. subst l. rewrite <- R.
    now apply remove_first_not_in.
Qed.

(** C6. The artists store keeps "a record exists exactly when it holds
    a playlist id": on a store where every record holds a non-empty,
    duplicate-free list (under its own key), [store_artist_info]
    creates the record with the playlist id or adds the id to it and
    removes nothing, and the cascade's [clean_artists_database] takes
    the removed playlist's id out of every artist that holds it and
    deletes exactly the artists whose list becomes empty; both leave a
    store of the same shape. *)
Theorem artist_exists_iff_referenced
    (m : Scraper.SmartSongManager) (r : Remover.PlaylistRemover)
    (artists : Dict.t Artist) (env : Env)
    (artist_uri artist_name playlist_key removed : string) :
  artists_inv (Scraper.existing_artists m) ->
  d_artists (Remover.artists_db r) = Some artists ->
  artists_inv artists ->
  (exists m',
     Scraper.store_artist_info m artist_uri artist_name playlist_key (now env)
     = Ok m'
     /\ artists_inv (Scraper.existing_artists m')
     /\ artist_ids (Scraper.existing_artists m') artist_uri
        = Some (match artist_ids (Scraper.existing_artists m) artist_uri with
                | Some l => if PyStr.mem playlist_key l then l
                            else l ++ [playlist_key]
                | None => [playlist_key]
                end)
     /\ (forall uri, uri <> artist_uri ->
           artist_ids (Scraper.existing_artists m') uri
           = artist_ids (Scraper.existing_artists m) uri))
  /\ (exists artists',
        d_artists (Remover.artists_db
                     (Remover.clean_artists_database env r removed))
        = Some artists'
        /\ artists_inv artists'
        /\ (forall uri,
              artist_ids artists' uri
              = match artist_ids artists uri with
                | Some l =>
                    match PyStr.remove_first removed l with
                    | [] => None
                    | l' => Some l'
                    end
                | None => None
                end)
        /\ (forall uri l,
              artist_ids artists' uri = Some l -> ~ In removed l)).
Proof.
  intros Im DA Ia. split.
  - now apply store_artist_info_inv.
  - now apply clean_artists_database_inv.
Qed.

Lemma artists_listed_inv : artists_inv Scenario.artists_listed.
Proof.
  split.
  - repeat constructor; simpl; intuition discriminate.
  - intros uri a. simpl.
    destruct (String.eqb uri "a1"); [|destruct (String.eqb uri "a2")];
      intros X; inversion X; subst; simpl; eexists;
      (split; [reflexivity|split; [discriminate|]]);
      repeat constructor; simpl; intuition discriminate.
Qed.

Lemma artist_exists_iff_referenced_witness :
  artists_inv Scenario.artists_listed
  /\ exists artists',
       d_artists (Remover.artists_db
                    (Remover.clean_artists_database Scenario.env0
                       Scenario.remover_listed "p1"))
       = Some artists'
       /\ artist_ids artists' "a1" = Some ["p2"%string]
       /\ artist_ids artists' "a2" = None.
Proof.
  split; [exact artists_listed_inv|].
  destruct (artist_exists_iff_referenced
              (Scraper.load_existing_databases Scenario.fs_listed)
              Scenario.remover_listed Scenario.artists_listed Scenario.env0
              "a3" "Cy" "p2" "p1"
              artists_listed_inv eq_refl artists_listed_inv)
    as (_ & artists' & E & _ & G & _).
  exists artists'. split; [exact E|].
  split; rewrite G; reflexivity.
Defined.

(** ** Loading *)

Lemma load_song_sound m entry :
  index_sound m -> index_sound (Scraper.load_song m entry).
Proof.
  destruct entry as [song_id song_info]. intros [SU SN].
  unfold Scraper.load_song.
  split; intros k id; simpl.
  - destruct (PyStr.truthy (track_uri (metadata song_info))).
    + destruct (String.eqb k (track_uri (metadata song_info))) eqn:E.
      * apply String.eqb_eq in E. subst k. rewrite get_set_same.
        intros X. inversion X. subst id. unfold Dict.has.
        now rewrite get_set_same.
      * apply String.eqb_neq in E. rewrite get_set_other by assumption.
        intros G. apply has_set_mono. eapply SU; eauto.
    + intros G. apply has_set_mono. eapply SU; eauto.
  - destruct (PyStr.truthy _ && PyStr.truthy _).
    + match goal with |- Dict.get k (Dict.set ?key _ _) = _ -> _ =>
        destruct (String.eqb k key) eqn:E end.
      * apply String.eqb_eq in E. subst k. rewrite get_set_same.
        intros X. inversion X. subst id. unfold Dict.has.
        now rewrite get_set_same.
      * apply String.eqb_neq in E. rewrite get_set_other by assumption.
        intros G. apply has_set_mono. eapply SN; eauto.
    + intros G. apply has_set_mono. eapply SN; eauto.
Qed.

(** The indexes that [load_existing_databases] builds point at songs
    of the working set. *)
Lemma load_index_sound fs : index_sound (Scraper.load_existing_databases fs).
Proof.
  assert (F : forall l m, index_sound m ->
                          index_sound (fold_left Scraper.load_song l m)).
  { induction l as [|e l IH]; simpl; intros m S; [exact S|].
    apply IH. now apply load_song_sound. }
  assert (S0 : index_sound Scraper.fresh_manager)
    by (split; intros k id G; discriminate G).
  unfold Scraper.load_existing_databases.
  destruct (f_songs fs) as [sd|], (f_playlists fs) as [pd|],
    (f_artists fs) as [ad|]; simpl;
    try (apply (F _ _ S0)); try exact S0;
    try (destruct (F (get_or (d_songs sd) []) _ S0) as [A B];
         split; simpl; assumption).
Qed.

(** A uri that is indexed decides the lookup, whatever the title. *)
Lemma find_existing_song_by_uri m track_info song_id :
  PyStr.truthy (track_uri track_info) = true ->
  Dict.get (track_uri track_info) (Scraper.uri_to_song_id m) = Some song_id ->
  Scraper.find_existing_song m track_info = Scraper.hit m song_id.
Proof.
  intros T G. unfold Scraper.find_existing_song. now rewrite T, G.
Qed.

(** ** Detach and classify *)

(** Detach and classify, for one listed song that is stored: the
    playlist id leaves the song's list, the song is marked "remove"
    when nothing is left and "keep" otherwise, and no other song and no
    other mark is touched. *)
Lemma detach_listed playlist_id (songs : Dict.t Song)
    (song_actions : Dict.t string) song_id s :
  Dict.get song_id songs = Some s ->
  let l := PyStr.remove_first playlist_id (get_or (playlists s) []) in
  let '(songs', actions') :=
    Remover.detach playlist_id (songs, song_actions) song_id in
  option_map (fun x => get_or (playlists x) []) (Dict.get song_id songs')
  = Some l
  /\ Dict.get song_id actions'
     = Some (match l with [] => "remove" | _ => "keep" end)%string
  /\ (forall k, k <> song_id ->
        Dict.get k songs' = Dict.get k songs
        /\ Dict.get k actions' = Dict.get k song_actions).
Proof.
  intros G. unfold Remover.detach. rewrite G.
  destruct (PyStr.mem playlist_id (get_or (playlists s) [])) eqn:M.
  - destruct (PyStr.remove_first playlist_id (get_or (playlists s) []))
      eqn:R; cbn; rewrite !get_set_same; cbn;
      (repeat split; auto; now rewrite get_set_other).
  - rewrite (remove_first_absent _ _ M).
    destruct (get_or (playlists s) []) eqn:L; cbn;
      rewrite G, get_set_same; cbn; rewrite ?L;
      (repeat split; auto; now rewrite get_set_other).
Qed.

(** A listed song that is not stored is skipped. *)
Lemma detach_missing playlist_id (songs : Dict.t Song)
    (song_actions : Dict.t string) song_id :
  Dict.get song_id songs = None ->
  Remover.detach playlist_id (songs, song_actions) song_id
  = (songs, song_actions).
Proof. intros G. unfold Remover.detach. now rewrite G. Qed.

(* ================================================================= *)
(** * Further properties of the code *)

(** ** Strings *)



Lemma string_app_assoc (s1 s2 s3 : string) :
  ((s1 ++ s2) ++ s3 = s1 ++ (s2 ++ s3))%string.
Proof. induction s1 as [|c s1 IH]; simpl; [reflexivity|now rewrite IH]. Qed.







(** ** Song ids *)



(** The separator between title and artists is an underscore, which
    titles and artists may contain themselves: moving a part across
    the separator does not change the id. *)
Theorem generate_song_id_separator_collision (t x a : string) :
  Scraper.generate_song_id (t ++ "_" ++ x) a
  = Scraper.generate_song_id t (x ++ "_" ++ a).
Proof.
  unfold Scraper.generate_song_id, Scraper.clean_string.
  rewrite string_app_assoc. reflexivity.
Qed.

(** ** Loading the catalog *)

Lemma set_fresh (V : Type) (d : Dict.t V) k v :
  ~ In k (Dict.keys d) -> Dict.set k v d = d ++ [(k, v)].
Proof.
  induction d as [|[k' v'] d IH]; simpl; [reflexivity|].
  intros N. destruct (String.eqb k k') eqn:E.
  - apply String.eqb_eq in E. subst k'. exfalso. apply N. now left.
  - rewrite IH; [reflexivity|]. intros I. apply N. now right.
Qed.

Lemma wf_app_fresh (V : Type) (acc l : Dict.t V) k v :
  Dict.wf (acc ++ (k, v) :: l) ->
  ~ In k (Dict.keys acc) /\ Dict.wf ((acc ++ [(k, v)]) ++ l).
Proof.
  unfold Dict.wf, Dict.keys. intros W. split.
  - rewrite map_app in W. simpl in W. apply NoDup_remove_2 in W.
    intros I. apply W. apply in_or_app. now left.
  - now rewrite <- app_assoc.
Qed.

Lemma load_songs_fold l : forall m,
  Dict.wf (Scraper.existing_songs m ++ l) ->
  Scraper.existing_songs (fold_left Scraper.load_song l m)
  = Scraper.existing_songs m ++ l.
Proof.
  induction l as [|[k v] l IH]; intros m W; simpl.
  - now rewrite app_nil_r.
  - destruct (wf_app_fresh Song _ _ _ _ W) as [N W'].
    rewrite IH; simpl; rewrite (set_fresh Song _ k v N);
      [now rewrite <- app_assoc|exact W'].
Qed.

Lemma load_songs_keeps_others l : forall m,
  Scraper.existing_playlists (fold_left Scraper.load_song l m)
  = Scraper.existing_playlists m
  /\ Scraper.existing_artists (fold_left Scraper.load_song l m)
     = Scraper.existing_artists m.
Proof.
  induction l as [|[k v] l IH]; intros m; cbn [fold_left]; [auto|].
  destruct (IH (Scraper.load_song m (k, v))) as [P A].
  now rewrite P, A.
Qed.

(** The parts of the loaded manager, by file. *)
Lemma load_parts fs :
  let m0 := fold_left Scraper.load_song (stored_songs fs)
              Scraper.fresh_manager in
  let m := Scraper.load_existing_databases fs in
  Scraper.existing_songs m = Scraper.existing_songs m0
  /\ Scraper.uri_to_song_id m = Scraper.uri_to_song_id m0
  /\ Scraper.name_artist_to_song_id m = Scraper.name_artist_to_song_id m0
  /\ Scraper.existing_playlists m = stored_playlists fs
  /\ Scraper.existing_artists m = stored_artists fs.
Proof.
  unfold Scraper.load_existing_databases, stored_songs, stored_playlists,
    stored_artists.
  destruct (f_songs fs) as [sd|], (f_playlists fs) as [pd|],
    (f_artists fs) as [ad|]; simpl; repeat split;
    apply (load_songs_keeps_others (get_or (d_songs sd) [])
             Scraper.fresh_manager).
Qed.

Lemma load_songs_stored fs :
  Dict.wf (stored_songs fs) ->
  Scraper.existing_songs (Scraper.load_existing_databases fs)
  = stored_songs fs.
Proof.
  intros W. destruct (load_parts fs) as (S & _). cbv zeta in S.
  rewrite S. now rewrite load_songs_fold.
Qed.

(** Loading hands back the stored collections: the songs of the
    songs file in their order (their keys being distinct, as in any
    JSON object that was loaded), the playlists and the artists. *)
Theorem load_existing_databases_round_trip (fs : FS) :
  Dict.wf (stored_songs fs) ->
  let m := Scraper.load_existing_databases fs in
  Scraper.existing_songs m = stored_songs fs
  /\ Scraper.existing_playlists m = stored_playlists fs
  /\ Scraper.existing_artists m = stored_artists fs.
Proof.
  intros W. destruct (load_parts fs) as (S & _ & _ & P & A).
  cbv zeta in *. rewrite S, P, A. repeat split.
  now rewrite load_songs_fold.
Qed.

Lemma load_existing_databases_round_trip_witness :
  Scraper.existing_songs
    (Scraper.load_existing_databases Scenario.fs_listed)
  = Scenario.songs_listed.
Proof.
  refine (proj1 (load_existing_databases_round_trip Scenario.fs_listed _)).
  repeat constructor; simpl; intuition discriminate.
Defined.

Lemma get_set_cases (V : Type) (d : Dict.t V) k k' v :
  Dict.get k' (Dict.set k v d)
  = if String.eqb k' k then Some v else Dict.get k' d.
Proof.
  destruct (String.eqb k' k) eqn:E.
  - apply String.eqb_eq in E. subst. apply get_set_same.
  - apply String.eqb_neq in E. now apply get_set_other.
Qed.

Lemma load_song_exact m song_id song_info :
  Dict.get song_id (Scraper.existing_songs m) = None ->
  index_exact m -> index_exact (Scraper.load_song m (song_id, song_info)).
Proof.
  intros F (IU & IN & CU & CN).
  assert (Old : forall id s, Dict.get id (Scraper.existing_songs m) = Some s ->
                  Dict.get id (Dict.set song_id song_info
                                 (Scraper.existing_songs m)) = Some s).
  { intros id s G. rewrite get_set_cases.
    destruct (String.eqb id song_id) eqn:E; [|exact G].
    apply String.eqb_eq in E. subst. congruence. }
  unfold Scraper.load_song. fold (name_key (metadata song_info)).
  assert (NK : (if PyStr.truthy
                     (PyStr.strip (PyStr.lower (track_name (metadata song_info))))
                   && PyStr.truthy
                        (PyStr.strip
                           (PyStr.lower (artists_string (metadata song_info))))
                then Dict.set
                       (PyStr.strip
                          (PyStr.lower (track_name (metadata song_info)))
                        ++ "|" ++
                        PyStr.strip
                          (PyStr.lower (artists_string (metadata song_info))))%string
                       song_id (Scraper.name_artist_to_song_id m)
                else Scraper.name_artist_to_song_id m)
               = match name_key (metadata song_info) with
                 | Some k => Dict.set k song_id (Scraper.name_artist_to_song_id m)
                 | None => Scraper.name_artist_to_song_id m
                 end).
  { unfold name_key. now destruct (_ && _). }
  rewrite NK. clear NK.
  split; [|split; [|split]]; simpl.
  - intros uri id.
    destruct (PyStr.truthy (track_uri (metadata song_info))) eqn:T.
    + rewrite get_set_cases.
      destruct (String.eqb uri (track_uri (metadata song_info))) eqn:E.
      * apply String.eqb_eq in E. intros X. inversion X. subst.
        exists song_info. now rewrite get_set_same.
      * intros G. destruct (IU _ _ G) as (s & Gs & U). eauto.
    + intros G. destruct (IU _ _ G) as (s & Gs & U). eauto.
  - intros k id.
    destruct (name_key (metadata song_info)) as [k0|] eqn:K.
    + rewrite get_set_cases. destruct (String.eqb k k0) eqn:E.
      * apply String.eqb_eq in E. intros X. inversion X. subst.
        exists song_info. now rewrite get_set_same.
      * intros G. destruct (IN _ _ G) as (s & Gs & U). eauto.
    + intros G. destruct (IN _ _ G) as (s & Gs & U). eauto.
  - intros id s. rewrite get_set_cases.
    destruct (String.eqb id song_id) eqn:E.
    + intros X T. inversion X. subst s. rewrite T. unfold Dict.has.
      now rewrite get_set_same.
    + intros G T. specialize (CU _ _ G T).
      destruct (PyStr.truthy (track_uri (metadata song_info)));
        [now apply has_set_mono|exact CU].
  - intros id s k. rewrite get_set_cases.
    destruct (String.eqb id song_id) eqn:E.
    + intros X K. inversion X. subst s. rewrite K. unfold Dict.has.
      now rewrite get_set_same.
    + intros G K. specialize (CN _ _ _ G K).
      destruct (name_key (metadata song_info));
        [now apply has_set_mono|exact CN].
Qed.

Lemma load_songs_exact l : forall m,
  Dict.wf (Scraper.existing_songs m ++ l) ->
  index_exact m -> index_exact (fold_left Scraper.load_song l m).
Proof.
  induction l as [|[k v] l IH]; intros m W X; cbn [fold_left]; [exact X|].
  destruct (wf_app_fresh Song _ _ _ _ W) as [N W'].
  apply IH.
  - simpl. now rewrite (set_fresh Song _ k v N).
  - apply load_song_exact; [|exact X]. now apply get_not_in_keys.
Qed.

Lemma load_index_exact fs :
  Dict.wf (stored_songs fs) ->
  index_exact (Scraper.load_existing_databases fs).
Proof.
  intros W. destruct (load_parts fs) as (S & U & N & _ & _). cbv zeta in *.
  assert (X : index_exact
                (fold_left Scraper.load_song (stored_songs fs)
                   Scraper.fresh_manager)).
  { apply load_songs_exact; [exact W|].
    repeat split; intros; discriminate. }
  unfold index_exact in *. rewrite S, U, N. exact X.
Qed.

(** Every stored song is found again after loading: looking up its
    own metadata hits a stored song with the same uri when it has one,
    else a stored song with the same lower-cased, stripped title and
    artists when it has both; the lookup misses only for a song that
    has neither, and never raises. *)
Theorem stored_song_found_after_load (fs : FS) (song_id : string) (s : Song) :
  Dict.wf (stored_songs fs) ->
  Dict.get song_id (stored_songs fs) = Some s ->
  match Scraper.find_existing_song (Scraper.load_existing_databases fs)
          (metadata s) with
  | Ok (Some (found_id, found)) =>
      Dict.get found_id (stored_songs fs) = Some found
      /\ (if PyStr.truthy (track_uri (metadata s))
          then track_uri (metadata found) = track_uri (metadata s)
          else name_key (metadata found) = name_key (metadata s)
               /\ name_key (metadata s) <> None)
  | Ok None =>
      PyStr.truthy (track_uri (metadata s)) = false
      /\ name_key (metadata s) = None
  | Raise _ => False
  end.
Proof.
  intros W G.
  destruct (load_index_exact fs W) as (IU & IN & CU & CN).
  pose proof (load_songs_stored fs W) as S.
  rewrite <- S in G |- *.
  set (m := Scraper.load_existing_databases fs) in *.
  unfold Scraper.find_existing_song, Scraper.hit.
  fold (name_key (metadata s)).
  destruct (PyStr.truthy (track_uri (metadata s))) eqn:T.
  - specialize (CU _ _ G T). unfold Dict.has in CU.
    destruct (Dict.get (track_uri (metadata s)) (Scraper.uri_to_song_id m))
      as [fid|] eqn:GU; [|discriminate].
    destruct (IU _ _ GU) as (f & Gf & Uf). rewrite Gf. now split.
  - assert (NK : forall A (x : string -> A) (y : A),
               (if PyStr.truthy
                     (PyStr.strip (PyStr.lower (track_name (metadata s))))
                   && PyStr.truthy
                        (PyStr.strip
                           (PyStr.lower (artists_string (metadata s))))
                then x (PyStr.strip (PyStr.lower (track_name (metadata s)))
                        ++ "|" ++
                        PyStr.strip
                          (PyStr.lower (artists_string (metadata s))))%string
                else y)
               = match name_key (metadata s) with
                 | Some k => x k
                 | None => y
                 end).
    { intros A x y. unfold name_key. now destruct (_ && _). }
    rewrite (NK _ (fun k =>
                     match Dict.get k (Scraper.name_artist_to_song_id m) with
                     | Some song_id0 =>
                         match Dict.get song_id0 (Scraper.existing_songs m) with
                         | Some info => Ok (Some (song_id0, info))
                         | None => Raise (KeyError song_id0)
                         end
                     | None => Ok None
                     end) (Ok None)).
    destruct (name_key (metadata s)) as [k|] eqn:K; [|now split].
    specialize (CN _ _ _ G K). unfold Dict.has in CN.
    destruct (Dict.get k (Scraper.name_artist_to_song_id m)) as [fid|] eqn:GN;
      [|discriminate].
    destruct (IN _ _ GN) as (f & Gf & Kf). rewrite Gf.
    repeat split; [exact Gf|exact Kf|discriminate].
Qed.

Lemma stored_song_found_after_load_witness :
  exists found,
    Scraper.find_existing_song
      (Scraper.load_existing_databases Scenario.fs_listed)
      (metadata (Scenario.song "Two" "u:2" ["p1"%string]))
    = Ok (Some ("s2"%string, found))
    /\ track_uri (metadata found) = "u:2"%string.
Proof.
  assert (W : Dict.wf (stored_songs Scenario.fs_listed))
    by (repeat constructor; simpl; intuition discriminate).
  pose proof (stored_song_found_after_load Scenario.fs_listed "s2"
                (Scenario.song "Two" "u:2" ["p1"%string]) W eq_refl) as H.
  destruct (Scraper.find_existing_song _ _) as [[[fid f]|]|e] eqn:E.
  - vm_compute in E. inversion E. subst. eexists. split; reflexivity.
  - vm_compute in E. discriminate E.
  - destruct H.
Defined.

(** ** Relationship tracking *)

(** Storing an artist under a playlist a second time changes nothing,
    whatever name and time the second call is given: the record is
    neither duplicated nor renamed nor re-stamped. *)
Theorem store_artist_info_idempotent
    (m m' : Scraper.SmartSongManager)
    (artist_uri artist_name playlist_key now other_name later : string) :
  Scraper.store_artist_info m artist_uri artist_name playlist_key now = Ok m' ->
  Scraper.store_artist_info m' artist_uri other_name playlist_key later = Ok m'.
Proof.
  unfold Scraper.store_artist_info at 1.
  destruct (Dict.get artist_uri (Scraper.existing_artists m)) as [a|] eqn:G.
  - destruct (PyStr.mem playlist_key (get_or (playlist_ids a) [])) eqn:M; simpl.
    + intros E. inversion E. subst m'. unfold Scraper.store_artist_info.
      now rewrite G, M.
    + destruct (playlist_ids a) as [l|] eqn:P; [|discriminate].
      intros E. inversion E. subst m'. unfold Scraper.store_artist_info.
      simpl. rewrite get_set_same. simpl. now rewrite mem_app_last.
  - intros E. inversion E. subst m'. unfold Scraper.store_artist_info.
    simpl. rewrite get_set_same. simpl. now rewrite String.eqb_refl.
Qed.

Lemma store_artist_info_idempotent_witness :
  exists m',
    Scraper.store_artist_info Scraper.fresh_manager "a1" "Ann" "p1"
      Scenario.t0 = Ok m'
    /\ Scraper.store_artist_info m' "a1" "Anna" "p1" "later" = Ok m'.
Proof.
  eexists. split; [reflexivity|].
  apply (store_artist_info_idempotent Scraper.fresh_manager _
           "a1" "Ann" "p1" Scenario.t0 "Anna" "later").
  reflexivity.
Defined.


(** ** The playlist that ingestion installs *)

Lemma find_existing_song_found m track_info song_id info :
  Scraper.find_existing_song m track_info = Ok (Some (song_id, info)) ->
  Dict.get song_id (Scraper.existing_songs m) = Some info.
Proof.
  unfold Scraper.find_existing_song, Scraper.hit.
  destruct (if PyStr.truthy (track_uri track_info)
            then Dict.get (track_uri track_info) (Scraper.uri_to_song_id m)
            else None) as [i|].
  - destruct (Dict.get i (Scraper.existing_songs m)) eqn:G; [|discriminate].
    intros E. inversion E. now subst.
  - destruct (_ && _); [|discriminate].
    destruct (Dict.get _ (Scraper.name_artist_to_song_id m)) as [i|];
      [|discriminate].
    destruct (Dict.get i (Scraper.existing_songs m)) eqn:G; [|discriminate].
    intros E. inversion E. now subst.
Qed.

Lemma add_playlist_to_song_holds m song_id playlist_id other key :
  holds m other key ->
  holds (fst (Scraper.add_playlist_to_song m song_id playlist_id)) other key.
Proof.
  intros (s & G & I). unfold Scraper.add_playlist_to_song.
  destruct (Dict.get song_id (Scraper.existing_songs m)) as [s0|] eqn:G0;
    [|now exists s].
  destruct (negb _); [|now exists s]. simpl.
  unfold holds. simpl. rewrite get_set_cases.
  destruct (String.eqb other song_id) eqn:E; [|now exists s].
  apply String.eqb_eq in E. subst other. rewrite G0 in G. inversion G. subst s0.
  eexists. split; [reflexivity|]. simpl. apply in_or_app. now left.
Qed.

Lemma add_playlist_to_song_attaches m song_id playlist_id info :
  Dict.get song_id (Scraper.existing_songs m) = Some info ->
  holds (fst (Scraper.add_playlist_to_song m song_id playlist_id))
        song_id playlist_id.
Proof.
  intros G. unfold Scraper.add_playlist_to_song. rewrite G.
  destruct (PyStr.mem playlist_id (get_or (playlists info) [])) eqn:M; simpl.
  - exists info. split; [exact G|]. now apply mem_In.
  - unfold holds. simpl. rewrite get_set_same. eexists. split; [reflexivity|].
    simpl. apply in_or_app. right. now left.
Qed.

Lemma process_track_members now playlist_key r track_data :
  members_hold playlist_key r ->
  members_hold playlist_key
    (Scraper.process_track now playlist_key r track_data).
Proof.
  intros Inv. unfold Scraper.process_track.
  pose proof (store_track_artists_frame now playlist_key
                (Scraper.td_artists track_data) (Scraper.song_manager r) [])
    as (FS & _ & _ & _).
  destruct (Scraper.store_track_artists now playlist_key
              (Scraper.song_manager r) (Scraper.td_artists track_data) [])
    as [m1 [artists_info|e]]; simpl in FS.
  2:{ intros id I. simpl in *. unfold holds. rewrite FS. now apply Inv. }
  assert (Inv1 : forall id, In id (Scraper.run_song_ids r) ->
                            holds m1 id playlist_key)
    by (intros id I; unfold holds; rewrite FS; now apply Inv).
  destruct (Scraper.find_existing_song m1 _)
    as [[[existing_song_id info]|]|e] eqn:F.
  - apply find_existing_song_found in F.
    pose proof (add_playlist_to_song_attaches m1 existing_song_id playlist_key
                  info F) as A.
    pose proof (fun id H =>
                  add_playlist_to_song_holds m1 existing_song_id playlist_key
                    id playlist_key (Inv1 id H)) as O.
    destruct (Scraper.add_playlist_to_song m1 existing_song_id playlist_key)
      as [m2 changed].
    intros id I. simpl in *. apply in_app_or in I.
    destruct I as [I|[I|[]]]; [now apply O|now subst].
  - intros id I. simpl in *. apply in_app_or in I. unfold holds. simpl.
    rewrite get_set_cases.
    destruct (String.eqb id _) eqn:E.
    + eexists. split; [reflexivity|]. simpl. now left.
    + destruct I as [I|[I|[]]]; [now apply Inv1|].
      subst id. now rewrite String.eqb_refl in E.
  - intros id I. now apply Inv1.
Qed.

Lemma track_loop_members now playlist_key tracks : forall r,
  members_hold playlist_key r ->
  members_hold playlist_key
    (fold_left (Scraper.process_track now playlist_key) tracks r).
Proof.
  induction tracks as [|td tracks IH]; intros r Inv; cbn [fold_left];
    [exact Inv|].
  apply IH. now apply process_track_members.
Qed.

Lemma download_step_keeps env acc item :
  let '(m, _, _) := acc in
  let '(m', _, _) := Scraper.download_step env acc item in
  Scraper.existing_playlists m' = Scraper.existing_playlists m
  /\ forall song_id key, holds m song_id key -> holds m' song_id key.
Proof.
  destruct acc as [[m fs] n]. destruct item as [[song_id tn] ar].
  unfold Scraper.download_step.
  destruct (Dict.get song_id (Scraper.existing_songs m)) as [s|] eqn:G;
    [|now split].
  destruct (download_ok env song_id); (split; [reflexivity|]);
    intros id key (s0 & G0 & I); unfold holds; simpl; rewrite get_set_cases;
    (destruct (String.eqb id song_id) eqn:E; [|now exists s0]);
    apply String.eqb_eq in E; subst id; rewrite G in G0; inversion G0;
    subst s0; eexists; (split; [reflexivity|exact I]).
Qed.

Lemma downloads_keep env news : forall m fs n,
  let '(m', _, _) := fold_left (Scraper.download_step env) news (m, fs, n) in
  Scraper.existing_playlists m' = Scraper.existing_playlists m
  /\ forall song_id key, holds m song_id key -> holds m' song_id key.
Proof.
  induction news as [|item news IH]; intros m fs n; cbn [fold_left];
    [now split|].
  pose proof (download_step_keeps env (m, fs, n) item) as H.
  destruct (Scraper.download_step env (m, fs, n) item) as [[m1 fs1] n1].
  specialize (IH m1 fs1 n1).
  destruct (fold_left (Scraper.download_step env) news (m1, fs1, n1))
    as [[m2 fs2] n2].
  destruct H as [P H], IH as [P' H']. split; [congruence|auto].
Qed.

(** After an ingestion run that returns and whose writes succeed, the
    playlists file holds the playlist of the artist under
    ["artist_" ++ artist_id], named after the artist, counting its
    songs, and every song it lists is a song of the songs file that
    holds the playlist's key. *)
Theorem ingested_playlist_members_are_stored
    (env : Env) (fs fs' : FS) (tracks : list Scraper.TrackData)
    (artist_name artist_id : string) :
  (forall s, write_fails env s = false) ->
  tracks <> [] ->
  Scraper.process_artist_tracks env fs tracks artist_name artist_id
  = (fs', Ok tt) ->
  exists p,
    Dict.get ("artist_" ++ artist_id)%string (stored_playlists fs') = Some p
    /\ name p = (artist_name ++ " - Discography")%string
    /\ total_tracks p = List.length (songs p)
    /\ unique_song_count p = List.length (songs p)
    /\ song_ids p = None
    /\ forall song_id, In song_id (songs p) ->
         exists s, Dict.get song_id (stored_songs fs') = Some s
                   /\ In ("artist_" ++ artist_id)%string
                         (get_or (playlists s) []).
Proof.
  intros F NE. unfold Scraper.process_artist_tracks.
  destruct tracks as [|first_track rest]; [congruence|].
  set (key := ("artist_" ++ artist_id)%string).
  set (r := fold_left (Scraper.process_track (now env) key)
              (first_track :: rest)
              (Scraper.mkRun (Scraper.load_existing_databases fs) [] [] [] 0)).
  assert (Inv : members_hold key r).
  { apply track_loop_members. intros id []. }
  set (entry := mkPlaylist _ _ _ _ _ _ _ _ _ _).
  set (m2 := Scraper.with_playlists (Scraper.song_manager r) _).
  assert (St : forall m3,
             (if PyStr.truthy
                   (Scraper.find_main_artist artist_name
                      (Scraper.td_artists first_track))
              then Scraper.store_artist_info m2
                     (Scraper.find_main_artist artist_name
                        (Scraper.td_artists first_track))
                     artist_name key (now env)
              else Ok m2) = Ok m3 -> frame m2 m3).
  { intros m3. destruct (PyStr.truthy _).
    - apply store_artist_info_frame.
    - intros E. inversion E. apply frame_refl. }
  destruct (if PyStr.truthy _ then _ else Ok m2) as [m3|e]; [|discriminate].
  destruct (St m3 eq_refl) as (FS3 & FP3 & _ & _). clear St.
  assert (H3 : forall id, In id (Scraper.run_song_ids r) -> holds m3 id key).
  { intros id I. unfold holds. rewrite FS3. now apply Inv. }
  assert (P3 : Dict.get key (Scraper.existing_playlists m3) = Some entry).
  { rewrite FP3. unfold m2. simpl. apply get_set_same. }
  assert (Fin : forall fs0 m p,
             Dict.get key (Scraper.existing_playlists m) = Some p ->
             name p = name entry -> songs p = songs entry ->
             total_tracks p = total_tracks entry ->
             unique_song_count p = unique_song_count entry ->
             song_ids p = None ->
             (forall id, In id (Scraper.run_song_ids r) -> holds m id key) ->
             exists p0,
               Dict.get key (stored_playlists (Scraper.save_databases env fs0 m))
               = Some p0
               /\ name p0 = (artist_name ++ " - Discography")%string
               /\ total_tracks p0 = List.length (songs p0)
               /\ unique_song_count p0 = List.length (songs p0)
               /\ song_ids p0 = None
               /\ forall song_id, In song_id (songs p0) ->
                    exists s,
                      Dict.get song_id
                        (stored_songs (Scraper.save_databases env fs0 m))
                      = Some s
                      /\ In key (get_or (playlists s) [])).
  { intros fs0 m p G Nm Sg Tt Uq Si H.
    destruct (ingestion_save_files env fs0 m F) as (Hs & Hp & _ & _).
    cbv zeta in Hs, Hp. unfold stored_playlists, stored_songs.
    rewrite Hs, Hp. simpl. exists p.
    rewrite Nm, Tt, Uq, Sg. repeat split; try reflexivity; assumption. }
  destruct (Scraper.new_songs_to_download r) as [|item news] eqn:News.
  - intros E. inversion E. subst fs'.
    now apply (Fin fs m3 entry).
  - pose proof (downloads_keep env (item :: news) m3
                  (Scraper.save_databases env fs m3) 0) as D.
    destruct (fold_left (Scraper.download_step env) (item :: news)
                (m3, Scraper.save_databases env fs m3, 0))
      as [[m4 fs2] successful].
    destruct D as [P4 H4]. rewrite P4, P3.
    intros E. inversion E. subst fs'.
    apply (Fin fs2 _ (Scraper.set_successful entry successful (now env)));
      try reflexivity.
    + simpl. apply get_set_same.
    + intros id I. destruct (H4 id key (H3 id I)) as (s & G & K).
      now exists s.
Qed.

Lemma ingested_playlist_members_are_stored_witness :
  exists p,
    Dict.get "artist_x1" (stored_playlists Scenario.fs_ingested) = Some p
    /\ songs p = ["song_d4bb73c2c32a"%string]
    /\ total_tracks p = 1.
Proof.
  destruct (ingested_playlist_members_are_stored Scenario.env0
              Scenario.fs_empty Scenario.fs_ingested [Scenario.track_A_u1]
              "X" "x1" (fun s => eq_refl))
    as (p & G & _ & T & _).
  - discriminate.
  - reflexivity.
  - exists p. vm_compute in G. inversion G. subst p. repeat split.
Defined.

(** ** Finding a playlist by name *)

Lemma prefix_refl s : prefix s s = true.
Proof.
  induction s as [|c s IH]; simpl; [reflexivity|].
  destruct (ascii_dec c c); [exact IH|congruence].
Qed.

Lemma contains_refl s : PyStr.contains s s = true.
Proof.
  destruct s as [|c s]; [reflexivity|].
  cbn [PyStr.contains]. now rewrite prefix_refl.
Qed.

Lemma contains_empty s : PyStr.contains "" s = true.
Proof. destruct s; reflexivity. Qed.

Lemma in_has (V : Type) (d : Dict.t V) k v :
  In (k, v) d -> Dict.has k d = true.
Proof.
  unfold Dict.has. induction d as [|[k' v'] d IH]; simpl; [tauto|].
  intros [E|I].
  - inversion E. subst. now rewrite String.eqb_refl.
  - destruct (String.eqb k k'); [reflexivity|auto].
Qed.

Lemma in_matches r playlist_name playlist_id :
  In playlist_id (Remover.matches r playlist_name) <->
  exists p,
    In (playlist_id, p) (get_or (d_playlists (Remover.playlists_db r)) [])
    /\ Remover.name_matches playlist_name (playlist_id, p) = true.
Proof.
  unfold Remover.matches. rewrite in_map_iff. split.
  - intros ([k p] & E & I). simpl in E. subst k.
    apply filter_In in I. now exists p.
  - intros (p & I & M). exists (playlist_id, p). split; [reflexivity|].
    now apply filter_In.
Qed.

Lemma select_result found : forall inputs,
  match Remover.select found inputs with
  | (Ok (Some playlist_id), rest) =>
      In playlist_id found
      /\ exists before line, inputs = before ++ line :: rest
  | (Ok None, rest) =>
      exists before line,
        inputs = before ++ line :: rest
        /\ PyStr.lower (PyStr.strip line) = "q"%string
  | (Raise e, rest) => e = EOFError /\ rest = []
  end.
Proof.
  induction inputs as [|line inputs IH]; simpl; [now split|].
  destruct (String.eqb (PyStr.lower (PyStr.strip line)) "q") eqn:Q.
  - apply String.eqb_eq in Q. now exists [], line.
  - assert (Skip :
      match Remover.select found inputs with
      | (Ok (Some playlist_id), rest) =>
          In playlist_id found
          /\ exists before line0, line :: inputs = before ++ line0 :: rest
      | (Ok None, rest) =>
          exists before line0,
            line :: inputs = before ++ line0 :: rest
            /\ PyStr.lower (PyStr.strip line0) = "q"%string
      | (Raise e, rest) => e = EOFError /\ rest = []
      end).
    { destruct (Remover.select found inputs) as [[[id|]|e] rest].
      - destruct IH as (I & before & l0 & E). split; [exact I|].
        exists (line :: before), l0. now rewrite E.
      - destruct IH as (before & l0 & E & Q'). exists (line :: before), l0.
        now rewrite E.
      - exact IH. }
    destruct (Remover.parse_int (PyStr.strip line)) as [z|]; [|exact Skip].
    destruct ((1 <=? z)%Z && (z <=? Z.of_nat (List.length found))%Z) eqn:R;
      [|exact Skip].
    destruct (nth_error found (Z.to_nat (z - 1))) as [id|] eqn:N.
    + split; [eapply nth_error_In; eauto|]. now exists [], line.
    + exfalso. apply nth_error_None in N.
      apply andb_true_iff in R. destruct R as [R1 R2].
      apply Z.leb_le in R1, R2. lia.
Qed.

(** What [find_playlist_by_name] can answer: an id only of a stored
    playlist whose name matches; nothing only when no playlist matches
    (no input is read then) or when the caller typed "q" at the
    selection; and it fails only when several playlists match and the
    input ends before a valid answer. The unread input is returned. *)
Theorem find_playlist_by_name_result
    (r : Remover.PlaylistRemover) (playlist_name : string)
    (inputs : list string) :
  match Remover.find_playlist_by_name r playlist_name inputs with
  | (Ok (Some playlist_id), rest) =>
      Dict.has playlist_id (get_or (d_playlists (Remover.playlists_db r)) [])
      = true
      /\ In playlist_id (Remover.matches r playlist_name)
      /\ exists before, inputs = before ++ rest
  | (Ok None, rest) =>
      (Remover.matches r playlist_name = [] /\ rest = inputs)
      \/ (2 <= List.length (Remover.matches r playlist_name)
          /\ exists before line,
               inputs = before ++ line :: rest
               /\ PyStr.lower (PyStr.strip line) = "q"%string)
  | (Raise e, rest) =>
      e = EOFError /\ rest = []
      /\ 2 <= List.length (Remover.matches r playlist_name)
  end.
Proof.
  assert (H : forall id, In id (Remover.matches r playlist_name) ->
                Dict.has id (get_or (d_playlists (Remover.playlists_db r)) [])
                = true).
  { intros id I. apply in_matches in I. destruct I as (p & I & _).
    eapply in_has; eauto. }
  unfold Remover.find_playlist_by_name.
  destruct (Remover.matches r playlist_name) as [|id1 [|id2 more]] eqn:M.
  - now left.
  - repeat split; [apply H|..]; try now left. now exists [].
  - pose proof (select_result (id1 :: id2 :: more) inputs) as S.
    destruct (Remover.select (id1 :: id2 :: more) inputs)
      as [[[id|]|e] rest].
    + destruct S as (I & before & line & E). repeat split; auto.
      exists (before ++ [line]). now rewrite <- app_assoc.
    + right. split; [simpl; lia|exact S].
    + destruct S as [E R]. repeat split; auto. simpl. lia.
Qed.

(** A stored playlist is matched by its own name in any letter case;
    a playlist whose name is blank is matched by every search, and
    the blank search matches every playlist. *)
Theorem playlist_matched_by_own_name
    (r : Remover.PlaylistRemover) (playlist_id : string) (p : Playlist) :
  In (playlist_id, p) (get_or (d_playlists (Remover.playlists_db r)) []) ->
  (forall search, PyStr.lower search = PyStr.lower (name p) ->
     In playlist_id (Remover.matches r search))
  /\ (name p = ""%string ->
      forall search, In playlist_id (Remover.matches r search))
  /\ In playlist_id (Remover.matches r "").
Proof.
  intros I. repeat split.
  - intros search E. apply in_matches. exists p. split; [exact I|].
    unfold Remover.name_matches. simpl. rewrite E.
    now rewrite contains_refl.
  - intros E search. apply in_matches. exists p. split; [exact I|].
    unfold Remover.name_matches. simpl. rewrite E. simpl.
    rewrite contains_empty. apply orb_true_r.
  - apply in_matches. exists p. split; [exact I|].
    unfold Remover.name_matches. simpl. now rewrite contains_empty.
Qed.

Lemma playlist_matched_by_own_name_witness :
  In "p1"%string (Remover.matches Scenario.remover_listed "ROCK")
  /\ In "p2"%string (Remover.matches Scenario.remover_listed "").
Proof.
  destruct (playlist_matched_by_own_name Scenario.remover_listed "p1"
              (Scenario.playlist "Rock" ["s1"; "s2"]%string)
              (or_introl eq_refl)) as (A & _ & _).
  destruct (playlist_matched_by_own_name Scenario.remover_listed "p2"
              (Scenario.playlist "Jazz" ["s1"%string])
              (or_intror (or_introl eq_refl))) as (_ & _ & B).
  split; [apply A; reflexivity|exact B].
Defined.

(** ** Deleting song files *)

Lemma length_remove_first x l :
  PyStr.mem x l = true ->
  S (List.length (PyStr.remove_first x l)) = List.length l.
Proof.
  induction l as [|y l IH]; simpl; [discriminate|].
  destruct (String.eqb x y); simpl; [reflexivity|].
  intros M. now rewrite IH.
Qed.




(** ** The cascade, step by step *)

Lemma get_del_if_present (V : Type) (d : Dict.t V) k k' :
  Dict.get k' (Remover.del_if_present d k)
  = if String.eqb k' k then None else Dict.get k' d.
Proof.
  unfold Remover.del_if_present, Dict.has.
  destruct (String.eqb k' k) eqn:E.
  - apply String.eqb_eq in E. subst k'.
    destruct (Dict.get k d) eqn:G; [apply get_del_same|exact G].
  - apply String.eqb_neq in E.
    destruct (Dict.get k d); [now apply get_del_other|reflexivity].
Qed.

Lemma get_fold_del_if_present (V : Type) ks : forall (d : Dict.t V) k,
  Dict.get k (fold_left Remover.del_if_present ks d)
  = if PyStr.mem k ks then None else Dict.get k d.
Proof.
  induction ks as [|k0 ks IH]; simpl; intros d k; [reflexivity|].
  rewrite IH, get_del_if_present.
  destruct (String.eqb k k0); simpl; [|reflexivity].
  now destruct (PyStr.mem k ks).
Qed.

(** [update_mapping_database] drops the mapping entries of the songs
    that are removed and keeps every other entry as it is; an empty
    mapping document is left empty. *)
Theorem update_mapping_database_entries
    (r : Remover.PlaylistRemover) (songs_to_remove : list string) :
  let r' := Remover.update_mapping_database r songs_to_remove in
  (forall song_id,
     Dict.get song_id (get_or (d_mapping (Remover.mapping_db r')) [])
     = if PyStr.mem song_id songs_to_remove then None
       else Dict.get song_id (get_or (d_mapping (Remover.mapping_db r)) []))
  /\ (mapping_doc_truthy (Remover.mapping_db r) = false -> r' = r)
  /\ Remover.songs_db r' = Remover.songs_db r
  /\ Remover.playlists_db r' = Remover.playlists_db r
  /\ Remover.artists_db r' = Remover.artists_db r
  /\ m_last_updated (Remover.mapping_db r')
     = m_last_updated (Remover.mapping_db r).
Proof.
  cbv zeta. unfold Remover.update_mapping_database.
  destruct (mapping_doc_truthy (Remover.mapping_db r)) eqn:T; simpl.
  - repeat split; try discriminate. intros song_id.
    apply get_fold_del_if_present.
  - repeat split. intros song_id.
    destruct (Remover.mapping_db r) as [[mp|] [lu|]]; try discriminate.
    simpl. now destruct (PyStr.mem song_id songs_to_remove).
Qed.

Lemma detach_fold playlist_id song_ids :
  NoDup song_ids ->
  forall (songs songs' : Dict.t Song) (actions actions' : Dict.t string),
    fold_left (Remover.detach playlist_id) song_ids (songs, actions)
    = (songs', actions') ->
    forall song_id,
      (In song_id song_ids ->
       playlists_in songs' song_id
       = option_map (PyStr.remove_first playlist_id)
           (playlists_in songs song_id)
       /\ Dict.get song_id actions'
          = match playlists_in songs song_id with
            | Some l => Some (classify (PyStr.remove_first playlist_id l))
            | None => Dict.get song_id actions
            end)
      /\ (~ In song_id song_ids ->
          Dict.get song_id songs' = Dict.get song_id songs
          /\ Dict.get song_id actions' = Dict.get song_id actions).
Proof.
  induction 1 as [|a ids Na D IH]; intros songs songs' actions actions';
    cbn [fold_left].
  - intros E. inversion E. subst. intros song_id. split; [intros []|auto].
  - assert (Step :
      let '(songs1, actions1) :=
        Remover.detach playlist_id (songs, actions) a in
      (playlists_in songs1 a
       = option_map (PyStr.remove_first playlist_id) (playlists_in songs a)
       /\ Dict.get a actions1
          = match playlists_in songs a with
            | Some l => Some (classify (PyStr.remove_first playlist_id l))
            | None => Dict.get a actions
            end)
      /\ forall k, k <> a ->
           Dict.get k songs1 = Dict.get k songs
           /\ Dict.get k actions1 = Dict.get k actions).
    { unfold playlists_in.
      destruct (Dict.get a songs) as [s|] eqn:G.
      - pose proof (detach_listed playlist_id songs actions a s G) as L.
        cbv zeta in L.
        destruct (Remover.detach playlist_id (songs, actions) a)
          as [songs1 actions1].
        destruct L as (P & A & O). simpl.
        split; [split; [exact P|exact A]|exact O].
      - rewrite (detach_missing playlist_id songs actions a G).
        rewrite G. simpl. split; [split; reflexivity|]. intros k _.
        split; reflexivity. }
    destruct (Remover.detach playlist_id (songs, actions) a)
      as [songs1 actions1].
    destruct Step as ((P & A) & O).
    intros E. specialize (IH songs1 songs' actions1 actions' E).
    intros song_id. destruct (IH song_id) as [In' Out']. split.
    + intros [Ea|I].
      * subst song_id. destruct (Out' Na) as [Gs Ga].
        unfold playlists_in in *. rewrite Gs, Ga. auto.
      * assert (N : song_id <> a) by (intros Ea; subst; tauto).
        destruct (In' I) as [Ps As]. destruct (O _ N) as [Gs Ga].
        unfold playlists_in in *. rewrite Ps, As, Gs, Ga. auto.
    + intros N. assert (N1 : song_id <> a) by (intros Ea; apply N; now left).
      assert (N2 : ~ In song_id ids) by (intros I; apply N; now right).
      destruct (Out' N2) as [Gs Ga]. destruct (O _ N1) as [Gs1 Ga1].
      split; congruence.
Qed.

(** Detach and classify over the listed songs: every listed song that
    is stored loses the first occurrence of the playlist id and is
    marked "remove" when its list is then empty and "keep" otherwise;
    a listed song that is not stored is skipped; a song that is not
    listed is not touched and gets no mark; the other three stores
    are not touched. *)
Theorem remove_playlist_from_songs_listed
    (r : Remover.PlaylistRemover) (playlist_id : string)
    (song_ids : list string) :
  NoDup song_ids ->
  let '(r', song_actions) :=
    Remover.remove_playlist_from_songs r playlist_id song_ids in
  let before := get_or (d_songs (Remover.songs_db r)) [] in
  let after := get_or (d_songs (Remover.songs_db r')) [] in
  (forall song_id, In song_id song_ids ->
     playlists_in after song_id
     = option_map (PyStr.remove_first playlist_id)
         (playlists_in before song_id)
     /\ Dict.get song_id song_actions
        = option_map (fun l => classify (PyStr.remove_first playlist_id l))
            (playlists_in before song_id))
  /\ (forall song_id, ~ In song_id song_ids ->
        Dict.get song_id after = Dict.get song_id before
        /\ Dict.get song_id song_actions = None)
  /\ Remover.playlists_db r' = Remover.playlists_db r
  /\ Remover.artists_db r' = Remover.artists_db r
  /\ Remover.mapping_db r' = Remover.mapping_db r.
Proof.
  intros D. unfold Remover.remove_playlist_from_songs.
  destruct (d_songs (Remover.songs_db r)) as [songs|] eqn:S.
  - destruct (fold_left (Remover.detach playlist_id) song_ids (songs, []))
      as [songs' actions] eqn:E.
    pose proof (detach_fold playlist_id song_ids D songs songs' [] actions E)
      as F.
    cbv zeta. simpl. repeat split.
    + apply F. exact H.
    + destruct (F song_id) as [[_ A] _]; [exact H|]. rewrite A.
      now destruct (playlists_in songs song_id).
    + now apply F.
    + now apply F.
  - cbv zeta. rewrite S. simpl. repeat split.
Qed.

Lemma remove_playlist_from_songs_listed_witness :
  let '(r', song_actions) :=
    Remover.remove_playlist_from_songs Scenario.remover_listed "p1"
      ["s1"; "s2"]%string in
  playlists_in (get_or (d_songs (Remover.songs_db r')) []) "s1"
  = Some ["p2"%string]
  /\ Dict.get "s2" song_actions = Some "remove"%string.
Proof.
  assert (D : NoDup ["s1"; "s2"]%string)
    by (repeat constructor; simpl; intuition discriminate).
  pose proof (remove_playlist_from_songs_listed Scenario.remover_listed "p1"
                ["s1"; "s2"]%string D) as H.
  destruct (Remover.remove_playlist_from_songs Scenario.remover_listed "p1"
              ["s1"; "s2"]%string) as [r' song_actions].
  destruct H as (L & _). split.
  - exact (proj1 (L "s1"%string (or_introl eq_refl))).
  - exact (proj2 (L "s2"%string (or_intror (or_introl eq_refl)))).
Defined.

(** ** Saving and removing in the remover *)


(** [save_databases] of the remover writes the songs and the
    playlists, then the artists and the mapping unless their document
    is empty; it stops at the first write that fails and answers
    [True] exactly when no write failed. It never deletes a song file
    and keeps the collections it holds. *)
Theorem remover_save_databases_result
    (env : Env) (fs : FS) (r : Remover.PlaylistRemover) :
  let '(r', fs', ok) := Remover.save_databases env fs r in
  f_writes fs'
  = f_writes fs ++ upto_first_failure (outcomes env (remover_plan r))
  /\ ok = forallb (fun s => negb (write_fails env s)) (remover_plan r)
  /\ (artists_doc_truthy (Remover.artists_db r) = false ->
      f_artists fs' = f_artists fs
      /\ Remover.artists_db r' = Remover.artists_db r)
  /\ (mapping_doc_truthy (Remover.mapping_db r) = false ->
      f_mapping fs' = f_mapping fs
      /\ Remover.mapping_db r' = Remover.mapping_db r)
  /\ f_audio fs' = f_audio fs
  /\ d_songs (Remover.songs_db r') = d_songs (Remover.songs_db r)
  /\ d_playlists (Remover.playlists_db r')
     = d_playlists (Remover.playlists_db r).
Proof.
  unfold Remover.save_databases, dump, remover_plan, outcomes. cbn.
  destruct (write_fails env SongsStore) eqn:F1; cbn;
    [repeat split; discriminate|].
  destruct (write_fails env PlaylistsStore) eqn:F2; cbn;
    [rewrite <- ?app_assoc; repeat split; discriminate|].
  destruct (artists_doc_truthy (Remover.artists_db r)) eqn:TA; cbn;
    [destruct (write_fails env ArtistsStore) eqn:F3; cbn|];
    try (destruct (mapping_doc_truthy (Remover.mapping_db r)) eqn:TM; cbn;
         [destruct (write_fails env MappingStore) eqn:F4; cbn|]);
    rewrite <- ?app_assoc; cbn; rewrite ?F3, ?F4; cbn;
    repeat split; try discriminate; try reflexivity.
Qed.







(** ** The cleanup tool: scanning *)

Lemma string_length_app (s1 s2 : string) :
  String.length (s1 ++ s2) = String.length s1 + String.length s2.
Proof. induction s1 as [|c s1 IH]; simpl; [reflexivity|now rewrite IH]. Qed.

Lemma take_app_exact (s1 s2 : string) :
  PyStr.take (String.length s1) (s1 ++ s2) = s1.
Proof. induction s1 as [|c s1 IH]; simpl; [now destruct s2|now rewrite IH]. Qed.

Lemma endswith_app suffix s : PyStr.endswith suffix (s ++ suffix) = true.
Proof.
  induction s as [|c s IH].
  - simpl. destruct suffix; simpl; [reflexivity|].
    now rewrite Ascii.eqb_refl, String.eqb_refl.
  - cbn [String.append PyStr.endswith]. rewrite IH. apply orb_true_r.
Qed.

Lemma endswith_split suffix s :
  PyStr.endswith suffix s = true -> exists front, s = (front ++ suffix)%string.
Proof.
  induction s as [|c s IH]; cbn [PyStr.endswith].
  - rewrite orb_false_r. intros E. apply String.eqb_eq in E. subst.
    now exists EmptyString.
  - intros H. apply orb_true_iff in H. destruct H as [E|E].
    + apply String.eqb_eq in E. subst. now exists EmptyString.
    + destruct (IH E) as [front F]. exists (String c front). simpl.
      now rewrite F.
Qed.

Lemma drop_last_app (s suffix : string) :
  PyStr.drop_last (String.length suffix) (s ++ suffix) = s.
Proof.
  unfold PyStr.drop_last. rewrite string_length_app.
  replace (String.length s + String.length suffix - String.length suffix)
    with (String.length s) by lia.
  apply take_app_exact.
Qed.

Lemma extract_song_id_of_name (song_id : string) :
  Cleanup.extract_song_id_from_filename (song_id ++ ".mp3") = song_id.
Proof.
  unfold Cleanup.extract_song_id_from_filename. rewrite endswith_app.
  exact (drop_last_app song_id ".mp3").
Qed.

Lemma extract_song_id_suffix (filename : string) :
  PyStr.endswith ".mp3" filename = true ->
  (Cleanup.extract_song_id_from_filename filename ++ ".mp3")%string
  = filename.
Proof.
  intros E. destruct (endswith_split _ _ E) as [front F]. subst filename.
  now rewrite extract_song_id_of_name.
Qed.

(** File names and song ids convert into each other: the id read off
    the file name [<id>.mp3] is [<id>], for every id, and a file name
    that ends in [.mp3] is its id followed by [.mp3]; any other name
    is its own id. *)
Theorem extract_song_id_round_trip :
  (forall song_id,
     Cleanup.extract_song_id_from_filename (song_id ++ ".mp3") = song_id)
  /\ (forall filename,
        PyStr.endswith ".mp3" filename = true ->
        (Cleanup.extract_song_id_from_filename filename ++ ".mp3")%string
        = filename)
  /\ (forall filename,
        PyStr.endswith ".mp3" filename = false ->
        Cleanup.extract_song_id_from_filename filename = filename).
Proof.
  split; [exact extract_song_id_of_name|].
  split; [exact extract_song_id_suffix|].
  intros filename E. unfold Cleanup.extract_song_id_from_filename.
  now rewrite E.
Qed.

Lemma in_insert_sorted x y l :
  In y (PyStr.insert_sorted x l) <-> y = x \/ In y l.
Proof.
  induction l as [|z l IH]; simpl; [intuition|].
  destruct (String.leb x z); simpl; [intuition|].
  rewrite IH. intuition.
Qed.

Lemma in_sorted y l : In y (PyStr.sorted l) <-> In y l.
Proof.
  induction l as [|x l IH]; simpl; [tauto|].
  rewrite in_insert_sorted, IH. intuition.
Qed.

Lemma length_insert_sorted x l :
  List.length (PyStr.insert_sorted x l) = S (List.length l).
Proof.
  induction l as [|z l IH]; simpl; [reflexivity|].
  destruct (String.leb x z); simpl; [reflexivity|now rewrite IH].
Qed.

(** The scan reports every [song_*.mp3] file of the folder, with the
    id read off its name and whether the songs store has it, and
    every stored song whose [.mp3] file is missing, and nothing else;
    an entry is in the database exactly when it carries metadata. *)
Theorem scan_and_identify_songs_entries
    (fs : FS) (t : Cleanup.SongCleanupTool) :
  let songs := get_or (d_songs (Cleanup.songs_db t)) [] in
  let entries := Cleanup.scan_and_identify_songs fs t in
  (forall e, In e entries ->
     Cleanup.si_metadata e
     = Cleanup.get_song_metadata_from_id (Cleanup.song_id e)
         (Cleanup.songs_db t)
     /\ Cleanup.in_database e = Dict.has (Cleanup.song_id e) songs
     /\ Cleanup.filename e = (Cleanup.song_id e ++ ".mp3")%string
     /\ Cleanup.file_exists e
        = PyStr.mem (Cleanup.filename e) (f_audio fs)
     /\ (Cleanup.file_exists e = true ->
         PyStr.startswith "song_" (Cleanup.filename e) = true)
     /\ (Cleanup.file_exists e = false -> Cleanup.in_database e = true))
  /\ (forall file, In file (f_audio fs) ->
        PyStr.endswith ".mp3" file = true ->
        PyStr.startswith "song_" file = true ->
        exists e, In e entries /\ Cleanup.filename e = file
                  /\ Cleanup.file_exists e = true)
  /\ (forall song_id s, In (song_id, s) songs ->
        ~ In (song_id ++ ".mp3")%string (f_audio fs) ->
        exists e, In e entries /\ Cleanup.song_id e = song_id
                  /\ Cleanup.file_exists e = false).
Proof.
  cbv zeta. unfold Cleanup.scan_and_identify_songs.
  assert (M : forall id,
             Cleanup.is_some
               (Cleanup.get_song_metadata_from_id id (Cleanup.songs_db t))
             = Dict.has id (get_or (d_songs (Cleanup.songs_db t)) [])).
  { intros id. unfold Cleanup.get_song_metadata_from_id, Dict.has.
    now destruct (Dict.get id _). }
  repeat split.
  - apply in_app_or in H. destruct H as [H|H].
    + apply in_map_iff in H. destruct H as (f & E & _). now subst e.
    + apply in_flat_map in H. destruct H as ([id s] & _ & H). simpl in H.
      destruct (negb _); [|destruct H]. destruct H as [E|[]]. now subst e.
  - apply in_app_or in H. destruct H as [H|H].
    + apply in_map_iff in H. destruct H as (f & E & _). subst e. apply M.
    + apply in_flat_map in H. destruct H as ([id s] & I & H). simpl in H.
      destruct (negb _); [|destruct H]. destruct H as [E|[]]. subst e. simpl.
      symmetry. eapply in_has; eauto.
  - apply in_app_or in H. destruct H as [H|H].
    + apply in_map_iff in H. destruct H as (f & E & I). subst e. simpl.
      apply in_sorted, filter_In in I. destruct I as [_ I].
      apply andb_true_iff in I. symmetry.
      now apply extract_song_id_suffix.
    + apply in_flat_map in H. destruct H as ([id s] & I & H). simpl in H.
      destruct (negb _); [|destruct H]. destruct H as [E|[]]. now subst e.
  - apply in_app_or in H. destruct H as [H|H].
    + apply in_map_iff in H. destruct H as (f & E & I). subst e. simpl.
      apply in_sorted, filter_In in I. destruct I as [I _]. symmetry.
      now apply mem_In.
    + apply in_flat_map in H. destruct H as ([id s] & I & H). simpl in H.
      destruct (PyStr.mem (id ++ ".mp3") (f_audio fs)) eqn:E;
        [destruct H|]. destruct H as [E'|[]]. subst e. simpl. now rewrite E.
  - intros X. apply in_app_or in H. destruct H as [H|H].
    + apply in_map_iff in H. destruct H as (f & E & I). subst e. simpl.
      apply in_sorted, filter_In in I. destruct I as [_ I].
      now apply andb_true_iff in I.
    + apply in_flat_map in H. destruct H as ([id s] & I & H). simpl in H.
      destruct (negb _); [|destruct H]. destruct H as [E|[]]. subst e.
      discriminate X.
  - intros X. apply in_app_or in H. destruct H as [H|H].
    + apply in_map_iff in H. destruct H as (f & E & I). subst e.
      discriminate X.
    + apply in_flat_map in H. destruct H as ([id s] & I & H). simpl in H.
      destruct (negb _); [|destruct H]. destruct H as [E|[]]. now subst e.
  - intros file I E S. eexists. split.
    + apply in_or_app. left. apply in_map_iff. exists file.
      split; [reflexivity|]. apply in_sorted, filter_In.
      split; [exact I|]. now rewrite E, S.
    + now split.
  - intros id s I N. eexists. split.
    + apply in_or_app. right. apply in_flat_map. exists (id, s).
      split; [exact I|]. simpl.
      destruct (PyStr.mem (id ++ ".mp3") (f_audio fs)) eqn:E.
      * apply mem_In in E. tauto.
      * left. reflexivity.
    + now split.
Qed.

(* ----------------------------------------------------------------- *)
(** ** The cleanup tool: removing songs *)

Lemma trimmed_refl now p : trimmed now p p.
Proof.
  unfold trimmed. repeat split; try reflexivity; auto using incl_refl.
Qed.

Lemma trimmed_length now p p' :
  trimmed now p p' -> List.length (songs p') <= List.length (songs p).
Proof.
  intros (_ & _ & _ & _ & _ & _ & _ & _ & [E|(L & _)]); [subst|]; lia.
Qed.

Lemma trimmed_trans now p1 p2 p3 :
  trimmed now p1 p2 -> trimmed now p2 p3 -> trimmed now p1 p3.
Proof.
  intros T1 T2. pose proof (trimmed_length _ _ _ T1) as L1.
  destruct T1 as (A1 & A2 & A3 & A4 & A5 & A6 & A7 & A8 & A9).
  destruct T2 as (B1 & B2 & B3 & B4 & B5 & B6 & B7 & B8 & B9).
  unfold trimmed.
  split; [congruence|]. split; [congruence|]. split; [congruence|].
  split; [congruence|]. split; [congruence|]. split; [congruence|].
  split; [eapply incl_tran; eauto|]. split; [auto|].
  destruct B9 as [E|(L & C1 & C2 & C3)].
  - subst p3. exact A9.
  - right. repeat split; auto. lia.
Qed.

Lemma get_keys_none (V : Type) (d d' : Dict.t V) k :
  Dict.keys d' = Dict.keys d -> Dict.get k d = None -> Dict.get k d' = None.
Proof.
  intros K G. apply get_not_in_keys. rewrite K.
  now apply get_none_not_in_keys.
Qed.

Lemma unlisted_refl now a : unlisted now a a.
Proof.
  unfold unlisted. repeat split; auto using incl_refl.
  intros k. destruct (Dict.get k (fst a)) as [p|] eqn:G; [|tauto].
  exists p. split; [reflexivity|]. split; [apply trimmed_refl|].
  split; auto.
Qed.

Lemma unlisted_trans now a1 a2 a3 :
  unlisted now a1 a2 -> unlisted now a2 a3 -> unlisted now a1 a3.
Proof.
  intros (K1 & I1 & N1 & P1) (K2 & I2 & N2 & P2). unfold unlisted.
  split; [congruence|]. split; [eapply incl_tran; eauto|]. split; [auto|].
  intros k. specialize (P1 k). specialize (P2 k).
  destruct (Dict.get k (fst a1)) as [p1|].
  - destruct P1 as (p2 & G2 & T1 & U1 & C1). rewrite G2 in P2.
    destruct P2 as (p3 & G3 & T2 & U2 & C2). exists p3.
    split; [exact G3|]. split; [eapply trimmed_trans; eauto|].
    pose proof (trimmed_length _ _ _ T1). pose proof (trimmed_length _ _ _ T2).
    split.
    + intros I. destruct (U2 I) as [I'|L]; [|right; lia].
      destruct (U1 I') as [I''|L]; [now left|right; lia].
    + destruct C2 as [E|I]; [|now right]. subst p3.
      destruct C1 as [E|I]; [now left|right; now apply I2].
  - destruct P1 as (G2 & U1). rewrite G2 in P2. destruct P2 as (G3 & U2).
    split; [exact G3|]. auto.
Qed.

Lemma unlist_song_unlisted now song_id a k :
  unlisted now a (Cleanup.unlist_song now song_id a k).
Proof.
  destruct a as [store upd]. unfold Cleanup.unlist_song.
  destruct (Dict.get k store) as [p|] eqn:G; [|apply unlisted_refl].
  destruct (PyStr.mem song_id (songs p)) eqn:M; [|apply unlisted_refl].
  pose proof (length_remove_first _ _ M) as L.
  unfold unlisted. cbn [fst snd].
  split; [eapply keys_set_present; eauto|].
  split.
  { destruct (PyStr.mem k upd); [apply incl_refl|now apply incl_appl]. }
  split.
  { intros N. destruct (PyStr.mem k upd) eqn:Mk; [exact N|].
    apply NoDup_snoc; [exact N|]. intros I. apply mem_In in I. congruence. }
  intros k'. rewrite get_set_cases.
  destruct (String.eqb k' k) eqn:E.
  - apply String.eqb_eq in E. subst k'. rewrite G. eexists.
    split; [reflexivity|]. split.
    + unfold trimmed. cbn. repeat split; trivial.
      * intros x. apply remove_first_incl.
      * apply remove_first_NoDup.
      * right. repeat split; trivial. lia.
    + split; [intros _; right; cbn; lia|]. right.
      destruct (PyStr.mem k upd) eqn:Mk; [now apply mem_In|].
      apply in_or_app. right. now left.
  - apply String.eqb_neq in E.
    assert (U : In k' (if PyStr.mem k upd then upd else (upd ++ [k])%list) ->
                In k' upd).
    { destruct (PyStr.mem k upd); [trivial|]. intros I.
      apply in_app_or in I. destruct I as [I|[I|[]]]; [exact I|congruence]. }
    destruct (Dict.get k' store) as [p0|].
    + exists p0. split; [reflexivity|]. split; [apply trimmed_refl|].
      split; auto.
    + split; [reflexivity|exact U].
Qed.

Lemma unlist_fold_unlisted now song_id ks : forall a,
  unlisted now a (fold_left (Cleanup.unlist_song now song_id) ks a).
Proof.
  induction ks as [|k ks IH]; intros a; simpl; [apply unlisted_refl|].
  eapply unlisted_trans; [apply unlist_song_unlisted|apply IH].
Qed.

Lemma unlisted_get now a a' k p :
  unlisted now a a' -> Dict.get k (fst a) = Some p ->
  exists p', Dict.get k (fst a') = Some p' /\ trimmed now p p'.
Proof.
  intros (_ & _ & _ & P) G. specialize (P k). rewrite G in P.
  destruct P as (p' & G' & T & _). eauto.
Qed.

Lemma unlist_song_gone now song_id a k p :
  Dict.get k (fst a) = Some p -> NoDup (songs p) ->
  exists p', Dict.get k (fst (Cleanup.unlist_song now song_id a k)) = Some p'
             /\ ~ In song_id (songs p').
Proof.
  destruct a as [store upd]. cbn [fst]. intros G N.
  unfold Cleanup.unlist_song. rewrite G.
  destruct (PyStr.mem song_id (songs p)) eqn:M; cbn [fst].
  - rewrite get_set_same. eexists. split; [reflexivity|]. cbn.
    now apply remove_first_not_in.
  - exists p. split; [exact G|]. intros I. apply mem_In in I. congruence.
Qed.

Lemma unlist_fold_gone now song_id ks : forall a k p,
  In k ks -> Dict.get k (fst a) = Some p -> NoDup (songs p) ->
  exists p',
    Dict.get k (fst (fold_left (Cleanup.unlist_song now song_id) ks a))
    = Some p'
    /\ ~ In song_id (songs p').
Proof.
  induction ks as [|k0 ks IH]; intros a k p I G N; [destruct I|].
  cbn [fold_left]. destruct I as [E|I].
  - subst k0. destruct (unlist_song_gone now song_id a k p G N) as (p1 & G1 & N1).
    destruct (unlisted_get _ _ _ _ _
                (unlist_fold_unlisted now song_id ks _) G1) as (p' & G' & T).
    exists p'. split; [exact G'|]. intros X. apply N1.
    now apply T.
  - destruct (unlisted_get _ _ _ _ _
                (unlist_song_unlisted now song_id a k0) G) as (p1 & G1 & T).
    apply (IH _ k p1 I G1). now apply T.
Qed.

Ltac remove_song_cases env st song :=
  unfold Cleanup.remove_song, tool_songs, tool_mapping, tool_playlists,
    Remover.del_if_present;
  let Es := fresh "Es" in
  let Em := fresh "Em" in
  let Ep := fresh "Ep" in
  destruct (Cleanup.file_exists song
            && PyStr.mem (Cleanup.filename song) (f_audio (Cleanup.rm_fs st))
            && negb (unlink_fails env (Cleanup.filename song))) eqn:?;
  (let s := fresh "songs" in
   destruct (d_songs (Cleanup.songs_db (Cleanup.rm_tool st))) as [s|] eqn:Es;
   [destruct (Dict.has (Cleanup.song_id song) s) eqn:?|]);
  (let m := fresh "mapping" in
   destruct (d_mapping (Cleanup.mapping_db (Cleanup.rm_tool st)))
     as [m|] eqn:Em;
   [destruct (Dict.has (Cleanup.song_id song) m) eqn:?|]);
  (destruct (Cleanup.si_metadata song) as [?md|];
   destruct (d_playlists (Cleanup.playlists_db (Cleanup.rm_tool st)))
     as [?store|] eqn:Ep);
  try match goal with
      | |- context [fold_left ?f ?l ?a] => destruct (fold_left f l a) eqn:?
      end;
  cbn; rewrite ?Es, ?Em, ?Ep; cbn.

Lemma remove_song_artists env st song :
  Cleanup.artists_db (Cleanup.rm_tool (Cleanup.remove_song env st song))
  = Cleanup.artists_db (Cleanup.rm_tool st).
Proof. remove_song_cases env st song; reflexivity. Qed.

Lemma remove_song_songs env st song :
  tool_songs (Cleanup.rm_tool (Cleanup.remove_song env st song))
  = Remover.del_if_present (tool_songs (Cleanup.rm_tool st))
      (Cleanup.song_id song)
  /\ Cleanup.removed_from_db (Cleanup.remove_song env st song)
     = Cleanup.removed_from_db st
       + (if Dict.has (Cleanup.song_id song) (tool_songs (Cleanup.rm_tool st))
          then 1 else 0)
  /\ (d_songs (Cleanup.songs_db (Cleanup.rm_tool st)) = None ->
      d_songs (Cleanup.songs_db
                 (Cleanup.rm_tool (Cleanup.remove_song env st song))) = None).
Proof.
  remove_song_cases env st song;
    repeat match goal with H : _ = _ |- _ => rewrite H end;
    (split; [reflexivity|split; [lia|congruence]]).
Qed.

Lemma remove_song_mapping env st song :
  tool_mapping (Cleanup.rm_tool (Cleanup.remove_song env st song))
  = Remover.del_if_present (tool_mapping (Cleanup.rm_tool st))
      (Cleanup.song_id song)
  /\ (d_mapping (Cleanup.mapping_db (Cleanup.rm_tool st)) = None ->
      d_mapping (Cleanup.mapping_db
                   (Cleanup.rm_tool (Cleanup.remove_song env st song)))
      = None).
Proof.
  remove_song_cases env st song;
    repeat match goal with H : _ = _ |- _ => rewrite H end;
    (split; [reflexivity|congruence]).
Qed.

Lemma remove_song_files env st song :
  let st' := Cleanup.remove_song env st song in
  same_stores (Cleanup.rm_fs st) (Cleanup.rm_fs st')
  /\ incl (f_audio (Cleanup.rm_fs st')) (f_audio (Cleanup.rm_fs st))
  /\ List.length (f_audio (Cleanup.rm_fs st')) + Cleanup.removed_files st'
     = List.length (f_audio (Cleanup.rm_fs st)) + Cleanup.removed_files st.
Proof.
  cbv zeta. unfold same_stores.
  remove_song_cases env st song;
    repeat match goal with
           | H : _ && _ = true |- _ => apply andb_true_iff in H; destruct H
           end;
    repeat split; try reflexivity; try apply incl_refl;
    try (intros x; apply remove_first_incl);
    match goal with
    | H : PyStr.mem _ _ = true |- _ =>
        pose proof (length_remove_first _ _ H); lia
    end.
Qed.

Lemma remove_song_playlists env st song :
  let st' := Cleanup.remove_song env st song in
  (tool_playlists (Cleanup.rm_tool st'), Cleanup.updated_playlists st')
  = match Cleanup.si_metadata song,
          d_playlists (Cleanup.playlists_db (Cleanup.rm_tool st)) with
    | Some md, Some _ =>
        fold_left (Cleanup.unlist_song (now env) (Cleanup.song_id song))
          (Cleanup.sm_playlists md)
          (tool_playlists (Cleanup.rm_tool st), Cleanup.updated_playlists st)
    | _, _ => (tool_playlists (Cleanup.rm_tool st),
               Cleanup.updated_playlists st)
    end
  /\ total_playlists (Cleanup.playlists_db (Cleanup.rm_tool st'))
     = total_playlists (Cleanup.playlists_db (Cleanup.rm_tool st))
  /\ (d_playlists (Cleanup.playlists_db (Cleanup.rm_tool st)) = None ->
      d_playlists (Cleanup.playlists_db (Cleanup.rm_tool st')) = None).
Proof.
  cbv zeta.
  remove_song_cases env st song;
    (split; [congruence|split; [reflexivity|congruence]]).
Qed.

Lemma del_absent (V : Type) (d : Dict.t V) k :
  ~ In k (Dict.keys d) -> Dict.del k d = d.
Proof.
  induction d as [|[k0 v0] d IH]; simpl; [reflexivity|]. intros N.
  destruct (String.eqb k k0) eqn:E.
  - apply String.eqb_eq in E. subst k0. exfalso. apply N. now left.
  - rewrite IH; [reflexivity|]. intros I. apply N. now right.
Qed.

Lemma len_del_if_present (V : Type) (d : Dict.t V) k :
  Dict.wf d ->
  Dict.len (Remover.del_if_present d k) + (if Dict.has k d then 1 else 0)
  = Dict.len d.
Proof.
  unfold Remover.del_if_present, Dict.has, Dict.wf, Dict.len.
  induction d as [|[k0 v0] d IH]; simpl; [reflexivity|].
  intros W. inversion W as [|? ? N W']; subst.
  destruct (String.eqb k k0) eqn:E.
  - apply String.eqb_eq in E. subst k0.
    rewrite del_absent by exact N. lia.
  - specialize (IH W'). destruct (Dict.get k d); simpl in *; lia.
Qed.

Lemma wf_del_if_present (V : Type) (d : Dict.t V) k :
  Dict.wf d -> Dict.wf (Remover.del_if_present d k).
Proof.
  unfold Remover.del_if_present. destruct (Dict.has k d); [apply wf_del|auto].
Qed.

Lemma same_stores_refl fs : same_stores fs fs.
Proof. unfold same_stores. tauto. Qed.

Lemma same_stores_trans fs1 fs2 fs3 :
  same_stores fs1 fs2 -> same_stores fs2 fs3 -> same_stores fs1 fs3.
Proof. unfold same_stores. intuition congruence. Qed.

Lemma remove_fold_stores env l : forall st,
  let st' := fold_left (Cleanup.remove_song env) l st in
  tool_songs (Cleanup.rm_tool st')
  = fold_left Remover.del_if_present (map Cleanup.song_id l)
      (tool_songs (Cleanup.rm_tool st))
  /\ tool_mapping (Cleanup.rm_tool st')
     = fold_left Remover.del_if_present (map Cleanup.song_id l)
         (tool_mapping (Cleanup.rm_tool st))
  /\ Cleanup.artists_db (Cleanup.rm_tool st')
     = Cleanup.artists_db (Cleanup.rm_tool st)
  /\ (Dict.wf (tool_songs (Cleanup.rm_tool st)) ->
      Dict.len (tool_songs (Cleanup.rm_tool st')) + Cleanup.removed_from_db st'
      = Dict.len (tool_songs (Cleanup.rm_tool st)) + Cleanup.removed_from_db st).
Proof.
  induction l as [|song l IH]; intros st; cbn [fold_left map].
  - cbv zeta. auto.
  - specialize (IH (Cleanup.remove_song env st song)). cbv zeta in *.
    destruct IH as (S & M & A & L).
    destruct (remove_song_songs env st song) as (S1 & C1 & _).
    destruct (remove_song_mapping env st song) as (M1 & _).
    split; [now rewrite S, S1|]. split; [now rewrite M, M1|].
    split; [now rewrite A, remove_song_artists|].
    intros W.
    pose proof (len_del_if_present _ _ (Cleanup.song_id song) W) as D.
    rewrite <- S1 in D. rewrite L, C1; [lia|].
    rewrite S1. now apply wf_del_if_present.
Qed.

Lemma remove_fold_files env l : forall st,
  let st' := fold_left (Cleanup.remove_song env) l st in
  same_stores (Cleanup.rm_fs st) (Cleanup.rm_fs st')
  /\ incl (f_audio (Cleanup.rm_fs st')) (f_audio (Cleanup.rm_fs st))
  /\ List.length (f_audio (Cleanup.rm_fs st')) + Cleanup.removed_files st'
     = List.length (f_audio (Cleanup.rm_fs st)) + Cleanup.removed_files st.
Proof.
  induction l as [|song l IH]; intros st; cbn [fold_left].
  - cbv zeta. split; [apply same_stores_refl|]. split; [apply incl_refl|lia].
  - specialize (IH (Cleanup.remove_song env st song)). cbv zeta in *.
    destruct IH as (S & I & L).
    destruct (remove_song_files env st song) as (S1 & I1 & L1).
    split; [eapply same_stores_trans; eauto|].
    split; [eapply incl_tran; eauto|lia].
Qed.

Lemma remove_song_unlisted env st song :
  let st' := Cleanup.remove_song env st song in
  unlisted (now env)
    (tool_playlists (Cleanup.rm_tool st), Cleanup.updated_playlists st)
    (tool_playlists (Cleanup.rm_tool st'), Cleanup.updated_playlists st').
Proof.
  cbv zeta. destruct (remove_song_playlists env st song) as (E & _).
  cbv zeta in E. rewrite E.
  destruct (Cleanup.si_metadata song) as [md|]; [|apply unlisted_refl].
  destruct (d_playlists _); [|apply unlisted_refl].
  apply unlist_fold_unlisted.
Qed.

Lemma remove_fold_unlisted env l : forall st,
  let st' := fold_left (Cleanup.remove_song env) l st in
  unlisted (now env)
    (tool_playlists (Cleanup.rm_tool st), Cleanup.updated_playlists st)
    (tool_playlists (Cleanup.rm_tool st'), Cleanup.updated_playlists st')
  /\ total_playlists (Cleanup.playlists_db (Cleanup.rm_tool st'))
     = total_playlists (Cleanup.playlists_db (Cleanup.rm_tool st)).
Proof.
  induction l as [|song l IH]; intros st; cbn [fold_left].
  - cbv zeta. split; [apply unlisted_refl|reflexivity].
  - specialize (IH (Cleanup.remove_song env st song)). cbv zeta in *.
    destruct IH as (U & T).
    destruct (remove_song_playlists env st song) as (_ & T1 & _).
    split; [|congruence].
    eapply unlisted_trans; [apply remove_song_unlisted|exact U].
Qed.

Lemma remove_fold_orphans env l : forall st,
  (forall e, In e l -> Cleanup.si_metadata e = None) ->
  tool_playlists (Cleanup.rm_tool (fold_left (Cleanup.remove_song env) l st))
  = tool_playlists (Cleanup.rm_tool st).
Proof.
  induction l as [|song l IH]; intros st O; cbn [fold_left]; [reflexivity|].
  rewrite IH by (intros e I; apply O; now right).
  destruct (remove_song_playlists env st song) as (E & _). cbv zeta in E.
  rewrite (O song) in E by now left. congruence.
Qed.

Lemma remove_fold_gone env l : forall st e md k p,
  In e l -> Cleanup.si_metadata e = Some md ->
  In k (Cleanup.sm_playlists md) ->
  Dict.get k (tool_playlists (Cleanup.rm_tool st)) = Some p ->
  NoDup (songs p) ->
  exists p',
    Dict.get k (tool_playlists
                  (Cleanup.rm_tool (fold_left (Cleanup.remove_song env) l st)))
    = Some p'
    /\ ~ In (Cleanup.song_id e) (songs p').
Proof.
  induction l as [|song l IH]; intros st e md k p I M K G N; [destruct I|].
  cbn [fold_left]. destruct I as [E|I].
  - subst song.
    destruct (remove_song_playlists env st e) as (E & _). cbv zeta in E.
    rewrite M in E.
    destruct (d_playlists (Cleanup.playlists_db (Cleanup.rm_tool st))) eqn:D;
      [|unfold tool_playlists in G; rewrite D in G; discriminate G].
    destruct (unlist_fold_gone (now env) (Cleanup.song_id e)
                (Cleanup.sm_playlists md)
                (tool_playlists (Cleanup.rm_tool st),
                 Cleanup.updated_playlists st) k p K G N) as (p1 & G1 & N1).
    rewrite <- E in G1. cbn [fst] in G1.
    destruct (remove_fold_unlisted env l (Cleanup.remove_song env st e))
      as (U & _).
    destruct (unlisted_get _ _ _ _ _ U G1) as (p' & G' & T).
    exists p'. split; [exact G'|]. intros X. apply N1. now apply T.
  - destruct (unlisted_get _ _ _ _ _ (remove_song_unlisted env st song) G)
      as (p1 & G1 & T).
    apply (IH _ e md k p1 I M K G1). now apply T.
Qed.

(** Removing a non-empty selection of scanned songs drops exactly the
    selected ids from the songs and the mapping collections held in
    memory and keeps every other entry; [total_songs] becomes the new
    number of songs and the three documents are stamped; the artists
    document and the store files are left as they are. The number of
    songs reported as removed is the number of songs that left the
    collection, and the number of files reported as deleted is the
    number of files that left the songs folder. *)
Theorem remove_songs_from_databases_stores
    (env : Env) (fs : FS) (t : Cleanup.SongCleanupTool)
    (song : Cleanup.SongInfo) (rest : list Cleanup.SongInfo) :
  let r := Cleanup.remove_songs_from_databases env fs t (song :: rest) in
  let ids := map Cleanup.song_id (song :: rest) in
  let t' := Cleanup.rm_tool r in
  (forall k, Dict.get k (tool_songs t')
             = if PyStr.mem k ids then None else Dict.get k (tool_songs t))
  /\ (forall k, Dict.get k (tool_mapping t')
                = if PyStr.mem k ids then None
                  else Dict.get k (tool_mapping t))
  /\ total_songs (Cleanup.songs_db t') = Some (Dict.len (tool_songs t'))
  /\ s_last_updated (Cleanup.songs_db t') = Some (now env)
  /\ m_last_updated (Cleanup.mapping_db t') = Some (now env)
  /\ pl_last_updated (Cleanup.playlists_db t') = Some (now env)
  /\ Cleanup.artists_db t' = Cleanup.artists_db t
  /\ same_stores fs (Cleanup.rm_fs r)
  /\ incl (f_audio (Cleanup.rm_fs r)) (f_audio fs)
  /\ List.length (f_audio (Cleanup.rm_fs r)) + Cleanup.removed_files r
     = List.length (f_audio fs)
  /\ (Dict.wf (tool_songs t) ->
      Dict.len (tool_songs t') + Cleanup.removed_from_db r
      = Dict.len (tool_songs t)).
Proof.
  cbv zeta. unfold Cleanup.remove_songs_from_databases.
  set (st0 := Cleanup.mkRemoval t fs 0 0 []).
  destruct (remove_fold_stores env (song :: rest) st0) as (S & M & A & L).
  destruct (remove_fold_files env (song :: rest) st0) as (F & I & N).
  cbv zeta in *. cbn [Cleanup.rm_tool Cleanup.rm_fs Cleanup.removed_files
    Cleanup.removed_from_db Cleanup.songs_db Cleanup.mapping_db
    Cleanup.playlists_db Cleanup.artists_db total_songs s_last_updated
    m_last_updated pl_last_updated].
  unfold tool_songs, tool_mapping in *.
  cbn [Cleanup.songs_db Cleanup.mapping_db d_songs d_mapping].
  subst st0. cbn [Cleanup.rm_tool Cleanup.rm_fs Cleanup.removed_files
    Cleanup.removed_from_db] in *.
  split; [intros k; rewrite S; apply get_fold_del_if_present|].
  split; [intros k; rewrite M; apply get_fold_del_if_present|].
  split; [reflexivity|]. split; [reflexivity|]. split; [reflexivity|].
  split; [reflexivity|]. split; [exact A|]. split; [exact F|].
  split; [exact I|]. split; [lia|].
  intros W. specialize (L W). lia.
Qed.

(** Removing a selection of scanned songs keeps the keys of the
    playlist collection and [total_playlists]; a playlist changes only
    by songs leaving its list, its [total_tracks] and
    [unique_song_count] then being the new length of the list and
    its time of update the time of the removal, while its name, its
    [successful_downloads] and its other fields stay; the playlists
    reported as updated are exactly those that changed. Songs that the
    scan found without a record are taken off no playlist. *)
Theorem remove_songs_from_databases_playlists
    (env : Env) (fs : FS) (t : Cleanup.SongCleanupTool)
    (song : Cleanup.SongInfo) (rest : list Cleanup.SongInfo) :
  let r := Cleanup.remove_songs_from_databases env fs t (song :: rest) in
  let t' := Cleanup.rm_tool r in
  Dict.keys (tool_playlists t') = Dict.keys (tool_playlists t)
  /\ total_playlists (Cleanup.playlists_db t')
     = total_playlists (Cleanup.playlists_db t)
  /\ NoDup (Cleanup.updated_playlists r)
  /\ (forall k p, Dict.get k (tool_playlists t) = Some p ->
        exists p', Dict.get k (tool_playlists t') = Some p'
                   /\ trimmed (now env) p p'
                   /\ (In k (Cleanup.updated_playlists r) <-> p' <> p))
  /\ (forall k, In k (Cleanup.updated_playlists r) ->
        Dict.has k (tool_playlists t) = true)
  /\ ((forall e, In e (song :: rest) -> Cleanup.si_metadata e = None) ->
      tool_playlists t' = tool_playlists t).
Proof.
  cbv zeta. unfold Cleanup.remove_songs_from_databases.
  set (st0 := Cleanup.mkRemoval t fs 0 0 []).
  destruct (remove_fold_unlisted env (song :: rest) st0)
    as ((K & _ & N & P) & T).
  pose proof (remove_fold_orphans env (song :: rest) st0) as O.
  cbn [Cleanup.rm_tool Cleanup.updated_playlists Cleanup.playlists_db
         total_playlists].
  unfold tool_playlists in *.
  cbn [Cleanup.playlists_db d_playlists].
  subst st0. cbn [Cleanup.rm_tool Cleanup.updated_playlists fst snd] in *.
  split; [exact K|]. split; [exact T|]. split; [apply N; constructor|].
  split; [|split; [|exact O]].
  - intros k p G. specialize (P k). rewrite G in P.
    destruct P as (p' & G' & Tr & U & C). exists p'.
    split; [exact G'|]. split; [exact Tr|]. split.
    + intros I E. subst p'. destruct (U I) as [[]|X]. lia.
    + intros X. destruct C as [C|C]; [contradiction|exact C].
  - intros k I. specialize (P k). unfold Dict.has.
    destruct (Dict.get k _); [reflexivity|].
    destruct P as (_ & U). destruct (U I).
Qed.

(** A removed song that the scan found with its record is, after the
    removal, in the list of none of the playlists its record names,
    for playlists that list each song once. *)
Theorem removed_song_leaves_its_playlists
    (env : Env) (fs : FS) (t : Cleanup.SongCleanupTool)
    (songs_to_remove : list Cleanup.SongInfo)
    (e : Cleanup.SongInfo) (md : Cleanup.ScanMetadata)
    (k : string) (p : Playlist) :
  In e songs_to_remove ->
  Cleanup.si_metadata e = Some md ->
  In k (Cleanup.sm_playlists md) ->
  Dict.get k (tool_playlists t) = Some p ->
  NoDup (songs p) ->
  exists p',
    Dict.get k
      (tool_playlists
         (Cleanup.rm_tool
            (Cleanup.remove_songs_from_databases env fs t songs_to_remove)))
    = Some p'
    /\ ~ In (Cleanup.song_id e) (songs p').
Proof.
  intros I M K G N. unfold Cleanup.remove_songs_from_databases.
  destruct songs_to_remove as [|song rest]; [destruct I|].
  set (st0 := Cleanup.mkRemoval t fs 0 0 []).
  destruct (remove_fold_gone env (song :: rest) st0 e md k p I M K G N)
    as (p' & G' & N').
  exists p'. split; [exact G'|exact N'].
Qed.

Lemma removed_song_leaves_its_playlists_witness :
  exists p',
    Dict.get "p1"
      (tool_playlists
         (Cleanup.rm_tool
            (Cleanup.remove_songs_from_databases Scenario.env0
               Scenario.fs_listed
               (Cleanup.load_databases Scenario.fs_listed)
               [Cleanup.mkSongInfo "s1.mp3" "s1"
                  (Cleanup.path_of "s1.mp3") true true
                  (Cleanup.get_song_metadata_from_id "s1"
                     (Cleanup.songs_db
                        (Cleanup.load_databases Scenario.fs_listed)))])))
    = Some p'
    /\ ~ In "s1"%string (songs p').
Proof.
  apply (removed_song_leaves_its_playlists Scenario.env0 Scenario.fs_listed
           (Cleanup.load_databases Scenario.fs_listed) _
           (Cleanup.mkSongInfo "s1.mp3" "s1" (Cleanup.path_of "s1.mp3")
              true true
              (Cleanup.get_song_metadata_from_id "s1"
                 (Cleanup.songs_db
                    (Cleanup.load_databases Scenario.fs_listed))))
           (Cleanup.mkScanMetadata
              (metadata (Scenario.song "One" "u:1" ["p1"; "p2"]%string))
              ["p1"; "p2"]%string)
           "p1"%string (Scenario.playlist "Rock" ["s1"; "s2"]%string)).
  - left. reflexivity.
  - reflexivity.
  - left. reflexivity.
  - reflexivity.
  - simpl. repeat constructor; simpl; intuition discriminate.
Defined.

Lemma get_in (V : Type) (d : Dict.t V) k v :
  Dict.get k d = Some v -> In (k, v) d.
Proof.
  induction d as [|[k' v'] d IH]; simpl; [discriminate|].
  destruct (String.eqb k k') eqn:E; [|auto].
  apply String.eqb_eq in E. subst k'. intros X. inversion X. now left.
Qed.

Lemma prefix_app p s x : prefix p s = true -> prefix p (s ++ x) = true.
Proof.
  revert s. induction p as [|c p IH]; intros s.
  - intros _. now destruct (s ++ x)%string.
  - destruct s as [|d s]; simpl; [discriminate|].
    destruct (Ascii.ascii_dec c d); [apply IH|discriminate].
Qed.

Lemma scan_has_stored fs (t : Cleanup.SongCleanupTool) id s :
  In (id, s) (tool_songs t) -> PyStr.startswith "song_" id = true ->
  exists e, In e (Cleanup.scan_and_identify_songs fs t)
            /\ Cleanup.song_id e = id.
Proof.
  intros I P. unfold Cleanup.scan_and_identify_songs.
  destruct (PyStr.mem (id ++ ".mp3") (f_audio fs)) eqn:M.
  - eexists. split.
    + apply in_or_app. left. apply in_map_iff. exists (id ++ ".mp3")%string.
      split; [reflexivity|]. apply in_sorted, filter_In. split.
      * now apply mem_In.
      * rewrite endswith_app. unfold PyStr.startswith in *.
        now rewrite prefix_app.
    + apply extract_song_id_of_name.
  - eexists. split.
    + apply in_or_app. right. apply in_flat_map. exists (id, s).
      split; [exact I|]. cbn [fst]. rewrite M. left. reflexivity.
    + reflexivity.
Qed.

(** Removing everything that the scan reports leaves no song in the
    songs collection, when every song id starts with [song_], as the
    generated ids do. *)
Theorem removing_the_scan_empties_songs
    (env : Env) (fs : FS) (t : Cleanup.SongCleanupTool) :
  (forall id, In id (Dict.keys (tool_songs t)) ->
              PyStr.startswith "song_" id = true) ->
  forall k,
    Dict.get k
      (tool_songs
         (Cleanup.rm_tool
            (Cleanup.remove_songs_from_databases env fs t
               (Cleanup.scan_and_identify_songs fs t))))
    = None.
Proof.
  intros P k.
  assert (C : forall s, Dict.get k (tool_songs t) = Some s ->
                PyStr.mem k (map Cleanup.song_id
                               (Cleanup.scan_and_identify_songs fs t)) = true).
  { intros s G. apply get_in in G.
    destruct (scan_has_stored fs t k s G) as (e & I & E).
    - apply P. change (In (fst (k, s)) (map fst (tool_songs t))).
      now apply in_map.
    - apply mem_In. rewrite <- E. now apply in_map. }
  unfold Cleanup.remove_songs_from_databases.
  destruct (Cleanup.scan_and_identify_songs fs t) as [|song rest] eqn:S.
  - cbn [Cleanup.rm_tool]. destruct (Dict.get k (tool_songs t)) eqn:G;
      [|reflexivity]. specialize (C _ eq_refl). discriminate C.
  - set (st0 := Cleanup.mkRemoval t fs 0 0 []).
    destruct (remove_fold_stores env (song :: rest) st0) as (E & _).
    cbv zeta in E. cbn [Cleanup.rm_tool]. unfold tool_songs in *.
    cbn [Cleanup.songs_db d_songs]. rewrite E, get_fold_del_if_present.
    subst st0. cbn [Cleanup.rm_tool].
    destruct (Dict.get k (get_or (d_songs (Cleanup.songs_db t)) [])) eqn:G.
    + now rewrite (C _ eq_refl).
    + now destruct (PyStr.mem k _).
Qed.

Lemma removing_the_scan_empties_songs_witness :
  Dict.get
    (hd ""%string
        (Dict.keys (tool_songs (Cleanup.load_databases Scenario.fs_ingested))))
    (tool_songs
       (Cleanup.rm_tool
          (Cleanup.remove_songs_from_databases Scenario.env0
             Scenario.fs_ingested
             (Cleanup.load_databases Scenario.fs_ingested)
             (Cleanup.scan_and_identify_songs Scenario.fs_ingested
                (Cleanup.load_databases Scenario.fs_ingested)))))
  = None.
Proof.
  apply (removing_the_scan_empties_songs Scenario.env0 Scenario.fs_ingested
           (Cleanup.load_databases Scenario.fs_ingested)).
  intros id I. vm_compute in I. destruct I as [E|[]]. subst id.
  vm_compute. reflexivity.
Defined.

(* ----------------------------------------------------------------- *)
(** ** The downloader: names *)





















(* ----------------------------------------------------------------- *)
(** ** The downloader: finding and checking songs *)



Lemma check_local_files_fold fs song_ids : forall existing missing,
  fold_left
    (fun (acc : list string * list string) song_id =>
       let '(existing_songs, missing_songs) := acc in
       if Downloader.song_file_exists fs song_id
       then (existing_songs ++ [song_id], missing_songs)
       else (existing_songs, missing_songs ++ [song_id]))%list
    song_ids (existing, missing)
  = ((existing ++ filter (Downloader.song_file_exists fs) song_ids)%list,
     (missing
        ++ filter (fun id => negb (Downloader.song_file_exists fs id))
             song_ids)%list).
Proof.
  induction song_ids as [|id ids IH]; intros existing missing; simpl.
  - now rewrite !app_nil_r.
  - destruct (Downloader.song_file_exists fs id); simpl; rewrite IH;
      now rewrite <- app_assoc.
Qed.

Lemma check_local_files_eq fs song_ids :
  Downloader.check_local_files fs song_ids
  = (filter (Downloader.song_file_exists fs) song_ids,
     filter (fun id => negb (Downloader.song_file_exists fs id)) song_ids).
Proof.
  unfold Downloader.check_local_files. now rewrite check_local_files_fold.
Qed.

Lemma filter_length_split (A : Type) (f : A -> bool) (l : list A) :
  List.length (filter f l) + List.length (filter (fun x => negb (f x)) l)
  = List.length l.
Proof.
  induction l as [|x l IH]; simpl; [reflexivity|].
  destruct (f x); simpl; lia.
Qed.

(** [check_local_files] sorts every song id into exactly one of its
    two lists, keeping the order: the first list holds the ids whose
    [.mp3] file is in the songs folder, the second the others. *)
Theorem check_local_files_partition (fs : FS) (song_ids : list string) :
  let '(existing_songs, missing_songs) :=
    Downloader.check_local_files fs song_ids in
  existing_songs = filter (Downloader.song_file_exists fs) song_ids
  /\ missing_songs
     = filter (fun id => negb (Downloader.song_file_exists fs id)) song_ids
  /\ List.length existing_songs + List.length missing_songs
     = List.length song_ids
  /\ (forall id, In id song_ids ->
        (In id existing_songs <-> In (id ++ ".mp3")%string (f_audio fs))
        /\ (In id missing_songs <-> ~ In (id ++ ".mp3")%string (f_audio fs))).
Proof.
  rewrite check_local_files_eq.
  split; [reflexivity|]. split; [reflexivity|].
  split; [apply filter_length_split|].
  intros id I. rewrite !filter_In. unfold Downloader.song_file_exists.
  pose proof (mem_In (id ++ ".mp3")%string (f_audio fs)) as M.
  destruct (PyStr.mem (id ++ ".mp3") (f_audio fs)).
  - assert (F : In (id ++ ".mp3")%string (f_audio fs)) by now apply M.
    split; split; try tauto. intros [_ X]. discriminate X.
  - assert (F : ~ In (id ++ ".mp3")%string (f_audio fs)).
    { intros X. apply M in X. discriminate X. }
    split; split; simpl; tauto.
Qed.

(* ----------------------------------------------------------------- *)
(** ** The downloader: downloading *)

Lemma after_download_idempotent env id s :
  after_download env id (after_download env id s) = after_download env id s.
Proof. unfold after_download. now destruct (download_ok env id). Qed.

Lemma song_file_injective (a b : string) :
  (a ++ ".mp3")%string = (b ++ ".mp3")%string -> a = b.
Proof.
  intros E. rewrite <- (extract_song_id_of_name a), E.
  apply extract_song_id_of_name.
Qed.

Lemma mem_app x l1 l2 :
  PyStr.mem x (l1 ++ l2) = PyStr.mem x l1 || PyStr.mem x l2.
Proof.
  induction l1 as [|y l1 IH]; simpl; [reflexivity|].
  now rewrite IH, orb_assoc.
Qed.

Lemma song_file_eqb a b :
  String.eqb (a ++ ".mp3") (b ++ ".mp3") = String.eqb a b.
Proof.
  destruct (String.eqb a b) eqn:E.
  - apply String.eqb_eq in E. subst. apply String.eqb_refl.
  - apply String.eqb_neq. apply String.eqb_neq in E.
    intros X. apply E. now apply song_file_injective.
Qed.

Lemma update_status_songs now t id success :
  let t' := Downloader.update_song_download_status now t id success in
  Downloader.playlists_db t' = Downloader.playlists_db t
  /\ Downloader.mapping_db t' = Downloader.mapping_db t
  /\ total_songs (Downloader.songs_db t') = total_songs (Downloader.songs_db t)
  /\ dl_songs t'
     = match Dict.get id (dl_songs t) with
       | Some s =>
           Dict.set id
             (mkSong (metadata s) (playlists s)
                (if success
                 then mkDownloadInfo "completed"
                        (Some ("consolidated_music/songs/" ++ id ++ ".mp3")
                           %string)
                        (file_size (download_info s))
                        (quality (download_info s)) (Some now)
                 else mkDownloadInfo "failed" None
                        (file_size (download_info s))
                        (quality (download_info s)) None)
                (added_at s))
             (dl_songs t)
       | None => dl_songs t
       end.
Proof.
  cbv zeta. unfold Downloader.update_song_download_status, dl_songs.
  destruct (d_songs (Downloader.songs_db t)) as [songs|] eqn:E; cbn.
  - destruct (Dict.get id songs) eqn:G; cbn; rewrite ?E; cbn; auto.
  - rewrite E. auto.
Qed.

Lemma download_one_spec env t fs n id :
  let '(t', fs', n') := Downloader.download_one env (t, fs, n) id in
  (forall k, Dict.get k (dl_songs t')
             = if String.eqb k id
               then option_map (after_download env id)
                      (Dict.get id (dl_songs t))
               else Dict.get k (dl_songs t))
  /\ Dict.keys (dl_songs t') = Dict.keys (dl_songs t)
  /\ n' = n + (if delivered env t id then 1 else 0)
  /\ f_audio fs'
     = (if delivered env t id && negb (Downloader.song_file_exists fs id)
        then f_audio fs ++ [(id ++ ".mp3")%string] else f_audio fs)%list
  /\ same_stores fs fs'
  /\ Downloader.playlists_db t' = Downloader.playlists_db t
  /\ Downloader.mapping_db t' = Downloader.mapping_db t
  /\ total_songs (Downloader.songs_db t') = total_songs (Downloader.songs_db t).
Proof.
  unfold Downloader.download_one, Downloader.get_song_metadata, delivered,
    Dict.has.
  fold (dl_songs t).
  destruct (Dict.get id (dl_songs t)) as [s|] eqn:G; cbn [option_map].
  - destruct (download_ok env id) eqn:D.
    + destruct (update_status_songs (now env) t id true) as (P & M & T & S).
      cbv zeta in *. rewrite G in S.
      split.
      { intros k. rewrite S, get_set_cases.
        destruct (String.eqb k id); [|reflexivity].
        unfold after_download. now rewrite D. }
      split; [rewrite S; eapply keys_set_present; eauto|].
      split; [reflexivity|]. split.
      { cbn [andb]. now destruct (Downloader.song_file_exists fs id). }
      split; [|auto].
      destruct (Downloader.song_file_exists fs id);
        unfold same_stores; cbn; tauto.
    + destruct (update_status_songs (now env) t id false) as (P & M & T & S).
      cbv zeta in *. rewrite G in S.
      split.
      { intros k. rewrite S, get_set_cases.
        destruct (String.eqb k id); [|reflexivity].
        unfold after_download. now rewrite D. }
      split; [rewrite S; eapply keys_set_present; eauto|].
      split; [cbn; lia|]. split; [reflexivity|].
      split; [apply same_stores_refl|auto].
  - split.
    { intros k. destruct (String.eqb k id) eqn:E; [|reflexivity].
      apply String.eqb_eq in E. now subst k. }
    split; [reflexivity|]. split; [cbn; lia|]. split; [reflexivity|].
    split; [apply same_stores_refl|auto].
Qed.

Lemma has_of_get (V : Type) (d d' : Dict.t V) k :
  Dict.keys d' = Dict.keys d -> Dict.has k d' = Dict.has k d.
Proof.
  intros K. unfold Dict.has.
  destruct (Dict.get k d) eqn:G.
  - apply get_in_keys in G. rewrite <- K in G.
    destruct (Dict.get k d') eqn:G'; [reflexivity|].
    now apply get_none_not_in_keys in G'.
  - now rewrite (get_keys_none _ d d' k K G).
Qed.

Lemma file_after_download env t fs a fs1 id :
  f_audio fs1
  = (if delivered env t a && negb (Downloader.song_file_exists fs a)
     then f_audio fs ++ [(a ++ ".mp3")%string] else f_audio fs)%list ->
  Downloader.song_file_exists fs1 id
  = Downloader.song_file_exists fs id
    || (String.eqb id a && delivered env t a).
Proof.
  intros F. unfold Downloader.song_file_exists at 1. rewrite F.
  destruct (delivered env t a) eqn:D; cbn [andb].
  - destruct (Downloader.song_file_exists fs a) eqn:X; cbn [negb].
    + fold (Downloader.song_file_exists fs id). rewrite andb_true_r.
      destruct (String.eqb id a) eqn:E; [|now rewrite orb_false_r].
      apply String.eqb_eq in E. subst id. now rewrite X.
    + rewrite mem_app. cbn [PyStr.mem]. rewrite song_file_eqb.
      now rewrite orb_false_r, andb_true_r.
  - now rewrite andb_false_r, orb_false_r.
Qed.

Lemma download_fold_spec env ids : forall t fs n t' fs' n',
  fold_left (Downloader.download_one env) ids (t, fs, n) = (t', fs', n') ->
  (forall k, Dict.get k (dl_songs t')
             = if PyStr.mem k ids
               then option_map (after_download env k)
                      (Dict.get k (dl_songs t))
               else Dict.get k (dl_songs t))
  /\ Dict.keys (dl_songs t') = Dict.keys (dl_songs t)
  /\ n' = n + List.length (filter (delivered env t) ids)
  /\ (forall id, Downloader.song_file_exists fs' id
                 = Downloader.song_file_exists fs id
                   || (PyStr.mem id ids && delivered env t id))
  /\ incl (f_audio fs) (f_audio fs')
  /\ same_stores fs fs'
  /\ Downloader.playlists_db t' = Downloader.playlists_db t
  /\ Downloader.mapping_db t' = Downloader.mapping_db t
  /\ total_songs (Downloader.songs_db t') = total_songs (Downloader.songs_db t).
Proof.
  induction ids as [|a l IH]; intros t fs n t' fs' n' E.
  - cbn in E. inversion E. subst. cbn.
    split; [reflexivity|]. split; [reflexivity|]. split; [lia|].
    split; [intros id; now rewrite orb_false_r|].
    split; [apply incl_refl|]. split; [apply same_stores_refl|auto].
  - cbn [fold_left] in E.
    pose proof (download_one_spec env t fs n a) as S.
    destruct (Downloader.download_one env (t, fs, n) a) as [[t1 fs1] n1].
    destruct S as (G1 & K1 & N1 & F1 & S1 & P1 & M1 & T1).
    destruct (IH _ _ _ _ _ _ E) as (G & K & N & F & I & S & P & M & T).
    assert (D : forall id, delivered env t1 id = delivered env t id).
    { intros id. unfold delivered. now rewrite (has_of_get _ _ _ id K1). }
    split.
    { intros k. rewrite G, G1. cbn [PyStr.mem].
      destruct (String.eqb k a) eqn:Ek; cbn [orb].
      - apply String.eqb_eq in Ek. subst k.
        destruct (PyStr.mem a l); [|reflexivity].
        destruct (Dict.get a (dl_songs t)); cbn; [|reflexivity].
        now rewrite after_download_idempotent.
      - reflexivity. }
    split; [congruence|]. split.
    { rewrite N, N1. cbn [filter]. rewrite (filter_ext _ _ D).
      destruct (delivered env t a); cbn [List.length]; lia. }
    split.
    { intros id. rewrite F, D, (file_after_download env t fs a fs1 id F1).
      cbn [PyStr.mem].
      destruct (Downloader.song_file_exists fs id),
        (String.eqb id a) eqn:Ea, (PyStr.mem id l),
        (delivered env t id) eqn:Di; try reflexivity;
        apply String.eqb_eq in Ea; subst id; now rewrite Di. }
    split.
    { eapply incl_tran; [|exact I]. rewrite F1.
      destruct (_ && _); [apply incl_appl|]; apply incl_refl. }
    split; [eapply same_stores_trans; eauto|].
    split; [congruence|]. split; congruence.
Qed.

(** [download_missing_songs] tries one download for every listed song
    that has a record and none for the others: the record of a listed
    song gets the status [completed], its file path and the time when
    the download succeeded and the status [failed] without path and
    time when it did not, every other song is as before; the number
    returned is the number of downloads that succeeded; afterwards the
    files of the songs folder are the ones before and those of the
    delivered songs; the playlists, the mapping and the store files
    are untouched. *)
Theorem download_missing_songs_effects
    (env : Env) (fs : FS) (t : Downloader.PlaylistSongDownloader)
    (missing_song_ids : list string) :
  let '(t', fs', successful_downloads) :=
    Downloader.download_missing_songs env fs t missing_song_ids in
  (forall k, Dict.get k (dl_songs t')
             = if PyStr.mem k missing_song_ids
               then option_map (after_download env k)
                      (Dict.get k (dl_songs t))
               else Dict.get k (dl_songs t))
  /\ Dict.keys (dl_songs t') = Dict.keys (dl_songs t)
  /\ successful_downloads
     = List.length (filter (delivered env t) missing_song_ids)
  /\ successful_downloads <= List.length missing_song_ids
  /\ (forall id, Downloader.song_file_exists fs' id
                 = Downloader.song_file_exists fs id
                   || (PyStr.mem id missing_song_ids && delivered env t id))
  /\ incl (f_audio fs) (f_audio fs')
  /\ same_stores fs fs'
  /\ Downloader.playlists_db t' = Downloader.playlists_db t
  /\ Downloader.mapping_db t' = Downloader.mapping_db t.
Proof.
  assert (E : Downloader.download_missing_songs env fs t missing_song_ids
              = fold_left (Downloader.download_one env) missing_song_ids
                  (t, fs, 0)).
  { unfold Downloader.download_missing_songs. now destruct missing_song_ids. }
  rewrite E.
  destruct (fold_left _ _ _) as [[t' fs'] n'] eqn:F.
  destruct (download_fold_spec env _ _ _ _ _ _ _ F)
    as (G & K & N & X & I & S & P & M & _).
  cbn [Nat.add] in N.
  split; [exact G|]. split; [exact K|]. split; [exact N|].
  split; [rewrite N; apply filter_length_le|]. auto.
Qed.

(* ----------------------------------------------------------------- *)
(** ** The downloader: the playlist record and the whole run *)

Lemma update_playlist_database_spec env fs t playlist_name ids n :
  let t' := Downloader.update_playlist_database env fs t playlist_name
              ids n in
  let key := Downloader.playlist_key_of playlist_name in
  (exists p,
     Dict.get key (dl_playlists t') = Some p
     /\ name p = playlist_name /\ songs p = ids /\ song_ids p = None
     /\ total_tracks p = List.length ids
     /\ unique_song_count p = List.length ids
     /\ successful_downloads p
        = List.length (filter (Downloader.song_file_exists fs) ids)
     /\ p_last_updated p = now env
     /\ p_created_at p
        = match Dict.get key (dl_playlists t) with
          | Some old => p_created_at old
          | None => now env
          end)
  /\ (forall k, k <> key ->
        Dict.get k (dl_playlists t') = Dict.get k (dl_playlists t))
  /\ total_playlists (Downloader.playlists_db t')
     = Some (Dict.len (dl_playlists t'))
  /\ Downloader.songs_db t' = Downloader.songs_db t
  /\ Downloader.mapping_db t' = Downloader.mapping_db t.
Proof.
  cbv zeta. unfold Downloader.update_playlist_database, dl_playlists.
  cbn [Downloader.playlists_db Downloader.songs_db Downloader.mapping_db
         d_playlists total_playlists get_or].
  split.
  - rewrite get_set_same. eexists. split; [reflexivity|].
    destruct (Dict.get _ _); cbn; repeat split; reflexivity.
  - split; [|auto]. intros k N. now apply get_set_other.
Qed.

(** [update_playlist_database] stores the playlist under the key of
    its name, replacing what was there: the record has the name, the
    given songs under ['songs'] (and no ['song_ids']), both track
    counts equal to their number, and as [successful_downloads] the
    number of listed songs whose file is in the songs folder, whatever
    number of downloads is passed in; the time of creation of a
    replaced record is kept. Every other playlist, the songs and the
    mapping are untouched, and [total_playlists] is the number of
    playlists. *)
Theorem update_playlist_database_entry
    (env : Env) (fs : FS) (t : Downloader.PlaylistSongDownloader)
    (playlist_name : string) (ids : list string) (n : nat) :
  let t' := Downloader.update_playlist_database env fs t playlist_name
              ids n in
  let key := Downloader.playlist_key_of playlist_name in
  (exists p,
     Dict.get key (dl_playlists t') = Some p
     /\ name p = playlist_name /\ songs p = ids /\ song_ids p = None
     /\ total_tracks p = List.length ids
     /\ unique_song_count p = List.length ids
     /\ successful_downloads p
        = List.length (filter (Downloader.song_file_exists fs) ids)
     /\ successful_downloads p <= total_tracks p
     /\ p_last_updated p = now env
     /\ p_created_at p
        = match Dict.get key (dl_playlists t) with
          | Some old => p_created_at old
          | None => now env
          end)
  /\ (forall k, k <> key ->
        Dict.get k (dl_playlists t') = Dict.get k (dl_playlists t))
  /\ (Dict.has key (dl_playlists t) = true ->
      Dict.keys (dl_playlists t') = Dict.keys (dl_playlists t))
  /\ total_playlists (Downloader.playlists_db t')
     = Some (Dict.len (dl_playlists t'))
  /\ Downloader.songs_db t' = Downloader.songs_db t
  /\ Downloader.mapping_db t' = Downloader.mapping_db t
  /\ t' = Downloader.update_playlist_database env fs t playlist_name ids 0.
Proof.
  cbv zeta.
  destruct (update_playlist_database_spec env fs t playlist_name ids n)
    as ((p & G & A1 & A2 & A3 & A4 & A5 & A6 & A7 & A8) & F & T & S & M).
  cbv zeta in *.
  split.
  { exists p. repeat (split; [assumption|]).
    split; [rewrite A6, A4; apply filter_length_le|]. auto. }
  split; [exact F|]. split; [|auto].
  intros H. unfold Downloader.update_playlist_database, dl_playlists.
  cbn [Downloader.playlists_db d_playlists get_or].
  unfold Dict.has, dl_playlists in H.
  destruct (Dict.get (Downloader.playlist_key_of playlist_name)
              (get_or (d_playlists (Downloader.playlists_db t)) [])) eqn:E;
    [|discriminate H].
  eapply keys_set_present; eauto.
Qed.

Lemma downloader_save_files env fs (t : Downloader.PlaylistSongDownloader) :
  let fs' := fst (fst (Downloader.save_databases env fs t)) in
  f_songs fs' = (if write_fails env SongsStore then f_songs fs
                 else Some (Downloader.songs_db t))
  /\ f_playlists fs' = (if write_fails env PlaylistsStore then f_playlists fs
                        else Some (Downloader.playlists_db t))
  /\ f_mapping fs' = (if write_fails env MappingStore then f_mapping fs
                      else Some (Downloader.mapping_db t))
  /\ f_artists fs' = f_artists fs
  /\ f_audio fs' = f_audio fs
  /\ f_backups fs' = f_backups fs.
Proof.
  cbv zeta.
  unfold Downloader.save_databases, Downloader.save_one,
    Downloader.save_json_file, dump.
  cbn [store_of].
  destruct (write_fails env SongsStore), (write_fails env PlaylistsStore),
    (write_fails env MappingStore); cbn; auto 10.
Qed.

Lemma filter_filter (A : Type) (f g : A -> bool) (l : list A) :
  filter f (filter g l) = filter (fun x => g x && f x) l.
Proof.
  induction l as [|x l IH]; simpl; [reflexivity|].
  destruct (g x); simpl; [destruct (f x)|]; now rewrite IH.
Qed.

Lemma filter_length_or (A : Type) (f g : A -> bool) (l : list A) :
  List.length (filter (fun x => f x || (negb (f x) && g x)) l)
  = List.length (filter f l)
    + List.length (filter (fun x => negb (f x) && g x) l).
Proof.
  induction l as [|x l IH]; simpl; [reflexivity|].
  destruct (f x); simpl; [lia|]. destruct (g x); simpl; lia.
Qed.

(** A run of [process_playlist]. When no song of the mapping holds the
    name, nothing changes and nothing is written. Otherwise the songs
    found are split into those with a file and those without, the
    latter are downloaded, and the playlist record stored under the
    key of the name lists the songs found, with [total_tracks] their
    number and [successful_downloads] the number that had a file plus
    the number downloaded; the numbers of the summary add up to the
    total; the mapping is as before and the artists file is not
    touched; when no write fails the three files hold the documents of
    the downloader. *)
Theorem process_playlist_summary
    (env : Env) (fs : FS) (t : Downloader.PlaylistSongDownloader)
    (playlist_name : string) :
  let ids := Downloader.find_playlist_songs t playlist_name in
  let '(t', fs', summary) :=
    Downloader.process_playlist env fs t playlist_name in
  match summary with
  | None => ids = [] /\ t' = t /\ fs' = fs
  | Some s =>
      ids <> []
      /\ Downloader.total s = List.length ids
      /\ Downloader.already_existing s
         = List.length (filter (Downloader.song_file_exists fs) ids)
      /\ Downloader.downloaded s
         = List.length
             (filter (fun id => negb (Downloader.song_file_exists fs id)
                                && delivered env t id) ids)
      /\ Downloader.total s
         = Downloader.already_existing s + Downloader.downloaded s
           + Downloader.failed s
      /\ (exists p,
            Dict.get (Downloader.playlist_key_of playlist_name)
                     (dl_playlists t') = Some p
            /\ name p = playlist_name /\ songs p = ids
            /\ total_tracks p = Downloader.total s
            /\ successful_downloads p
               = Downloader.already_existing s + Downloader.downloaded s)
      /\ Downloader.mapping_db t' = Downloader.mapping_db t
      /\ Dict.keys (dl_songs t') = Dict.keys (dl_songs t)
      /\ f_artists fs' = f_artists fs
      /\ ((forall st, write_fails env st = false) ->
          f_songs fs' = Some (Downloader.songs_db t')
          /\ f_playlists fs' = Some (Downloader.playlists_db t')
          /\ f_mapping fs' = Some (Downloader.mapping_db t'))
  end.
Proof.
  cbv zeta. unfold Downloader.process_playlist.
  destruct (Downloader.find_playlist_songs t playlist_name)
    as [|id0 rest] eqn:Eids; [auto|].
  set (ids := id0 :: rest).
  rewrite check_local_files_eq.
  set (missing := filter (fun id => negb (Downloader.song_file_exists fs id))
                    ids).
  assert (E : match missing with
              | [] => (t, fs, 0)
              | _ :: _ => Downloader.download_missing_songs env fs t missing
              end
              = fold_left (Downloader.download_one env) missing (t, fs, 0)).
  { unfold Downloader.download_missing_songs. now destruct missing. }
  rewrite E. clear E.
  destruct (fold_left _ _ _) as [[t1 fs1] n1] eqn:F.
  destruct (download_fold_spec env _ _ _ _ _ _ _ F)
    as (G & K & N & X & I & S & P & M & _).
  cbn [Nat.add] in N.
  pose proof (downloader_save_files env fs1
                (Downloader.update_playlist_database env fs1 t1
                   playlist_name ids n1)) as W.
  destruct (Downloader.save_databases env fs1 _) as [[fs2 c] out].
  cbv zeta in W. cbn [fst] in W.
  destruct W as (W1 & W2 & W3 & W4 & _).
  destruct (update_playlist_database_spec env fs1 t1 playlist_name ids n1)
    as ((p & Gp & A1 & A2 & A3 & A4 & A5 & A6 & A7 & A8) & _ & _ & Sd & Md).
  cbv zeta in *.
  cbn [Downloader.total Downloader.already_existing Downloader.downloaded
         Downloader.failed].
  assert (N' : n1 = List.length
                      (filter (fun id =>
                                 negb (Downloader.song_file_exists fs id)
                                 && delivered env t id) ids)).
  { rewrite N. unfold missing. now rewrite filter_filter. }
  pose proof (filter_length_split _ (Downloader.song_file_exists fs) ids) as L.
  fold missing in L.
  assert (Le : n1 <= List.length missing).
  { rewrite N. apply filter_length_le. }
  split; [discriminate|]. split; [reflexivity|]. split; [reflexivity|].
  split; [exact N'|]. split; [lia|]. split.
  { exists p. split; [exact Gp|]. split; [exact A1|]. split; [exact A2|].
    split; [exact A4|]. rewrite A6, N', <- filter_length_or.
    f_equal. apply filter_ext_in. intros id Iid. rewrite X. f_equal.
    f_equal. unfold missing.
    destruct (PyStr.mem id (filter _ ids)) eqn:Mm.
    - apply mem_In, filter_In in Mm. now destruct Mm as [_ ->].
    - destruct (Downloader.song_file_exists fs id) eqn:Sf; [reflexivity|].
      assert (In id (filter (fun id => negb (Downloader.song_file_exists fs id))
                       ids)).
      { apply filter_In. split; [exact Iid|]. now rewrite Sf. }
      apply mem_In in H. congruence. }
  split; [congruence|].
  split; [unfold dl_songs in *; rewrite Sd; exact K|].
  split; [destruct S as (_ & _ & Sa & _); congruence|].
  intros Ok. rewrite !Ok in *. auto.
Qed.

(* ----------------------------------------------------------------- *)
(** ** The scraper: the stored name of an artist *)

(** The name of an artist is fixed by the first [store_artist_info]
    for its uri: after a call for the uri [spotify:artist:<id>] and a
    save without failing writes, [get_artist_name_from_database]
    returns the name that was stored before the call when the artist
    was known, and the name of the call when it was not; a blank name
    and ['Unknown Artist'] read as no name. *)
Theorem artist_name_round_trip
    (env : Env) (fs : FS) (m m' : Scraper.SmartSongManager)
    (artist_id artist_name playlist_key now : string) :
  (forall s, write_fails env s = false) ->
  Scraper.store_artist_info m ("spotify:artist:" ++ artist_id) artist_name
    playlist_key now = Ok m' ->
  let stored :=
    match Dict.get ("spotify:artist:" ++ artist_id)%string
                   (Scraper.existing_artists m) with
    | Some a => a_name a
    | None => artist_name
    end in
  Scraper.get_artist_name_from_database (Scraper.save_databases env fs m')
    artist_id
  = if PyStr.truthy stored && negb (String.eqb stored "Unknown Artist")
    then stored else ""%string.
Proof.
  intros F S. cbv zeta.
  destruct (ingestion_save_files env fs m' F) as (_ & _ & A & _).
  cbv zeta in A. unfold Scraper.get_artist_name_from_database.
  rewrite A. cbn [d_artists get_or].
  unfold Scraper.store_artist_info in S.
  destruct (Dict.get ("spotify:artist:" ++ artist_id)
                     (Scraper.existing_artists m)) as [a|] eqn:G.
  - destruct (negb _).
    + destruct (playlist_ids a); [|discriminate S].
      inversion S. subst m'. cbn. now rewrite get_set_same.
    + inversion S. subst m'. now rewrite G.
  - inversion S. subst m'. cbn. now rewrite get_set_same.
Qed.

Lemma artist_name_round_trip_witness :
  Scraper.get_artist_name_from_database
    (Scraper.save_databases Scenario.env0 Scenario.fs_empty
       (Scraper.with_artists (Scraper.load_existing_databases Scenario.fs_empty)
          [("spotify:artist:x1"%string,
            mkArtist "X" "spotify:artist:x1" (Some ["artist_x1"%string])
                     Scenario.t0 Scenario.t0)]))
    "x1"
  = "X"%string.
Proof.
  apply (artist_name_round_trip Scenario.env0 Scenario.fs_empty
           (Scraper.load_existing_databases Scenario.fs_empty) _
           "x1" "X" "artist_x1" Scenario.t0).
  - intros s. reflexivity.
  - reflexivity.
Defined.
